(** * LinkMind "RICO Act edition": the audit pipeline of HuaweiRTNAdapter.py

    A shallow embedding of the Python module: the fail-soft field
    extraction, the Huawei adapter, the concurrent offense evaluator, the
    probation state machine over the two SQLite tables, the batch
    remediation and the simulation of the [__main__] block, followed by
    the properties of the design document and by further properties of
    the code.

    Conventions of the embedding.
    - A Python [int] is a [Z]; a Python [float] is a binary64 value, Rocq's
      primitive [float], with the same round-to-nearest-even arithmetic.
      Mixed int/float arithmetic converts the int first (and raises
      OverflowError when it does not fit); mixed comparisons are exact.
    - A Python [str] is a [string], one character per code point; the model
      covers text whose code points are below 256, where the regex class
      [\d] is 0-9 and [\s] is the set listed in [is_space].
    - A raised exception is a value [Raise e] of [result]; code that also
      touches the database runs in the monad [M] over a [World].
    - [date.today()] is an argument [today] of an audit (a day number);
      dates are stored as day numbers, [date.fromisoformat] and
      [isoformat] being inverse to each other on them. One audit reads
      one [today]: it does not straddle midnight.
    - Each database call opens its own connection and commits, so a call
      is one [Event] of the trace; the line written to godfather.log by
      [logger.critical] is not part of the [World].
    - The columns hold what SQLite stores: dates as day numbers, and in
      [strike_count] a 64-bit INTEGER, or, from 2^63 on, the REAL that
      [strike_count+1] overflows to (see [add1]). *)

From Stdlib Require Import ZArith String Ascii Floats DecimalString Bool Lia.
From Stdlib Require DecimalZ.
From stdpp Require Import gmap strings list fin_maps.

Set Warnings "-inexact-float".
Open Scope string_scope.
Open Scope list_scope.
Open Scope Z_scope.

(** ** Exceptions *)

Inductive exn := AttributeError | OverflowError | ValueError.

Inductive result (A : Type) :=
  | Ok (a : A)
  | Raise (e : exn).
Arguments Ok {A} a.
Arguments Raise {A} e.

Definition rbind {A B} (r : result A) (k : A -> result B) : result B :=
  match r with
  | Ok a => k a
  | Raise e => Raise e
  end.

Notation "'let*' x ':=' r 'in' k" := (rbind r (fun x => k))
  (at level 10, x name, r at level 100, k at level 200).

(** ** Python numbers *)

Module PyNum.

(** [float(n)] for an int, as in every mixed product [n * x]:
    correctly rounded, OverflowError beyond the binary64 range. *)
Definition float_of_int (n : Z) : result float :=
  match binary_normalize prec emax n 0 false with
  | S754_infinity _ => Raise OverflowError
  | f => Ok (SF2Prim f)
  end.

(** [int(x)] for a float: truncation toward zero. *)
Definition int_of_float (x : float) : result Z :=
  match Prim2SF x with
  | S754_nan => Raise ValueError
  | S754_infinity _ => Raise OverflowError
  | S754_zero _ => Ok 0
  | S754_finite s m e =>
      let a := if 0 <=? e then Z.pos m * 2 ^ e else Z.pos m / 2 ^ (- e) in
      Ok (if s then - a else a)
  end.

(** The float denoted by the decimal numeral [m / 10^k], correctly
    rounded, as [float("...")] and float literals are. *)
Definition float_of_decimal (m : Z) (k : nat) : float :=
  match m with
  | Z.pos p =>
      SF2Prim (SFdiv prec emax (S754_finite false p 0)
                 (S754_finite false (Z.to_pos (10 ^ Z.of_nat k)) 0))
  | _ => 0%float
  end.

(** Exact comparison of an int with a float (Python compares the
    mathematical values, never a rounded int). *)
Definition compare_int_float (n : Z) (x : float) : option comparison :=
  match Prim2SF x with
  | S754_nan => None
  | S754_infinity s => Some (if s then Gt else Lt)
  | S754_zero _ => Some (n ?= 0)
  | S754_finite s m e =>
      let v := if s then Z.neg m else Z.pos m in
      Some (if 0 <=? e then n ?= v * 2 ^ e else n * 2 ^ (- e) ?= v)
  end.

(** [n > x] *)
Definition int_gt_float (n : Z) (x : float) : bool :=
  match compare_int_float n x with Some Gt => true | _ => false end.

(** [n == x] *)
Definition int_eq_float (n : Z) (x : float) : bool :=
  match compare_int_float n x with Some Eq => true | _ => false end.

(** [x < n] *)
Definition float_lt_int (x : float) (n : Z) : bool :=
  match compare_int_float n x with Some Gt => true | _ => false end.

(** [n * x] with [n] an int and [x] a float. *)
Definition int_mul_float (n : Z) (x : float) : result float :=
  let* a := float_of_int n in Ok (a * x)%float.

(** [str(n)] *)
Definition str (n : Z) : string := NilZero.string_of_int (Z.to_int n).

End PyNum.
Import PyNum.

(** ** CONFIG *)

Record Costs := { LICENSE_MBPS : float; BW_MHZ : float; POWER_WATT : float }.

Record Config := {
  DB_PATH : string;
  LOG_FILE : string;
  PROBATION_DAYS : Z;
  SAFETY_MARGIN : float;
  COSTS : Costs
}.

Definition CONFIG : Config := {|
  DB_PATH := "LinkMind_Network.db";
  LOG_FILE := "godfather.log";
  PROBATION_DAYS := 15;
  SAFETY_MARGIN := 1.2%float;
  COSTS := {| LICENSE_MBPS := 10.0%float;
              BW_MHZ := 20.0%float;
              POWER_WATT := 5.0%float |}
|}.

(** ** Regular expressions

    The fragment of Python's [re] the module uses: literal characters and
    greedy repetitions of a character class, one of which may be group 1.
    [search] scans for the leftmost match and backtracks over the
    repetitions from the longest run down, as the [re] engine does. *)

Module re.

Inductive item :=
  | Chr (c : ascii)
  | Rep (cls : ascii -> bool) (least : nat) (group : bool).

Definition regex := list item.

Definition lit (s : string) : regex := map Chr (list_ascii_of_string s).

Definition in_range (lo hi c : ascii) : bool :=
  (nat_of_ascii lo <=? nat_of_ascii c)%nat && (nat_of_ascii c <=? nat_of_ascii hi)%nat.

(** [\d] *)
Definition is_digit (c : ascii) : bool := in_range "0" "9" c.

(** [\s]: the code points below 256 for which [str.isspace] holds *)
Definition is_space (c : ascii) : bool :=
  let n := nat_of_ascii c in
  ((9 <=? n) && (n <=? 13) || (28 <=? n) && (n <=? 32)
   || (n =? 133) || (n =? 160))%nat.

(** [[A-Z]] *)
Definition is_upper (c : ascii) : bool := in_range "A" "Z" c.

(** [[A-Z0-9_]] *)
Definition is_name (c : ascii) : bool :=
  is_upper c || is_digit c || Ascii.eqb c "_".

(** [[\d.]] *)
Definition is_digit_or_dot (c : ascii) : bool :=
  is_digit c || Ascii.eqb c ".".

(** Length of the longest prefix of [s] inside the class. *)
Fixpoint span (cls : ascii -> bool) (s : list ascii) : nat :=
  match s with
  | c :: s' => if cls c then S (span cls s') else O
  | [] => O
  end.

(** Try [k], [k-1], ... down to [least] repetitions. *)
Fixpoint backtrack {A} (k least : nat) (try : nat -> option A) : option A :=
  if (k <? least)%nat then None
  else match try k with
       | Some r => Some r
       | None => match k with
                 | O => None
                 | S k' => backtrack k' least try
                 end
       end.

(** A match of [r] anchored at the start of [s]; the result carries
    group 1 when [r] has one. *)
Fixpoint match_here (r : regex) (s : list ascii) : option (option (list ascii)) :=
  match r with
  | [] => Some None
  | Chr c :: r' =>
      match s with
      | c' :: s' => if Ascii.eqb c c' then match_here r' s' else None
      | [] => None
      end
  | Rep cls least group :: r' =>
      backtrack (span cls s) least (fun k =>
        match match_here r' (drop k s) with
        | Some g => Some (if group then Some (take k s) else g)
        | None => None
        end)
  end.

Fixpoint search_from (r : regex) (s : list ascii) : option (option (list ascii)) :=
  match match_here r s with
  | Some g => Some g
  | None => match s with
            | [] => None
            | _ :: s' => search_from r s'
            end
  end.

(** [re.search(pattern, text)]: [None], or the match object, of which
    only [group(1)] is ever used. *)
Definition search (pattern : regex) (text : string) : option (option string) :=
  option_map (option_map string_of_list_ascii)
    (search_from pattern (list_ascii_of_string text)).

End re.

(** ** 1. Safe utils *)

Module PyStr.

Definition digit_value (c : ascii) : Z := Z.of_nat (nat_of_ascii c) - 48.

(** Value of a run of decimal digits, other characters skipped. *)
Definition digits_value (s : list ascii) : Z :=
  fold_left (fun acc c => if re.is_digit c then acc * 10 + digit_value c else acc) s 0.

Definition count (cls : ascii -> bool) (s : list ascii) : nat :=
  length (filter (fun c => cls c = true) s).

(** Underscores are accepted only between two digits. *)
Fixpoint well_grouped (prev_digit : bool) (s : list ascii) : bool :=
  match s with
  | [] => prev_digit
  | c :: s' =>
      if re.is_digit c then well_grouped true s'
      else if Ascii.eqb c "_" then prev_digit && well_grouped false s'
      else false
  end.

(** The default of [sys.get_int_max_str_digits()]. *)
Definition int_max_str_digits : nat := 4300.

(** [int(s)] on the strings a capture group can hold (no sign, no
    blanks): decimal digits, single underscores between them, and at
    most [int_max_str_digits] digits; ValueError otherwise. *)
Definition int_of_str (s : string) : result Z :=
  let l := list_ascii_of_string s in
  if well_grouped false l && (count re.is_digit l <=? int_max_str_digits)%nat
  then Ok (digits_value l)
  else Raise ValueError.

(** [float(s)] on the strings of the class [[\d.]]: digits with at
    most one point and at least one digit; ValueError otherwise. *)
Definition float_of_str (s : string) : result float :=
  let l := list_ascii_of_string s in
  if forallb re.is_digit_or_dot l
     && (1 <=? count re.is_digit l)%nat
     && (count (Ascii.eqb ".") l <=? 1)%nat
  then
    let frac := drop (S (re.span re.is_digit l)) l in
    Ok (float_of_decimal (digits_value l) (length frac))
  else Raise ValueError.

(** [needle in hay] *)
Fixpoint contains (needle hay : string) : bool :=
  String.prefix needle hay
  || match hay with
     | EmptyString => false
     | String _ hay' => contains needle hay'
     end.

End PyStr.

(** [safe_extract(pattern, text, default, return_type)].  The argument
    [return_type] is only ever compared with [float]: it selects the
    conversion applied to group 1, [float(...)] or else [int(...)] (also
    for [return_type=str]).  A failed conversion, like a failed search,
    yields [default]. *)
Definition safe_extract {A} (pattern : re.regex) (text : string) (default : A)
    (return_type : string -> result A) : A :=
  match re.search pattern text with
  | None => default
  | Some m =>
      match (match m with
             | Some group1 => return_type group1
             | None => Raise ValueError
             end) with
      | Ok v => v
      | Raise _ => default
      end
  end.

Definition detect_vendor (raw_text : string) : string :=
  if PyStr.contains "Current License Capacity" raw_text then "Huawei"
  else "Unknown".

(** ** 2. Data structures *)

(** What ends up in [NodeData.id]: [safe_extract] converts the banner
    name with [int(...)], so an id is an int or the default string. *)
Inductive PyId :=
  | IdInt (n : Z)
  | IdStr (s : string).

Record NodeData := {
  id : PyId;
  vendor : string;
  bandwidth : Z;
  throughput : float;
  license_reserved : Z;
  license_actual : Z;
  admin_status : string
}.

Record Offense := {
  code : string;          (* LICENSE, BW, ZOMBIE *)
  wasted_qty : Z;
  saving_value : float;
  details : string
}.

Record Verdict := {
  status : string;        (* Guilty / Innocent *)
  offenses : list Offense;
  total_savings : float
}.

(** The result of an audit.  The source returns a formatted line; the
    constructors keep the interpolated values of each f-string. *)
Inductive ScriptLine :=
  | Header (id : PyId) (days : Z)            (* // RICO ACT EXECUTION: {id} (After {days} days) *)
  | Comment (what : string) (saving : float) (* // {what} (Save ${saving}) *)
  | Command (cmd : string).

Inductive Report :=
  | UnknownVendor                                       (* Unknown Vendor Signature *)
  | Clean (id : PyId)                                   (* {id}: Clean. *)
  | Cleared (id : PyId)                                 (* {id}: Cleared of all charges. *)
  | Indicted (id : PyId) (crimes_summary : string)      (* Indicted for [...]. Probation Day 1. *)
  | Surveillance (id : PyId) (days : Z) (crimes_summary : string)
  | Jackpot (id : PyId) (total_savings : float) (crimes : nat)
            (full_script : list ScriptLine).

(** ** 3. Database manager *)

Record ProbationRow := {
  offense_summary : string;
  start_date : Z;
  last_seen : Z;
  strike_count : Z
}.

Record LedgerRow := {
  ledger_date : Z;
  ledger_link_id : string;
  action_taken : string;
  recovered_value : float
}.

(** The two tables: [probation_list] has [link_id] as primary key,
    [financial_ledger] only grows. *)
Record Database := {
  probation_list : gmap string ProbationRow;
  financial_ledger : list LedgerRow
}.

(** The calls an audit makes on its collaborators, in order. *)
Inductive Event :=
  | EvParse (text : string)
  | EvSelect (link_id : string)
  | EvInsert (link_id : string)
  | EvUpdate (link_id : string)
  | EvDelete (link_id : string)
  | EvLedger (link_id : string) (action : string).

Record World := {
  db : Database;
  trace : list Event
}.

(** Code with effects: a result and the world it leaves, also when it
    raises. *)
Definition M (A : Type) : Type := World -> result A * World.

Definition ret {A} (a : A) : M A := fun w => (Ok a, w).

Definition bind {A B} (m : M A) (k : A -> M B) : M B :=
  fun w => match m w with
           | (Ok a, w') => k a w'
           | (Raise e, w') => (Raise e, w')
           end.

Definition lift {A} (r : result A) : M A := fun w => (r, w).

Notation "x <- m ;; k" := (bind m (fun x => k))
  (at level 100, m at next level, right associativity).
Notation "m ;; k" := (bind m (fun _ => k))
  (at level 100, right associativity).

Definition emit (ev : Event) : M unit :=
  fun w => (Ok tt, {| db := db w; trace := trace w ++ [ev] |}).

Definition read_db : M Database := fun w => (Ok (db w), w).

Definition write_db (d : Database) : M unit :=
  fun w => (Ok tt, {| db := d; trace := trace w |}).

Module DatabaseManager.

(** How sqlite3 binds [link_id]: a str as it is, an int as a 64-bit
    INTEGER, which the TEXT column compares and stores in its decimal
    form; an int outside 64 bits raises OverflowError. *)
Definition bind_link_id (link_id : PyId) : result string :=
  match link_id with
  | IdStr s => Ok s
  | IdInt n =>
      if (- 2 ^ 63 <=? n) && (n <? 2 ^ 63) then Ok (str n)
      else Raise OverflowError
  end.

(** SELECT start_date, strike_count FROM probation_list WHERE link_id=? *)
Definition check_probation (link_id : PyId) : M (option (Z * Z)) :=
  k <- lift (bind_link_id link_id);;
  emit (EvSelect k);;
  d <- read_db;;
  ret (match probation_list d !! k with
       | Some row => Some (start_date row, strike_count row)
       | None => None
       end).

(** INSERT OR IGNORE INTO probation_list VALUES (?, ?, today, today, 1) *)
Definition add_suspect (today : Z) (link_id : PyId) (summary : string) : M unit :=
  k <- lift (bind_link_id link_id);;
  emit (EvInsert k);;
  d <- read_db;;
  write_db {| probation_list :=
                match probation_list d !! k with
                | Some _ => probation_list d
                | None => <[ k := {| offense_summary := summary;
                                     start_date := today;
                                     last_seen := today;
                                     strike_count := 1 |} ]> (probation_list d)
                end;
              financial_ledger := financial_ledger d |}.

(** [strike_count+1] as SQLite computes it on the INTEGER column: the
    sum of two 64-bit integers, and when that overflows, at 2^63 - 1, the
    REAL sum 9223372036854775808.0, which the column keeps as a REAL.  A
    count outside the 64-bit integers stands for the REAL of that value,
    and such a REAL plus 1 is the same REAL again. *)
Definition add1 (count : Z) : Z :=
  if (- 2 ^ 63 <=? count) && (count <? 2 ^ 63) then count + 1 else count.

Definition strike (today : Z) (row : ProbationRow) : ProbationRow :=
  {| offense_summary := offense_summary row;
     start_date := start_date row;
     last_seen := today;
     strike_count := add1 (strike_count row) |}.

(** UPDATE probation_list SET last_seen=today, strike_count=strike_count+1
    WHERE link_id=? *)
Definition update_suspect (today : Z) (link_id : PyId) : M unit :=
  k <- lift (bind_link_id link_id);;
  emit (EvUpdate k);;
  d <- read_db;;
  write_db {| probation_list := alter (strike today) k (probation_list d);
              financial_ledger := financial_ledger d |}.

(** DELETE FROM probation_list WHERE link_id=? *)
Definition release_suspect (link_id : PyId) : M unit :=
  k <- lift (bind_link_id link_id);;
  emit (EvDelete k);;
  d <- read_db;;
  write_db {| probation_list := delete k (probation_list d);
              financial_ledger := financial_ledger d |}.

(** INSERT INTO financial_ledger (date, link_id, action_taken,
    recovered_value) VALUES (today, ?, ?, ?) *)
Definition record_profit (today : Z) (link_id : PyId) (action : string)
    (value : float) : M unit :=
  k <- lift (bind_link_id link_id);;
  emit (EvLedger k action);;
  d <- read_db;;
  write_db {| probation_list := probation_list d;
              financial_ledger :=
                financial_ledger d ++ [ {| ledger_date := today;
                                           ledger_link_id := k;
                                           action_taken := action;
                                           recovered_value := value |} ] |}.

End DatabaseManager.
Import DatabaseManager.

(** ** 4. Vendor adapters *)

(** The dict [parse] returns. *)
Record RawFields := {
  raw_id : PyId;
  raw_license_reserved : Z;
  raw_throughput : float;
  raw_bandwidth : Z;
  raw_status : string
}.

(** The abstract base class. *)
Record VendorAdapter := {
  parse : string -> result RawFields;
  generate_fix : PyId -> Z -> string -> string
}.

Definition str_id (link_id : PyId) : string :=
  match link_id with
  | IdInt n => str n
  | IdStr s => s
  end.

Module HuaweiAdapter.

Import re.

(** [\+\+\+\s+([A-Z0-9_]+)] *)
Definition ID_RE : regex :=
  lit "+++" ++ [Rep is_space 1 false; Rep is_name 1 true].

(** [Current License Capacity\(Mbps\)\s*:\s*(\d+)] *)
Definition LICENSE_RE : regex :=
  lit "Current License Capacity(Mbps)"
  ++ [Rep is_space 0 false; Chr ":"; Rep is_space 0 false; Rep is_digit 1 true].

(** [Air-interface Throughput\(Mbps\)\s*:\s*([\d.]+)] *)
Definition THROUGHPUT_RE : regex :=
  lit "Air-interface Throughput(Mbps)"
  ++ [Rep is_space 0 false; Chr ":"; Rep is_space 0 false;
      Rep is_digit_or_dot 1 true].

(** [Channel Bandwidth\(MHz\)\s*:\s*(\d+)] *)
Definition BANDWIDTH_RE : regex :=
  lit "Channel Bandwidth(MHz)"
  ++ [Rep is_space 0 false; Chr ":"; Rep is_space 0 false; Rep is_digit 1 true].

(** [Port Admin Status\s*:\s*([A-Z]+)] *)
Definition STATUS_RE : regex :=
  lit "Port Admin Status"
  ++ [Rep is_space 0 false; Chr ":"; Rep is_space 0 false; Rep is_upper 1 true].

(** [Port Admin Status] *)
Definition STATUS_MARK_RE : regex := lit "Port Admin Status".

(** The three values of [return_type] at the call sites. *)
Definition as_str (s : string) : result PyId :=
  let* n := PyStr.int_of_str s in Ok (IdInt n).
Definition as_int : string -> result Z := PyStr.int_of_str.
Definition as_float : string -> result float := PyStr.float_of_str.

(** [re.search(STATUS_RE, text).group(1) if re.search(STATUS_MARK_RE, text)
    else "DOWN"]: [.group] on [None] raises AttributeError. *)
Definition parse_status (text : string) : result string :=
  match search STATUS_MARK_RE text with
  | Some _ =>
      match search STATUS_RE text with
      | Some (Some group1) => Ok group1
      | _ => Raise AttributeError
      end
  | None => Ok "DOWN"
  end.

Definition parse (text : string) : result RawFields :=
  let id := safe_extract ID_RE text (IdStr "UNKNOWN") as_str in
  let license_reserved := safe_extract LICENSE_RE text 0 as_int in
  let throughput := safe_extract THROUGHPUT_RE text 0.0%float as_float in
  let bandwidth := safe_extract BANDWIDTH_RE text 0 as_int in
  let* status := parse_status text in
  Ok {| raw_id := id;
        raw_license_reserved := license_reserved;
        raw_throughput := throughput;
        raw_bandwidth := bandwidth;
        raw_status := status |}.

Definition generate_fix (link_id : PyId) (value : Z) (fix_type : string) : string :=
  if String.eqb fix_type "LICENSE" then
    "MOD MWLICENSE: ID=" +:+ str_id link_id +:+ ", CAP=" +:+ str value +:+ ";"
  else if String.eqb fix_type "BW" then
    "MOD MWPORT: ID=" +:+ str_id link_id +:+ ", AM=ENABLE, BW=" +:+ str value +:+ "MHZ;"
  else if String.eqb fix_type "ZOMBIE" then
    "MOD MWPORT: ID=" +:+ str_id link_id +:+ ", ADMIN=DOWN;"
  else "".

Definition adapter : VendorAdapter :=
  Build_VendorAdapter parse generate_fix.

End HuaweiAdapter.

(** ** 5. The Godfather core *)

Module TheGodfather.

(** [self.adapters] *)
Definition adapters : gmap string VendorAdapter :=
  {[ "Huawei" := HuaweiAdapter.adapter ]}.

(** ** The offense evaluator *)

(** The two guards of crime 1 as the source evaluates them: the product
    [license_actual * 1.5] is computed first and may raise. *)
Definition license_hoarding (node : NodeData) : result bool :=
  let* threshold := int_mul_float (license_actual node) 1.5%float in
  Ok (int_gt_float (license_reserved node) threshold
      && (50 <? license_reserved node)).

Definition spectrum_waste (node : NodeData) : bool :=
  (bandwidth node =? 56) && float_lt_int (throughput node) 50.

Definition zombie_port (node : NodeData) : bool :=
  String.eqb (admin_status node) "UP" && (throughput node <? 1.0)%float.

Definition _judge_concurrently (node : NodeData) : result Verdict :=
  let offenses0 : list Offense := [] in
  let total0 := 0.0%float in
  (* Crime 1: License Hoarding *)
  let* c1 := license_hoarding node in
  let* st1 :=
    if c1 then
      let wasted := license_reserved node - license_actual node in
      let* val := int_mul_float wasted (LICENSE_MBPS (COSTS CONFIG)) in
      Ok (offenses0 ++ [ {| code := "LICENSE"; wasted_qty := wasted;
                            saving_value := val;
                            details := "Hoarding " +:+ str wasted +:+ "Mbps" |} ],
          (total0 + val)%float)
    else Ok (offenses0, total0) in
  (* Crime 2: Spectrum Waste (the 56MHz trap) *)
  let* st2 :=
    if spectrum_waste node then
      let wasted := 28 in
      let* val := int_mul_float wasted (BW_MHZ (COSTS CONFIG)) in
      Ok (st1.1 ++ [ {| code := "BW"; wasted_qty := wasted;
                        saving_value := val;
                        details := "Wasting Spectrum" |} ],
          (st1.2 + val)%float)
    else Ok st1 in
  (* Crime 3: Zombie Port *)
  let st3 :=
    if zombie_port node then
      let val := 50.0%float in
      (st2.1 ++ [ {| code := "ZOMBIE"; wasted_qty := 1;
                     saving_value := val;
                     details := "Zombie Port Active" |} ],
       (st2.2 + val)%float)
    else st2 in
  let status := match st3.1 with [] => "Innocent" | _ => "Guilty" end in
  Ok {| status := status; offenses := st3.1; total_savings := st3.2 |}.

(** [",".join(...)] *)
Definition join (sep : string) (l : list string) : string := String.concat sep l.

(** The script lines [_execute_rico_act] appends for one offense: a
    comment with the saving and the command of the adapter. *)
Definition offense_script (node : NodeData) (adapter : VendorAdapter)
    (offense : Offense) : list ScriptLine :=
  if String.eqb (code offense) "LICENSE" then
    let cmd := generate_fix adapter (id node) (license_actual node) "LICENSE" in
    [Comment "Fix License" (saving_value offense); Command cmd]
  else if String.eqb (code offense) "BW" then
    let cmd := generate_fix adapter (id node) 28 "BW" in
    [Comment "Optimize BW" (saving_value offense); Command cmd]
  else if String.eqb (code offense) "ZOMBIE" then
    let cmd := generate_fix adapter (id node) 0 "ZOMBIE" in
    [Comment "Kill Zombie" (saving_value offense); Command cmd]
  else [].

(** One turn of the loop of [_execute_rico_act]: the script lines of an
    offense, then its ledger entry. *)
Definition punish (today : Z) (node : NodeData) (adapter : VendorAdapter)
    (scripts : list ScriptLine) (offense : Offense) : M (list ScriptLine) :=
  let scripts := scripts ++ offense_script node adapter offense in
  record_profit today (id node) ("RICO_" +:+ code offense) (saving_value offense);;
  ret scripts.

Fixpoint for_each (today : Z) (node : NodeData) (adapter : VendorAdapter)
    (scripts : list ScriptLine) (l : list Offense) : M (list ScriptLine) :=
  match l with
  | [] => ret scripts
  | offense :: l' =>
      scripts' <- punish today node adapter scripts offense;;
      for_each today node adapter scripts' l'
  end.

Definition _execute_rico_act (today : Z) (node : NodeData) (verdict : Verdict)
    (adapter : VendorAdapter) (days : Z) : M Report :=
  let scripts := [Header (id node) days] in
  scripts <- for_each today node adapter scripts (offenses verdict);;
  release_suspect (id node);;                      (* Case Closed *)
  ret (Jackpot (id node) (total_savings verdict)
         (length (offenses verdict)) scripts).

Definition _process_verdict (today : Z) (node : NodeData) (verdict : Verdict)
    (adapter : VendorAdapter) : M Report :=
  if String.eqb (status verdict) "Innocent" then
    record <- check_probation (id node);;
    match record with
    | Some _ =>
        release_suspect (id node);;
        ret (Cleared (id node))
    | None => ret (Clean (id node))
    end
  else
    (* Guilty logic *)
    record <- check_probation (id node);;
    let crimes_summary := join "," (map code (offenses verdict)) in
    match record with
    | None =>
        add_suspect today (id node) crimes_summary;;
        ret (Indicted (id node) crimes_summary)
    | Some (start_date, _) =>
        let days_in_jail := today - start_date in
        update_suspect today (id node);;
        if PROBATION_DAYS CONFIG <=? days_in_jail then
          _execute_rico_act today node verdict adapter days_in_jail
        else
          ret (Surveillance (id node) days_in_jail crimes_summary)
    end.

(** [needed_license = int(data['throughput'] * CONFIG['SAFETY_MARGIN'])] *)
Definition needed_license (throughput : float) : result Z :=
  int_of_float (throughput * SAFETY_MARGIN CONFIG)%float.

(** The main pipeline: ingest, parse, concurrent judgment, process. *)
Definition ingest_and_audit (today : Z) (raw_log : string) : M Report :=
  let vendor_name := detect_vendor raw_log in
  match adapters !! vendor_name with
  | None => ret UnknownVendor
  | Some adapter =>
      (* 1. Parse data *)
      emit (EvParse raw_log);;
      data <- lift (parse adapter raw_log);;
      needed_license <- lift (needed_license (raw_throughput data));;
      let node := {| id := raw_id data; vendor := vendor_name;
                     bandwidth := raw_bandwidth data;
                     throughput := raw_throughput data;
                     license_reserved := raw_license_reserved data;
                     license_actual := needed_license;
                     admin_status := raw_status data |} in
      (* 2. Multi-strike judgment *)
      verdict <- lift (_judge_concurrently node);;
      (* 3. Execution logic *)
      _process_verdict today node verdict adapter
  end.

End TheGodfather.
Import TheGodfather.

(** ** Vocabulary of the properties *)

(** *** The evaluator *)

(** The rules in declaration order, each with its trigger. *)
Definition rule_table (node : NodeData) (hoarding : bool) : list (string * bool) :=
  [("LICENSE", hoarding); ("BW", spectrum_waste node); ("ZOMBIE", zombie_port node)].

Definition triggered (table : list (string * bool)) : list string :=
  map fst (filter (fun r => r.2 = true) table).

(** [sum(o.saving_value for o in offenses)], added in list order. *)
Definition sum_savings (l : list Offense) : float :=
  fold_left (fun acc o => (acc + saving_value o)%float) l 0%float.

(** [license_reserved == license_actual * 1.5], as Python evaluates it. *)
Definition at_license_threshold (node : NodeData) : Prop :=
  exists threshold,
    int_mul_float (license_actual node) 1.5%float = Ok threshold /\
    int_eq_float (license_reserved node) threshold = true.

(** The saving of an offense over the integers: 10 per wasted Mbps, 20
    for each of the 28 MHz, 50 for a zombie port. *)
Definition exact_saving (node : NodeData) (code : string) : Z :=
  if String.eqb code "LICENSE"
  then 10 * (license_reserved node - license_actual node)
  else if String.eqb code "BW" then 28 * 20 else 50.

(** *** Exact floats *)

(** [float(n)] when it is known not to overflow. *)
Definition Zfloat (n : Z) : float :=
  SF2Prim (binary_normalize prec emax n 0 false).

(** The binary64 value of a positive int below 2^53, normalised. *)
Definition exact_sf (s : bool) (p : positive) : spec_float :=
  S754_finite s (Z.to_pos (Z.pos p * 2 ^ (52 - Z.log2 (Z.pos p))))
    (Z.log2 (Z.pos p) - 52).

(** *** The parser *)

(** What it means for a regex of the fragment to match: [matches r s rest]
    holds when a prefix of [s] matches [r] and [rest] is what follows;
    [occurs r text] when some suffix of [text] starts with a match. *)
Inductive matches : re.regex -> list ascii -> list ascii -> Prop :=
  | matches_end s : matches [] s s
  | matches_chr c r s rest :
      matches r s rest -> matches (re.Chr c :: r) (c :: s) rest
  | matches_rep cls least group r run s rest :
      Forall (fun c => cls c = true) run ->
      (least <= length run)%nat ->
      matches r s rest ->
      matches (re.Rep cls least group :: r) (run ++ s) rest.

Definition occurs (r : re.regex) (text : list ascii) : Prop :=
  exists before s rest, text = before ++ s /\ matches r s rest.

(** The text has a link banner: "+++", some blanks, and a name made of
    upper-case letters, digits and underscores. *)
Definition has_banner (text : string) : Prop :=
  exists before blanks name rest,
    list_ascii_of_string text
    = before ++ list_ascii_of_string "+++" ++ blanks ++ name ++ rest /\
    blanks <> [] /\ Forall (fun c => re.is_space c = true) blanks /\
    name <> [] /\ Forall (fun c => re.is_name c = true) name.

(** The extraction of a field fails: the pattern is not found, or the
    conversion of group 1 raises. *)
Definition extraction_fails {A} (pattern : re.regex)
    (return_type : string -> result A) (text : string) : Prop :=
  match re.search pattern text with
  | Some (Some group1) => exists e, return_type group1 = Raise e
  | _ => True
  end.

Definition status_extraction_fails (text : string) : Prop :=
  forall group1, re.search HuaweiAdapter.STATUS_RE text <> Some (Some group1).

(** The parser contract as the design document words it: a record for
    every text, with 0 or "UNKNOWN" in every field that could not be
    extracted, the admin status included. *)
Definition parse_defaults_to_unknown : Prop :=
  forall text, exists data,
    HuaweiAdapter.parse text = Ok data /\
    (extraction_fails HuaweiAdapter.ID_RE HuaweiAdapter.as_str text ->
     raw_id data = IdStr "UNKNOWN") /\
    (extraction_fails HuaweiAdapter.LICENSE_RE HuaweiAdapter.as_int text ->
     raw_license_reserved data = 0) /\
    (extraction_fails HuaweiAdapter.THROUGHPUT_RE HuaweiAdapter.as_float text ->
     raw_throughput data = 0%float) /\
    (extraction_fails HuaweiAdapter.BANDWIDTH_RE HuaweiAdapter.as_int text ->
     raw_bandwidth data = 0) /\
    (status_extraction_fails text -> raw_status data = "UNKNOWN").

(** *** Worlds and traces *)

(** The world after some calls: new tables, and the calls appended to
    the trace. *)
Definition after (w : World) (probation : gmap string ProbationRow)
    (ledger : list LedgerRow) (calls : list Event) : World :=
  {| db := {| probation_list := probation; financial_ledger := ledger |};
     trace := trace w ++ calls |}.

Definition ledger_row (today : Z) (k : string) (o : Offense) : LedgerRow :=
  {| ledger_date := today; ledger_link_id := k;
     action_taken := "RICO_" +:+ code o; recovered_value := saving_value o |}.

Definition ledger_call (k : string) (o : Offense) : Event :=
  EvLedger k ("RICO_" +:+ code o).

(** The key of a database call. *)
Definition event_key (ev : Event) : option string :=
  match ev with
  | EvParse _ => None
  | EvSelect k | EvInsert k | EvUpdate k | EvDelete k | EvLedger k _ => Some k
  end.

(** The [NodeData] that [ingest_and_audit] builds from the parsed
    fields and the needed license. *)
Definition node_of (vendor_name : string) (data : RawFields) (needed : Z) : NodeData :=
  {| id := raw_id data; vendor := vendor_name;
     bandwidth := raw_bandwidth data; throughput := raw_throughput data;
     license_reserved := raw_license_reserved data;
     license_actual := needed; admin_status := raw_status data |}.

(** The worlds a sequence of audits goes through, one per audit. *)
Fixpoint run_audits (audits : list (Z * string)) (w : World) : list World :=
  match audits with
  | [] => []
  | (today, raw_log) :: rest =>
      let w' := (ingest_and_audit today raw_log w).2 in
      w' :: run_audits rest w'
  end.

(** The audit went down the remediation path. *)
Definition remediation_executed (r : result Report) : Prop :=
  exists link total crimes script, r = Ok (Jackpot link total crimes script).

(** *** Sample inputs *)

Definition NL : string := String (ascii_of_nat 10) EmptyString.

(** The log of the simulation at the end of the module. *)
Definition catastrophic_log : string :=
  NL +:+ "    +++    DJELFA_GHOST_LINK     2026-02-04" +:+
  NL +:+ "    Current License Capacity(Mbps)  : 400" +:+
  NL +:+ "    Air-interface Throughput(Mbps)  : 0.5" +:+
  NL +:+ "    Channel Bandwidth(MHz)          : 56" +:+
  NL +:+ "    Port Admin Status               : UP" +:+
  NL +:+ "    ".

Definition empty_world : World :=
  {| db := {| probation_list := ∅; financial_ledger := [] |}; trace := [] |}.

Definition scenario_A : NodeData := {|
  id := IdStr "UNKNOWN"; vendor := "Huawei"; bandwidth := 56;
  throughput := 0.5%float; license_reserved := 400; license_actual := 0;
  admin_status := "UP" |}.

(** A snapshot of a Huawei link. *)
Definition snapshot (license_reserved license_actual bandwidth : Z)
    (throughput : float) (admin_status : string) : NodeData :=
  {| id := IdStr "UNKNOWN"; vendor := "Huawei"; bandwidth := bandwidth;
     throughput := throughput; license_reserved := license_reserved;
     license_actual := license_actual; admin_status := admin_status |}.

(** A link whose reserved license is exactly 1.5 times the required one,
    both above 2^53. *)
Definition rounded_snapshot : NodeData :=
  snapshot 13510798882111497 9007199254740998 0 100%float "DOWN".

(** A log that produces [rounded_snapshot]. *)
Definition rounded_log : string :=
  "Current License Capacity(Mbps) : 13510798882111497" +:+ NL +:+
  "Air-interface Throughput(Mbps) : 7505999378950832" +:+ NL +:+
  "Port Admin Status : DOWN".

(** A world where the link "UNKNOWN" is on probation since [start]. *)
Definition probation_world (start strikes : Z) : World :=
  {| db := {| probation_list :=
                {[ "UNKNOWN" := {| offense_summary := "LICENSE,BW,ZOMBIE";
                                   start_date := start; last_seen := start;
                                   strike_count := strikes |} ]};
              financial_ledger := [] |};
     trace := [] |}.

(** The verdict on scenario A. *)
Definition verdict_A : Verdict :=
  {| status := "Guilty";
     offenses :=
       [ {| code := "LICENSE"; wasted_qty := 400; saving_value := 4000%float;
            details := "Hoarding 400Mbps" |};
         {| code := "BW"; wasted_qty := 28; saving_value := 560%float;
            details := "Wasting Spectrum" |};
         {| code := "ZOMBIE"; wasted_qty := 1; saving_value := 50%float;
            details := "Zombie Port Active" |} ];
     total_savings := 4610%float |}.

(** Two logs of Huawei links without a banner. *)
Definition anonymous_log : string :=
  "Current License Capacity(Mbps) : 400" +:+ NL +:+
  "Air-interface Throughput(Mbps) : 0.5" +:+ NL +:+
  "Channel Bandwidth(MHz) : 56" +:+ NL +:+
  "Port Admin Status : UP".

Definition cured_log : string :=
  "Current License Capacity(Mbps) : 150" +:+ NL +:+
  "Air-interface Throughput(Mbps) : 100" +:+ NL +:+
  "Channel Bandwidth(MHz) : 28" +:+ NL +:+
  "Port Admin Status : UP".

Definition other_anonymous_log : string :=
  "Current License Capacity(Mbps) : 900" +:+ NL +:+
  "Air-interface Throughput(Mbps) : 20" +:+ NL +:+
  "Channel Bandwidth(MHz) : 28" +:+ NL +:+
  "Port Admin Status : UP".

(** ** Simulation execution

    The [__main__] block: the catastrophic log is audited twice, and
    between the two audits the start date of the link is moved back "to
    simulate 15 days passing". [_init_tables] has run when the audits
    start, so both tables exist; the two printed reports are the result. *)

(** [date.fromisoformat('2026-01-01')], as the ordinal of that day. *)
Definition JUDGMENT_START : Z := 739617.

Definition backdate (start : Z) (row : ProbationRow) : ProbationRow :=
  {| offense_summary := offense_summary row;
     start_date := start;
     last_seen := last_seen row;
     strike_count := strike_count row |}.

(** UPDATE probation_list SET start_date='2026-01-01'
    WHERE link_id='DJELFA_GHOST_LINK', issued on a connection of its own
    and not through the database manager. *)
Definition cheat_time : M unit :=
  d <- read_db;;
  write_db {| probation_list :=
                alter (backdate JUDGMENT_START) "DJELFA_GHOST_LINK"
                  (probation_list d);
              financial_ledger := financial_ledger d |}.

Definition main (today1 today2 : Z) : M (Report * Report) :=
  (* 1. First indictment *)
  day1 <- ingest_and_audit today1 catastrophic_log;;
  (* 2. Cheat time *)
  cheat_time;;
  (* 3. Final judgment *)
  judgment_day <- ingest_and_audit today2 catastrophic_log;;
  ret (day1, judgment_day).

(** ** Vocabulary of the further properties *)

(** The pattern has a capturing group. *)
Definition has_group (r : re.regex) : bool :=
  existsb (fun it => match it with re.Rep _ _ group => group | re.Chr _ => false end) r.

(** Every capturing group of the pattern repeats the class [cls] at least
    [least] times. *)
Definition groups_of (cls : ascii -> bool) (least : nat) (r : re.regex) : Prop :=
  Forall (fun it => match it with
                    | re.Rep c l true => (forall x, c x = cls x) /\ (least <= l)%nat
                    | _ => True
                    end) r.

(** The worlds left by successive calls of [_process_verdict] on one
    link, each with the day and the verdict of its audit. *)
Fixpoint process_all (node : NodeData) (adapter : VendorAdapter)
    (audits : list (Z * Verdict)) (w : World) : World :=
  match audits with
  | [] => w
  | (today, verdict) :: rest =>
      process_all node adapter rest
        (_process_verdict today node verdict adapter w).2
  end.

(** The recovered values of some ledger rows, added in row order. *)
Definition sum_recovered (rows : list LedgerRow) : float :=
  fold_left (fun acc row => (acc + recovered_value row)%float) rows 0%float.

(** The reports that leave the link without a probation record. *)
Definition closes_the_case (r : Report) : Prop :=
  match r with
  | Clean _ | Cleared _ | Jackpot _ _ _ _ => True
  | UnknownVendor | Indicted _ _ | Surveillance _ _ _ => False
  end.

(** *** Further sample inputs *)

(** A link whose banner is a number. *)
Definition numbered_log : string :=
  "+++ 42" +:+ NL +:+
  "Current License Capacity(Mbps) : 400" +:+ NL +:+
  "Air-interface Throughput(Mbps) : 0.5" +:+ NL +:+
  "Channel Bandwidth(MHz) : 56" +:+ NL +:+
  "Port Admin Status : UP".

(** A link whose number does not fit a 64-bit integer. *)
Definition oversized_log : string :=
  "+++ 9223372036854775808" +:+ NL +:+
  "Current License Capacity(Mbps) : 400" +:+ NL +:+
  "Air-interface Throughput(Mbps) : 0.5" +:+ NL +:+
  "Port Admin Status : UP".

(** A log whose throughput figure is not a number. *)
Definition garbled_log : string :=
  "Current License Capacity(Mbps) : 60" +:+ NL +:+
  "Air-interface Throughput(Mbps) : 1.2.3" +:+ NL +:+
  "Channel Bandwidth(MHz) : 28" +:+ NL +:+
  "Port Admin Status : UP".

(** A log whose license figure has 401 digits and whose throughput
    figure is not a number. *)
Definition overlong_log : string :=
  "Current License Capacity(Mbps) : 1"
  +:+ string_of_list_ascii (repeat "0"%char 400) +:+ NL +:+
  "Air-interface Throughput(Mbps) : 1.2.3" +:+ NL +:+
  "Port Admin Status : DOWN".

(** A log whose status line has no colon. *)
Definition unvalued_status_log : string :=
  "Current License Capacity(Mbps) : 400" +:+ NL +:+
  "Port Admin Status = UP".

(** * Properties *)

(** ** Binary64 arithmetic on small integers

    Ints below 2^53 in size are binary64 values, and their sums and their
    products with 1.5 and 10.0 are computed without rounding as long as
    the result stays below 2^53. The lemmas are about [SpecFloat], the
    specification of the primitive operations. *)

Section IterPos.
Context {A : Type} (f : A -> A).

Lemma iter_pos_nat p x :
  SpecFloat.iter_pos f p x = Nat.iter (Pos.to_nat p) f x.
Proof.
  revert x. induction p as [p IH|p IH|]; intros x; cbn [SpecFloat.iter_pos].
  - rewrite !IH, Pos2Nat.inj_xI. cbn [Nat.iter Nat.mul].
    rewrite Nat.add_0_r, <- Nat.iter_add, <- Nat.iter_succ_r. reflexivity.
  - rewrite !IH, Pos2Nat.inj_xO. cbn [Nat.mul].
    rewrite Nat.add_0_r, Nat.iter_add. reflexivity.
  - reflexivity.
Qed.

End IterPos.

Lemma digits2_pos_log2 p : Z.pos (digits2_pos p) = Z.log2 (Z.pos p) + 1.
Proof.
  induction p as [p IH|p IH|]; cbn [digits2_pos]; try reflexivity.
  - rewrite Pos2Z.inj_succ, IH. destruct p; cbn; lia.
  - rewrite Pos2Z.inj_succ, IH. destruct p; cbn; lia.
Qed.

Lemma shiftl_nat_Z m n : Z.pos (Pos.shiftl_nat m n) = Z.pos m * 2 ^ Z.of_nat n.
Proof.
  induction n as [|n IH].
  - cbn. lia.
  - change (Pos.shiftl_nat m (S n)) with (xO (Pos.shiftl_nat m n)).
    rewrite Pos2Z.inj_xO, IH, Nat2Z.inj_succ, Z.pow_succ_r by lia. lia.
Qed.

Lemma pos_iter_xO m d : Z.pos (Pos.iter xO m d) = Z.pos m * 2 ^ Z.pos d.
Proof.
  rewrite Pos2Nat.inj_iter.
  change (nat_rect _ m _ (Pos.to_nat d)) with (Pos.shiftl_nat m (Pos.to_nat d)).
  rewrite shiftl_nat_Z, positive_nat_Z. reflexivity.
Qed.

(** Shifting out zero bits leaves no remainder behind. *)
Lemma shr_exact_nat n m :
  Nat.iter n shr_1
    {| shr_m := Z.pos (Pos.shiftl_nat m n); shr_r := false; shr_s := false |}
  = {| shr_m := Z.pos m; shr_r := false; shr_s := false |}.
Proof.
  induction n as [|n IH].
  - reflexivity.
  - rewrite Nat.iter_succ_r.
    change (Pos.shiftl_nat m (S n)) with (xO (Pos.shiftl_nat m n)).
    cbn [shr_1 orb]. exact IH.
Qed.

Lemma shr_exact m n e :
  0 <= n ->
  shr {| shr_m := Z.pos m * 2 ^ n; shr_r := false; shr_s := false |} (e - n) n
  = ({| shr_m := Z.pos m; shr_r := false; shr_s := false |}, e).
Proof.
  intros Hn. unfold shr. destruct n as [|p|p]; [| |lia].
  - rewrite Z.pow_0_r, Z.mul_1_r. f_equal. lia.
  - rewrite iter_pos_nat, <- (positive_nat_Z p), <- shiftl_nat_Z, shr_exact_nat.
    f_equal. lia.
Qed.

(** Rounding a mantissa that carries [n] spare zero bits is exact. *)
Lemma binary_round_aux_exact s mz m n e :
  Z.pos mz = Z.pos m * 2 ^ n -> 0 <= n ->
  Z.log2 (Z.pos m) = 52 -> -1074 <= e <= 971 ->
  binary_round_aux prec emax s (Z.pos mz) (e - n) loc_Exact = S754_finite s m e.
Proof.
  intros Hmz Hn Hd He.
  unfold binary_round_aux, shr_fexp, fexp, SpecFloat.emin, prec, emax.
  cbn [Zdigits2 shr_record_of_loc].
  rewrite digits2_pos_log2, Hmz, Z.log2_mul_pow2, Hd by lia.
  replace (Z.max (n + 52 + 1 + (e - n) - 53) (3 - 1024 - 53) - (e - n))
    with n by lia.
  rewrite shr_exact by exact Hn.
  cbn [shr_m loc_of_shr_record round_nearest_even Zdigits2 shr_record_of_loc].
  rewrite digits2_pos_log2, Hd.
  replace (Z.max (52 + 1 + e - 53) (3 - 1024 - 53) - e) with 0 by lia.
  cbn [shr shr_m].
  destruct (Z.leb_spec e (1024 - 53)); [reflexivity|lia].
Qed.

Lemma log2_small p : Z.pos p < 2 ^ 53 -> 0 <= Z.log2 (Z.pos p) < 53.
Proof.
  intros Hp. split; [apply Z.log2_nonneg|]. apply Z.log2_lt_pow2; lia.
Qed.

(** The mantissa of [exact_sf] has 53 bits. *)
Lemma exact_sf_mantissa p :
  Z.pos p < 2 ^ 53 ->
  Z.pos (Z.to_pos (Z.pos p * 2 ^ (52 - Z.log2 (Z.pos p))))
  = Z.pos p * 2 ^ (52 - Z.log2 (Z.pos p))
  /\ Z.log2 (Z.pos p * 2 ^ (52 - Z.log2 (Z.pos p))) = 52.
Proof.
  intros Hp. pose proof (log2_small p Hp) as Hl.
  assert (0 < Z.pos p * 2 ^ (52 - Z.log2 (Z.pos p)))
    by (apply Z.mul_pos_pos; [lia|apply Z.pow_pos_nonneg; lia]).
  split; [apply Z2Pos.id; lia|]. rewrite Z.log2_mul_pow2 by lia. lia.
Qed.

Lemma exact_sf_valid s p :
  Z.pos p < 2 ^ 53 -> SpecFloat.valid_binary prec emax (exact_sf s p) = true.
Proof.
  intros Hp. pose proof (log2_small p Hp) as Hl.
  destruct (exact_sf_mantissa p Hp) as [Hm Hd].
  unfold exact_sf, SpecFloat.valid_binary, bounded, canonical_mantissa, fexp,
    SpecFloat.emin, prec, emax.
  rewrite digits2_pos_log2, Hm, Hd.
  apply andb_true_intro. split; [apply Z.eqb_eq|apply Z.leb_le]; lia.
Qed.

(** [float(n)] is exact for an int below 2^53. *)
Lemma binary_round_small p s :
  Z.pos p < 2 ^ 53 -> binary_round prec emax s p 0 = exact_sf s p.
Proof.
  intros Hp. pose proof (log2_small p Hp) as Hl.
  destruct (exact_sf_mantissa p Hp) as [Hm Hd].
  unfold binary_round, shl_align, fexp, SpecFloat.emin, prec, emax, exact_sf.
  rewrite digits2_pos_log2.
  set (l := Z.log2 (Z.pos p)) in *.
  replace (Z.max (l + 1 + 0 - 53) (3 - 1024 - 53) - 0) with (l - 52) by lia.
  replace (Z.max (l + 1 + 0 - 53) (3 - 1024 - 53)) with (l - 52) by lia.
  destruct (l - 52) as [|q|q] eqn:Hq; [| lia |].
  - replace 0 with (0 - 0) at 1 by lia.
    apply binary_round_aux_exact; try lia.
    + rewrite Hm. replace (52 - l) with 0 by lia. rewrite Z.pow_0_r. lia.
    + rewrite Hm. exact Hd.
  - replace (Z.neg q) with (Z.neg q - 0) at 1 by lia.
    apply binary_round_aux_exact; try lia.
    + rewrite pos_iter_xO, Hm. replace (52 - l) with (Z.pos q) by lia. lia.
    + rewrite Hm. exact Hd.
Qed.

Lemma float_of_int_pos p :
  Z.pos p < 2 ^ 53 -> float_of_int (Z.pos p) = Ok (SF2Prim (exact_sf false p)).
Proof.
  intros Hp. unfold float_of_int. cbn [binary_normalize].
  rewrite binary_round_small by assumption. reflexivity.
Qed.

Lemma float_of_int_neg p :
  Z.pos p < 2 ^ 53 -> float_of_int (Z.neg p) = Ok (SF2Prim (exact_sf true p)).
Proof.
  intros Hp. unfold float_of_int. cbn [binary_normalize].
  rewrite binary_round_small by assumption. reflexivity.
Qed.

Lemma float_of_int_small n :
  - 2 ^ 53 < n < 2 ^ 53 -> exists x, float_of_int n = Ok x.
Proof.
  intros Hn. destruct n as [|p|p].
  - eexists. reflexivity.
  - eexists. apply float_of_int_pos. lia.
  - eexists. apply float_of_int_neg. lia.
Qed.

Lemma Zfloat_pos a :
  Z.pos a < 2 ^ 53 -> Zfloat (Z.pos a) = SF2Prim (exact_sf false a).
Proof.
  intros Ha. unfold Zfloat. cbn [binary_normalize].
  rewrite binary_round_small by assumption. reflexivity.
Qed.

(** Multiplying by a float constant [q * 2^(t + ec)] is exact while the
    product of the int with [q] stays below 2^53. *)
Lemma SFmul_exact s a mc ec q t :
  Z.pos mc = Z.pos q * 2 ^ t -> 0 <= t ->
  Z.pos (a * q) < 2 ^ 53 ->
  -1074 <= Z.log2 (Z.pos (a * q)) - 52 + t + ec <= 971 ->
  SFmul prec emax (exact_sf s a) (S754_finite false mc ec)
  = S754_finite s
      (Z.to_pos (Z.pos (a * q) * 2 ^ (52 - Z.log2 (Z.pos (a * q)))))
      (Z.log2 (Z.pos (a * q)) - 52 + t + ec).
Proof.
  intros Hmc Ht Haq He.
  assert (Ha : Z.pos a < 2 ^ 53) by nia.
  pose proof (log2_small _ Ha) as Hl1. pose proof (log2_small _ Haq) as Hl3.
  destruct (exact_sf_mantissa _ Ha) as [Hm1 _].
  destruct (exact_sf_mantissa _ Haq) as [Hm3 Hd3].
  assert (Hle : Z.log2 (Z.pos a) <= Z.log2 (Z.pos (a * q)))
    by (apply Z.log2_le_mono; nia).
  unfold exact_sf, SFmul. rewrite xorb_false_r.
  set (l1 := Z.log2 (Z.pos a)) in *. set (l3 := Z.log2 (Z.pos (a * q))) in *.
  replace (l1 - 52 + ec) with ((l3 - 52 + t + ec) - (l3 - l1 + t)) by lia.
  apply binary_round_aux_exact; try lia.
  - rewrite Pos2Z.inj_mul, Hm1, Hm3, Hmc.
    replace (52 - l1) with ((52 - l3) + (l3 - l1)) by lia.
    rewrite !Z.pow_add_r by lia. rewrite Pos2Z.inj_mul. ring.
  - rewrite Hm3. exact Hd3.
Qed.

(** The product [n * 1.5] is exact while [3 * n] stays below 2^53; its
    exponent is one less than that of [3 * n] itself. *)
Lemma mul_1_5_exact s a :
  Z.pos (a * 3) < 2 ^ 53 ->
  Prim2SF (SF2Prim (exact_sf s a) * 1.5)%float
  = S754_finite s
      (Z.to_pos (Z.pos (a * 3) * 2 ^ (52 - Z.log2 (Z.pos (a * 3)))))
      (Z.log2 (Z.pos (a * 3)) - 53).
Proof.
  intros Ha. pose proof (log2_small _ Ha) as Hl.
  rewrite mul_spec, Prim2SF_SF2Prim by (apply exact_sf_valid; lia).
  replace (Prim2SF 1.5) with (S754_finite false 6755399441055744 (-52))
    by (vm_compute; reflexivity).
  unfold SF64mul.
  rewrite (SFmul_exact s a 6755399441055744 (-52) 3 51)
    by (reflexivity || lia).
  f_equal. lia.
Qed.

Lemma compare_scaled r v t :
  0 < t -> (r * (2 * t) ?= v * t) = (2 * r ?= v).
Proof.
  intros Ht. replace (r * (2 * t)) with (2 * r * t) by lia.
  symmetry. apply Zmult_compare_compat_r. lia.
Qed.

(** In that range the threshold of crime 1 is the exact [1.5 * n]:
    comparing an int [r] with it compares [2 * r] with [3 * n]. *)
Lemma compare_threshold_exact n :
  - 2 ^ 53 < 3 * n < 2 ^ 53 ->
  exists x, int_mul_float n 1.5 = Ok x /\
    forall r, compare_int_float r x = Some (2 * r ?= 3 * n).
Proof.
  intros Hn. unfold int_mul_float. destruct n as [|a|a].
  - eexists. split; [reflexivity|]. intros r. unfold compare_int_float.
    replace (Prim2SF (SF2Prim (S754_zero false) * 1.5)) with (S754_zero false)
      by (vm_compute; reflexivity).
    f_equal. change (3 * 0) with (2 * 0). apply Zmult_compare_compat_l. lia.
  - rewrite float_of_int_pos by lia. eexists. split; [reflexivity|].
    intros r. unfold compare_int_float. rewrite mul_1_5_exact by lia.
    assert (H3 : Z.pos (a * 3) < 2 ^ 53) by lia.
    pose proof (log2_small _ H3) as Hl3.
    destruct (exact_sf_mantissa _ H3) as [Hm3 _]. rewrite Hm3.
    destruct (Z.leb_spec 0 (Z.log2 (Z.pos (a * 3)) - 53)) as [?|_]; [lia|].
    f_equal.
    replace (- (Z.log2 (Z.pos (a * 3)) - 53))
      with (1 + (52 - Z.log2 (Z.pos (a * 3)))) by lia.
    rewrite Z.pow_add_r, Z.pow_1_r by lia.
    rewrite compare_scaled by (apply Z.pow_pos_nonneg; lia).
    f_equal. lia.
  - rewrite float_of_int_neg by lia. eexists. split; [reflexivity|].
    intros r. unfold compare_int_float. rewrite mul_1_5_exact by lia.
    assert (H3 : Z.pos (a * 3) < 2 ^ 53) by lia.
    pose proof (log2_small _ H3) as Hl3.
    destruct (exact_sf_mantissa _ H3) as [Hm3 _].
    rewrite <- Pos2Z.opp_pos, Hm3.
    destruct (Z.leb_spec 0 (Z.log2 (Z.pos (a * 3)) - 53)) as [?|_]; [lia|].
    f_equal.
    replace (- (Z.log2 (Z.pos (a * 3)) - 53))
      with (1 + (52 - Z.log2 (Z.pos (a * 3)))) by lia.
    rewrite Z.pow_add_r, Z.pow_1_r by lia.
    rewrite <- Z.mul_opp_l.
    rewrite compare_scaled by (apply Z.pow_pos_nonneg; lia).
    f_equal. lia.
Qed.

(** The product [n * 10.0] is exact while it stays below 2^53. *)
Lemma prim_mul_10_exact a :
  Z.pos (10 * a) < 2 ^ 53 ->
  (Zfloat (Z.pos a) * 10)%float = Zfloat (Z.pos (10 * a)).
Proof.
  intros Hs. rewrite !Zfloat_pos by lia.
  rewrite <- (SF2Prim_Prim2SF (_ * _)).
  rewrite mul_spec, Prim2SF_SF2Prim by (apply exact_sf_valid; lia).
  replace (Prim2SF 10) with (S754_finite false 5629499534213120 (-49))
    by (vm_compute; reflexivity).
  assert (H5 : Z.pos (a * 5) < 2 ^ 53) by lia.
  pose proof (log2_small _ H5) as Hl5.
  unfold SF64mul.
  rewrite (SFmul_exact false a 5629499534213120 (-49) 5 50)
    by (reflexivity || lia).
  f_equal. unfold exact_sf.
  assert (Hl : Z.log2 (Z.pos (10 * a)) = Z.log2 (Z.pos (a * 5)) + 1).
  { replace (Z.pos (10 * a)) with (Z.pos (a * 5) * 2 ^ 1) by lia.
    rewrite Z.log2_mul_pow2 by lia. lia. }
  pose proof (log2_small _ Hs) as Hl10. rewrite Hl in Hl10 |- *.
  replace (Z.log2 (Z.pos (a * 5)) - 52 + 50 + -49)
    with (Z.log2 (Z.pos (a * 5)) + 1 - 52) by lia.
  replace (Z.pos (a * 5) * 2 ^ (52 - Z.log2 (Z.pos (a * 5))))
    with (Z.pos (10 * a) * 2 ^ (52 - (Z.log2 (Z.pos (a * 5)) + 1)));
    [reflexivity|].
  replace (52 - Z.log2 (Z.pos (a * 5)))
    with (1 + (52 - (Z.log2 (Z.pos (a * 5)) + 1))) by lia.
  rewrite Z.pow_add_r, !Pos2Z.inj_mul by lia. ring.
Qed.

Lemma shl_align_value m e e' :
  e' <= e -> Z.pos (fst (shl_align m e e')) = Z.pos m * 2 ^ (e - e').
Proof.
  intros He. unfold shl_align.
  destruct (e' - e) as [|d|d] eqn:Hd; cbn [fst]; try lia.
  - replace (e - e') with 0 by lia. lia.
  - rewrite pos_iter_xO. f_equal. f_equal. lia.
Qed.

(** Adding two positive ints is exact while the sum stays below 2^53. *)
Lemma add_exact a b :
  Z.pos (a + b) < 2 ^ 53 ->
  SFadd prec emax (exact_sf false a) (exact_sf false b) = exact_sf false (a + b).
Proof.
  intros Hs.
  assert (Ha : Z.pos a < 2 ^ 53) by lia. assert (Hb : Z.pos b < 2 ^ 53) by lia.
  pose proof (log2_small _ Ha) as Hla. pose proof (log2_small _ Hb) as Hlb.
  pose proof (log2_small _ Hs) as Hls.
  destruct (exact_sf_mantissa _ Ha) as [Hma _].
  destruct (exact_sf_mantissa _ Hb) as [Hmb _].
  destruct (exact_sf_mantissa _ Hs) as [Hms Hds].
  assert (Hlea : Z.log2 (Z.pos a) <= Z.log2 (Z.pos (a + b)))
    by (apply Z.log2_le_mono; lia).
  assert (Hleb : Z.log2 (Z.pos b) <= Z.log2 (Z.pos (a + b)))
    by (apply Z.log2_le_mono; lia).
  unfold exact_sf, SFadd. cbn [cond_Zopp].
  set (la := Z.log2 (Z.pos a)) in *. set (lb := Z.log2 (Z.pos b)) in *.
  set (ls := Z.log2 (Z.pos (a + b))) in *.
  set (ez := Z.min (la - 52) (lb - 52)).
  set (ma := Z.to_pos (Z.pos a * 2 ^ (52 - la))) in *.
  set (mb := Z.to_pos (Z.pos b * 2 ^ (52 - lb))) in *.
  assert (Hsum : Z.pos (fst (shl_align ma (la - 52) ez))
                 + Z.pos (fst (shl_align mb (lb - 52) ez))
                 = Z.pos (a + b) * 2 ^ (- ez)).
  { rewrite !shl_align_value by (unfold ez; lia). rewrite Hma, Hmb.
    rewrite <- !Z.mul_assoc, <- !Z.pow_add_r by (unfold ez; lia).
    replace (52 - la + (la - 52 - ez)) with (- ez) by lia.
    replace (52 - lb + (lb - 52 - ez)) with (- ez) by lia.
    rewrite Pos2Z.inj_add. lia. }
  rewrite Hsum.
  assert (Hpos : 0 < Z.pos (a + b) * 2 ^ (- ez))
    by (apply Z.mul_pos_pos; [lia|apply Z.pow_pos_nonneg; unfold ez; lia]).
  destruct (Z.pos (a + b) * 2 ^ (- ez)) as [|msum|msum] eqn:Hmsum; try lia.
  cbn [binary_normalize]. unfold binary_round.
  assert (Hdig : Z.pos (digits2_pos msum) = ls + (- ez) + 1).
  { rewrite digits2_pos_log2, <- Hmsum, Z.log2_mul_pow2 by (unfold ez; lia).
    lia. }
  unfold shl_align, fexp, SpecFloat.emin, prec, emax. rewrite Hdig.
  replace (Z.max (ls + - ez + 1 + ez - 53) (3 - 1024 - 53) - ez)
    with (ls - 52 - ez) by (unfold ez; lia).
  destruct (ls - 52 - ez) as [|d|d] eqn:Hd; try (unfold ez in *; lia).
  - assert (Hez : ez = ls - 52 - 0) by lia. rewrite Hez.
    apply binary_round_aux_exact; try lia.
    + rewrite Hms, <- Hmsum. replace (- ez) with (52 - ls) by lia. lia.
    + rewrite Hms. exact Hds.
  - assert (Hez : ez = ls - 52 - Z.pos d) by lia. rewrite Hez.
    apply binary_round_aux_exact; try lia.
    + rewrite Hms, <- Hmsum, <- Z.mul_assoc, <- Z.pow_add_r by lia.
      f_equal. f_equal. lia.
    + rewrite Hms. exact Hds.
Qed.

Lemma prim_add_exact a b :
  Z.pos (a + b) < 2 ^ 53 ->
  (Zfloat (Z.pos a) + Zfloat (Z.pos b))%float = Zfloat (Z.pos (a + b)).
Proof.
  intros Hs. rewrite !Zfloat_pos by lia.
  rewrite <- (SF2Prim_Prim2SF (_ + _)).
  rewrite add_spec, !Prim2SF_SF2Prim by (apply exact_sf_valid; lia).
  unfold SF64add. rewrite add_exact by assumption. reflexivity.
Qed.

Lemma prim_zero_add a :
  Z.pos a < 2 ^ 53 -> (0 + Zfloat (Z.pos a))%float = Zfloat (Z.pos a).
Proof.
  intros Ha. rewrite Zfloat_pos by lia.
  rewrite <- (SF2Prim_Prim2SF (_ + _)).
  rewrite add_spec, Prim2SF_SF2Prim by (apply exact_sf_valid; lia).
  reflexivity.
Qed.

(** [float("...")] agrees with the binary64 literals, ties and
    subnormals included; [int("...")] accepts grouped digits only. *)
Example float_of_str_samples :
  map PyStr.float_of_str ["0.5"; "7"; "56."; ".25"; "0.1"; "4.35";
                          "9007199254740993"; "1.2.3"; "."]
  = [Ok 0.5%float; Ok 7%float; Ok 56%float; Ok 0.25%float; Ok 0.1%float;
     Ok 4.35%float; Ok 9007199254740992%float; Raise ValueError;
     Raise ValueError].
Proof. vm_compute. reflexivity. Qed.

Example int_of_str_samples :
  map PyStr.int_of_str ["400"; "007"; "1_000"; "_1"; "1__0"; "DJELFA_GHOST_LINK"]
  = [Ok 400; Ok 7; Ok 1000; Raise ValueError; Raise ValueError; Raise ValueError].
Proof. vm_compute. reflexivity. Qed.

Example needed_license_samples :
  map needed_license [0.5%float; 100%float; 2.5%float; infinity]
  = [Ok 0; Ok 120; Ok 3; Raise OverflowError].
Proof. vm_compute. reflexivity. Qed.

(** ** The offense evaluator *)

Lemma bw_saving : int_mul_float 28 (BW_MHZ (COSTS CONFIG)) = Ok 560%float.
Proof. vm_compute. reflexivity. Qed.

(** What [_judge_concurrently] returns, one case per combination of the
    three triggers. *)
Lemma judge_cases node v :
  _judge_concurrently node = Ok v ->
  exists c1 l1,
    license_hoarding node = Ok c1 /\
    (if c1 then
       exists val,
         int_mul_float (license_reserved node - license_actual node)
           (LICENSE_MBPS (COSTS CONFIG)) = Ok val /\
         l1 = [ {| code := "LICENSE";
                   wasted_qty := license_reserved node - license_actual node;
                   saving_value := val;
                   details := "Hoarding "
                     +:+ str (license_reserved node - license_actual node)
                     +:+ "Mbps" |} ]
     else l1 = []) /\
    offenses v =
      l1 ++ (if spectrum_waste node
             then [ {| code := "BW"; wasted_qty := 28; saving_value := 560%float;
                       details := "Wasting Spectrum" |} ] else [])
         ++ (if zombie_port node
             then [ {| code := "ZOMBIE"; wasted_qty := 1; saving_value := 50%float;
                       details := "Zombie Port Active" |} ] else []) /\
    total_savings v = sum_savings (offenses v) /\
    status v = (if bool_decide (offenses v = []) then "Innocent" else "Guilty").
Proof.
  unfold _judge_concurrently. rewrite bw_saving. intros H.
  destruct (license_hoarding node) as [c1|e] eqn:H1; [|discriminate].
  cbn [rbind] in H. exists c1.
  destruct c1.
  - destruct (int_mul_float _ (LICENSE_MBPS _)) as [val|e] eqn:Hv; [|discriminate].
    eexists. split; [reflexivity|]. split; [eauto|].
    destruct (spectrum_waste node), (zombie_port node);
      cbn in H; injection H as <-; repeat split.
  - eexists. split; [reflexivity|]. split; [reflexivity|].
    destruct (spectrum_waste node), (zombie_port node);
      cbn in H; injection H as <-; repeat split.
Qed.


(** Within the exact range the guard of crime 1 is the inequality
    [reserved > 1.5 * actual] over the integers. *)
Lemma license_hoarding_exact node :
  - 2 ^ 53 < 3 * license_actual node < 2 ^ 53 ->
  license_hoarding node
  = Ok ((3 * license_actual node <? 2 * license_reserved node)
        && (50 <? license_reserved node)).
Proof.
  intros Hr. unfold license_hoarding.
  destruct (compare_threshold_exact _ Hr) as (x & -> & Hc). cbn [rbind].
  unfold int_gt_float. rewrite Hc. rewrite (Z.ltb_compare (3 * _)).
  rewrite (Z.compare_antisym (2 * _)).
  destruct (2 * license_reserved node ?= 3 * license_actual node); reflexivity.
Qed.

(** The evaluator returns a verdict whenever the two ints it converts to
    float are below 2^53 in size. *)
Lemma judge_total node :
  - 2 ^ 53 < 3 * license_actual node < 2 ^ 53 ->
  - 2 ^ 53 < license_reserved node - license_actual node < 2 ^ 53 ->
  exists v, _judge_concurrently node = Ok v.
Proof.
  intros Ha Hw. unfold _judge_concurrently.
  rewrite license_hoarding_exact, bw_saving by assumption. cbn [rbind].
  destruct (_ && _).
  - unfold int_mul_float. destruct (float_of_int_small _ Hw) as [x ->].
    cbn [rbind]. destruct (spectrum_waste node); eexists; reflexivity.
  - cbn [rbind]. destruct (spectrum_waste node); eexists; reflexivity.
Qed.

(** Within the exact range every saving, and the total, is the float of
    the saving computed over the integers: no rounding takes place. *)
Lemma judge_exact node :
  - 2 ^ 53 < 3 * license_actual node < 2 ^ 53 ->
  - 2 ^ 53 < license_reserved node - license_actual node ->
  10 * (license_reserved node - license_actual node) + 610 < 2 ^ 53 ->
  exists v,
    _judge_concurrently node = Ok v /\
    Forall (fun o => saving_value o = Zfloat (exact_saving node (code o)))
      (offenses v) /\
    total_savings v
    = Zfloat (foldr Z.add 0 (map (fun o => exact_saving node (code o)) (offenses v))).
Proof.
  intros Ha Hlo Hhi.
  destruct (judge_total node Ha) as [v Hv]; [lia|].
  exists v. split; [exact Hv|].
  destruct (judge_cases node v Hv) as (c1 & l1 & Hc1 & Hl1 & Hoff & Htot & _).
  rewrite Htot, Hoff. clear Htot Hoff Hv v.
  rewrite license_hoarding_exact in Hc1 by assumption. injection Hc1 as Hc1.
  destruct c1.
  - destruct Hl1 as (val & Hval & ->).
    apply andb_true_iff in Hc1 as [H1 H2].
    apply Z.ltb_lt in H1, H2.
    destruct (license_reserved node - license_actual node) as [|p|p] eqn:Hw;
      try lia.
    assert (Hval' : val = Zfloat (Z.pos (10 * p))).
    { rewrite <- prim_mul_10_exact, Zfloat_pos by lia.
      unfold int_mul_float in Hval. rewrite float_of_int_pos in Hval by lia.
      cbn [rbind] in Hval.
      change (LICENSE_MBPS (COSTS CONFIG)) with 10%float in Hval. congruence. }
    clear Hval. subst val.
    unfold exact_saving, sum_savings.
    destruct (spectrum_waste node), (zombie_port node);
      cbn [app map foldr fold_left code saving_value String.eqb Ascii.eqb
           Bool.eqb];
      rewrite ?Hw;
      (split; [repeat constructor|]);
      rewrite prim_zero_add by lia.
    + change 560%float with (Zfloat (Z.pos 560)).
      change 50%float with (Zfloat (Z.pos 50)).
      rewrite !prim_add_exact by lia. f_equal; lia.
    + change 560%float with (Zfloat (Z.pos 560)).
      rewrite !prim_add_exact by lia. f_equal; lia.
    + change 50%float with (Zfloat (Z.pos 50)).
      rewrite !prim_add_exact by lia. f_equal; lia.
    + f_equal; lia.
  - subst l1. unfold exact_saving, sum_savings.
    destruct (spectrum_waste node), (zombie_port node);
      (split; [repeat constructor|]); vm_compute; reflexivity.
Qed.

Lemma triggered_table node c1 :
  triggered (rule_table node c1)
  = (if c1 then ["LICENSE"] else [])
    ++ (if spectrum_waste node then ["BW"] else [])
    ++ (if zombie_port node then ["ZOMBIE"] else []).
Proof.
  unfold triggered, rule_table.
  destruct c1, (spectrum_waste node), (zombie_port node); reflexivity.
Qed.

(** C1: the evaluator checks the three rules independently. Whenever it
    returns a verdict, the codes of the offense list are exactly the rules
    whose trigger holds, in the order LICENSE, BW, ZOMBIE; it does return
    one for every snapshot whose ints are below 2^53 in size; and 0, 1, 2
    and 3 offenses all occur. *)
Theorem judge_reports_every_triggered_rule :
  (forall node v, _judge_concurrently node = Ok v ->
     exists hoarding,
       license_hoarding node = Ok hoarding /\
       map code (offenses v) = triggered (rule_table node hoarding)) /\
  (forall node,
     - 2 ^ 53 < 3 * license_actual node < 2 ^ 53 ->
     - 2 ^ 53 < license_reserved node - license_actual node < 2 ^ 53 ->
     exists v, _judge_concurrently node = Ok v) /\
  (forall n, (n <= 3)%nat ->
     exists node v, _judge_concurrently node = Ok v /\ length (offenses v) = n).
Proof.
  split; [|split].
  - intros node v Hv.
    destruct (judge_cases node v Hv) as (c1 & l1 & Hc1 & Hl1 & Hoff & _).
    exists c1. split; [exact Hc1|].
    rewrite Hoff, triggered_table, !map_app.
    destruct c1; [destruct Hl1 as (val & _ & ->)|subst l1];
      destruct (spectrum_waste node), (zombie_port node); reflexivity.
  - exact judge_total.
  - intros n Hn.
    destruct n as [|[|[|[|n]]]]; [| | | |lia].
    + exists (snapshot 50 120 28 100%float "UP"). eexists.
      split; [vm_compute; reflexivity|reflexivity].
    + exists (snapshot 0 0 28 0.5%float "UP"). eexists.
      split; [vm_compute; reflexivity|reflexivity].
    + exists (snapshot 0 0 56 0.5%float "UP"). eexists.
      split; [vm_compute; reflexivity|reflexivity].
    + exists scenario_A. eexists.
      split; [vm_compute; reflexivity|reflexivity].
Qed.

Lemma judge_reports_every_triggered_rule_witness :
  exists v, _judge_concurrently scenario_A = Ok v /\
    exists hoarding,
      license_hoarding scenario_A = Ok hoarding /\
      map code (offenses v) = triggered (rule_table scenario_A hoarding).
Proof.
  eexists. split; [vm_compute; reflexivity|].
  apply (proj1 judge_reports_every_triggered_rule scenario_A).
  vm_compute. reflexivity.
Defined.

(** C5: the total savings of a verdict is the sum of the savings of its
    offenses, added in list order. Within the exact range (ints below 2^53
    in size) a verdict is always returned, and each saving and the total
    are the floats of the savings computed over the integers. *)
Theorem total_savings_is_sum :
  (forall node v, _judge_concurrently node = Ok v ->
     total_savings v = sum_savings (offenses v)) /\
  (forall node,
     - 2 ^ 53 < 3 * license_actual node < 2 ^ 53 ->
     - 2 ^ 53 < license_reserved node - license_actual node ->
     10 * (license_reserved node - license_actual node) + 610 < 2 ^ 53 ->
     exists v,
       _judge_concurrently node = Ok v /\
       Forall (fun o => saving_value o = Zfloat (exact_saving node (code o)))
         (offenses v) /\
       total_savings v
       = Zfloat (foldr Z.add 0
                   (map (fun o => exact_saving node (code o)) (offenses v)))).
Proof.
  split.
  - intros node v Hv.
    destruct (judge_cases node v Hv) as (_ & _ & _ & _ & _ & Hs & _).
    exact Hs.
  - exact judge_exact.
Qed.

Lemma total_savings_is_sum_witness :
  exists v, _judge_concurrently scenario_A = Ok v /\
    total_savings v = sum_savings (offenses v).
Proof.
  eexists. split; [vm_compute; reflexivity|].
  apply (proj1 total_savings_is_sum scenario_A). vm_compute. reflexivity.
Defined.

(** The status of a verdict is Guilty exactly when it has an offense. *)
Lemma status_guilty_iff node v :
  _judge_concurrently node = Ok v ->
  status v = "Guilty" <-> offenses v <> [].
Proof.
  intros Hv. destruct (judge_cases node v Hv) as (_ & _ & _ & _ & _ & _ & ->).
  case_bool_decide; split; intros; congruence.
Qed.

(** Above 2^53 the product [license_actual * 1.5] is rounded: here
    [license_reserved] is 1.5 times [license_actual], the product rounds
    down to the even neighbour, and the strict comparison succeeds. *)
Lemma license_boundary_rounded :
  2 * license_reserved rounded_snapshot = 3 * license_actual rounded_snapshot /\
  license_hoarding rounded_snapshot = Ok true /\
  exists v, _judge_concurrently rounded_snapshot = Ok v /\
    map code (offenses v) = ["LICENSE"].
Proof.
  split; [reflexivity|]. split; [vm_compute; reflexivity|].
  eexists. split; [vm_compute; reflexivity|reflexivity].
Qed.

(** The same through the pipeline: the log is parsed into that snapshot
    and the link is indicted for LICENSE. *)
Lemma license_boundary_rounded_log :
  (ingest_and_audit 100 rounded_log empty_world).1
  = Ok (Indicted (IdStr "UNKNOWN") "LICENSE").
Proof. vm_compute. reflexivity. Qed.

(** C6 (amended): the comparisons are strict. License Hoarding does not
    trigger when licenseReserved is exactly 1.5 x licenseRequired, as long
    as 3 x licenseRequired is below 2^53 in size, nor, at any size, when
    licenseReserved equals the product the code computes; throughput
    exactly 1.0 does not trigger Zombie Port, exactly 50 does not trigger
    Spectrum Waste. *)
Theorem boundaries_are_exclusive node :
  (- 2 ^ 53 < 3 * license_actual node < 2 ^ 53 ->
   2 * license_reserved node = 3 * license_actual node ->
   license_hoarding node = Ok false) /\
  (at_license_threshold node -> license_hoarding node = Ok false) /\
  (throughput node = 1.0%float -> zombie_port node = false) /\
  (throughput node = 50.0%float -> spectrum_waste node = false).
Proof.
  split; [|split; [|split]].
  - intros Hr Heq. rewrite license_hoarding_exact by assumption.
    rewrite Heq, Z.ltb_irrefl. reflexivity.
  - intros (x & Hx & Heq). unfold license_hoarding. rewrite Hx. cbn [rbind].
    unfold int_gt_float. unfold int_eq_float in Heq.
    destruct (compare_int_float _ x) as [[]|]; try discriminate. reflexivity.
  - intros Ht. unfold zombie_port. rewrite Ht. apply andb_false_r.
  - intros Ht. unfold spectrum_waste. rewrite Ht. apply andb_false_r.
Qed.

Lemma boundaries_are_exclusive_witness :
  let node := snapshot 150 100 56 1.0%float "UP" in
  let node' := snapshot 150 100 56 50.0%float "UP" in
  (- 2 ^ 53 < 3 * license_actual node < 2 ^ 53 /\
   2 * license_reserved node = 3 * license_actual node /\
   license_hoarding node = Ok false) /\
  (at_license_threshold node /\ license_hoarding node = Ok false) /\
  (throughput node = 1.0%float /\ zombie_port node = false) /\
  (throughput node' = 50.0%float /\ spectrum_waste node' = false).
Proof.
  intros node node'.
  assert (Hr : - 2 ^ 53 < 3 * license_actual node < 2 ^ 53) by (cbn; lia).
  assert (He : 2 * license_reserved node = 3 * license_actual node) by reflexivity.
  assert (Hb : at_license_threshold node)
    by (eexists; split; vm_compute; reflexivity).
  destruct (boundaries_are_exclusive node) as (H1 & H2 & H3 & _).
  destruct (boundaries_are_exclusive node') as (_ & _ & _ & H4).
  exact (conj (conj Hr (conj He (H1 Hr He)))
           (conj (conj Hb (H2 Hb))
              (conj (conj eq_refl (H3 eq_refl)) (conj eq_refl (H4 eq_refl))))).
Defined.

(** C4: scenario A. For licenseReserved=400, throughput=0.5, bandwidth=56,
    adminStatus=UP and safetyMargin=1.2 the required license is 0 and the
    evaluator returns the three offenses LICENSE (wasted 400), BW (wasted
    28), ZOMBIE (wasted 1), with total savings 4000 + 560 + 50 = 4610. *)
Theorem scenario_A_verdict :
  SAFETY_MARGIN CONFIG = 1.2%float /\
  needed_license (throughput scenario_A) = Ok (license_actual scenario_A) /\
  license_actual scenario_A = 0 /\
  exists v, _judge_concurrently scenario_A = Ok v /\
    status v = "Guilty" /\
    map (fun o => (code o, wasted_qty o, saving_value o)) (offenses v)
      = [("LICENSE", 400, 4000%float); ("BW", 28, 560%float); ("ZOMBIE", 1, 50%float)] /\
    total_savings v = 4610%float.
Proof.
  repeat split; try reflexivity.
  eexists. split; [vm_compute; reflexivity|]. repeat split.
Qed.

(** ** The regex engine

    [search] finds a match exactly when one occurs in the text. *)

Section Engine.

Import re.

Lemma span_take cls s k :
  (k <= span cls s)%nat -> Forall (fun c => cls c = true) (take k s).
Proof.
  revert k. induction s as [|c s IH]; intros k Hk.
  - rewrite take_nil. constructor.
  - destruct k as [|k]; [constructor|]. cbn [span] in Hk. cbn [take].
    destruct (cls c) eqn:Hc; [|lia].
    constructor; [exact Hc|]. apply IH. lia.
Qed.

Lemma span_run cls run s :
  Forall (fun c => cls c = true) run -> (length run <= span cls (run ++ s))%nat.
Proof.
  induction 1 as [|c run Hc _ IH]; cbn [app length span]; [lia|].
  rewrite Hc. lia.
Qed.

Lemma backtrack_none {A} (try : nat -> option A) least k :
  backtrack k least try = None
  <-> forall j, (least <= j <= k)%nat -> try j = None.
Proof.
  induction k as [|k IH]; cbn [backtrack].
  - destruct (Nat.ltb_spec 0 least) as [Hlt|Hge].
    + split; [intros _ j Hj; lia|reflexivity].
    + destruct (try 0%nat) eqn:H0.
      * split; [discriminate|]. intros H. rewrite <- H0. apply H. lia.
      * split; [|reflexivity]. intros _ j Hj.
        replace j with 0%nat by lia. exact H0.
  - destruct (Nat.ltb_spec (S k) least) as [Hlt|Hge].
    + split; [intros _ j Hj; lia|reflexivity].
    + destruct (try (S k)) eqn:HS.
      * split; [discriminate|]. intros H. rewrite <- HS. apply H. lia.
      * rewrite IH. split; intros H j Hj.
        -- destruct (decide (j = S k)) as [->|Hne]; [exact HS|]. apply H. lia.
        -- apply H. lia.
Qed.

Lemma backtrack_some {A} (try : nat -> option A) least k :
  backtrack k least try <> None ->
  exists j, (least <= j <= k)%nat /\ try j <> None.
Proof.
  induction k as [|k IH]; cbn [backtrack].
  - destruct (Nat.ltb_spec 0 least) as [Hlt|Hge]; [congruence|].
    destruct (try 0%nat) eqn:H0; [|congruence].
    intros _. exists 0%nat. split; [lia|congruence].
  - destruct (Nat.ltb_spec (S k) least) as [Hlt|Hge]; [congruence|].
    destruct (try (S k)) eqn:HS.
    + intros _. exists (S k). split; [lia|congruence].
    + intros H. destruct (IH H) as (j & Hj & Hsome).
      exists j. split; [lia|exact Hsome].
Qed.

Lemma span_length cls s : (span cls s <= length s)%nat.
Proof.
  induction s as [|c s IH]; cbn [span length]; [lia|].
  destruct (cls c); lia.
Qed.

Lemma match_here_some r : forall s,
  match_here r s <> None <-> exists rest, matches r s rest.
Proof.
  induction r as [|[c|cls least group] r IH]; intros s; cbn [match_here].
  - split; [intros _; exists s; constructor|discriminate].
  - destruct s as [|c' s].
    + split; [congruence|]. intros [rest H]. inversion H.
    + destruct (Ascii.eqb_spec c c') as [<-|Hne].
      * rewrite IH. split; intros [rest H]; exists rest.
        -- constructor. exact H.
        -- inversion H; subst. assumption.
      * split; [congruence|]. intros [rest H]. inversion H; subst. congruence.
  - split.
    + intros H. apply backtrack_some in H as (j & Hj & Hsome).
      assert (Hm : match_here r (drop j s) <> None)
        by (destruct (match_here r (drop j s)); congruence).
      apply IH in Hm as [rest Hm].
      exists rest. rewrite <- (take_drop j s).
      apply matches_rep; [apply span_take; lia| |exact Hm].
      rewrite length_take. pose proof (span_length cls s). lia.
    + intros [rest H]. inversion H as [| |? ? ? ? run s' ? Hrun Hleast Hm]; subst.
      intros Hb. apply backtrack_none with (j := length run) in Hb.
      * rewrite drop_app_length in Hb.
        assert (Hs : match_here r s' <> None) by (apply IH; eauto).
        destruct (match_here r s'); congruence.
      * split; [exact Hleast|apply span_run; exact Hrun].
Qed.

Lemma search_from_some r : forall s,
  search_from r s <> None <-> occurs r s.
Proof.
  induction s as [|c s IH]; cbn [search_from].
  - destruct (match_here r []) eqn:Hm.
    + split; [intros _|congruence].
      assert (H : match_here r [] <> None) by congruence.
      apply match_here_some in H as [rest H]. exists [], [], rest. auto.
    + split; [congruence|]. intros (before & s & rest & Heq & H).
      symmetry in Heq. apply app_eq_nil in Heq as [-> ->].
      assert (match_here r [] <> None) by (apply match_here_some; eauto).
      congruence.
  - destruct (match_here r (c :: s)) eqn:Hm.
    + split; [intros _|congruence].
      assert (H : match_here r (c :: s) <> None) by congruence.
      apply match_here_some in H as [rest H]. exists [], (c :: s), rest. auto.
    + rewrite IH. split.
      * intros (before & s' & rest & -> & H). exists (c :: before), s', rest. auto.
      * intros (before & s' & rest & Heq & H). destruct before as [|c' before].
        -- cbn in Heq. subst s'.
           assert (match_here r (c :: s) <> None) by (apply match_here_some; eauto).
           congruence.
        -- injection Heq as <- ->. exists before, s', rest. auto.
Qed.

(** [re.search] returns [None] exactly on the texts where the pattern
    occurs nowhere. *)
Lemma search_none pattern text :
  search pattern text = None <-> ~ occurs pattern (list_ascii_of_string text).
Proof.
  unfold search. rewrite <- search_from_some.
  destruct (search_from pattern (list_ascii_of_string text)); cbn [option_map].
  - split; [discriminate|]. intros H. exfalso. apply H. discriminate.
  - split; [|reflexivity]. intros _ H. apply H. reflexivity.
Qed.

Lemma nonempty_length {A} (l : list A) : l <> [] <-> (1 <= length l)%nat.
Proof. destruct l; cbn; split; intros; try congruence; lia. Qed.

(** The banner pattern is found exactly in the texts with a banner. *)
Lemma banner_search text :
  search HuaweiAdapter.ID_RE text = None <-> ~ has_banner text.
Proof.
  rewrite search_none.
  change HuaweiAdapter.ID_RE
    with [Chr "+"; Chr "+"; Chr "+"; Rep is_space 1 false; Rep is_name 1 true].
  apply not_iff_compat. unfold occurs, has_banner. split.
  - intros (before & s & rest & Heq & H).
    inversion H as [|? ? s1 ? H1|]; subst; clear H.
    inversion H1 as [|? ? s2 ? H2|]; subst; clear H1.
    inversion H2 as [|? ? s3 ? H3|]; subst; clear H2.
    inversion H3 as [| |? ? ? ? blanks s4 ? Hb Hbl H4]; subst; clear H3.
    inversion H4 as [| |? ? ? ? name s5 ? Hn Hnl H5]; subst; clear H4.
    inversion H5; subst; clear H5.
    exists before, blanks, name, rest. rewrite Heq.
    repeat split; try assumption; apply nonempty_length; assumption.
  - intros (before & blanks & name & rest & Heq & Hb & Hbs & Hn & Hns).
    exists before, (list_ascii_of_string "+++" ++ blanks ++ name ++ rest), rest.
    split; [exact Heq|]. cbn [list_ascii_of_string app].
    do 3 constructor.
    apply matches_rep; [exact Hbs|apply nonempty_length; exact Hb|].
    apply matches_rep; [exact Hns|apply nonempty_length; exact Hn|].
    constructor.
Qed.

End Engine.

(** ** The database manager *)

Ltac run_m :=
  unfold check_probation, add_suspect, update_suspect, release_suspect,
    record_profit, bind, ret, lift, emit, read_db, write_db, after;
  cbn [db trace probation_list financial_ledger fst snd].

Section DatabaseCalls.

Context (link_id : PyId) (k : string) (Hk : bind_link_id link_id = Ok k).

Lemma check_probation_run w :
  check_probation link_id w
  = (Ok (match probation_list (db w) !! k with
         | Some row => Some (start_date row, strike_count row)
         | None => None
         end),
     after w (probation_list (db w)) (financial_ledger (db w)) [EvSelect k]).
Proof. destruct w as [[pl fl] tr]. run_m. rewrite Hk. reflexivity. Qed.

Lemma add_suspect_run today summary w :
  probation_list (db w) !! k = None ->
  add_suspect today link_id summary w
  = (Ok tt,
     after w (<[ k := {| offense_summary := summary; start_date := today;
                         last_seen := today; strike_count := 1 |} ]>
                (probation_list (db w)))
       (financial_ledger (db w)) [EvInsert k]).
Proof.
  destruct w as [[pl fl] tr]. cbn. intros Hnone. run_m.
  rewrite Hk. cbn. rewrite Hnone. reflexivity.
Qed.

Lemma update_suspect_run today w :
  update_suspect today link_id w
  = (Ok tt,
     after w (alter (strike today) k (probation_list (db w)))
       (financial_ledger (db w)) [EvUpdate k]).
Proof. destruct w as [[pl fl] tr]. run_m. rewrite Hk. reflexivity. Qed.

Lemma release_suspect_run w :
  release_suspect link_id w
  = (Ok tt,
     after w (delete k (probation_list (db w))) (financial_ledger (db w))
       [EvDelete k]).
Proof. destruct w as [[pl fl] tr]. run_m. rewrite Hk. reflexivity. Qed.

Lemma record_profit_run today action value w :
  record_profit today link_id action value w
  = (Ok tt,
     after w (probation_list (db w))
       (financial_ledger (db w)
        ++ [ {| ledger_date := today; ledger_link_id := k;
                action_taken := action; recovered_value := value |} ])
       [EvLedger k action]).
Proof. destruct w as [[pl fl] tr]. run_m. rewrite Hk. reflexivity. Qed.

End DatabaseCalls.

(** A count that is a 64-bit integer goes up by one, the last of them to
    the REAL 2^63; a REAL count stays; no count goes down. *)
Lemma add1_integer count :
  - 2 ^ 63 <= count < 2 ^ 63 -> add1 count = count + 1.
Proof.
  intros H. unfold add1.
  destruct (Z.leb_spec (- 2 ^ 63) count); [|lia].
  destruct (Z.ltb_spec count (2 ^ 63)); [reflexivity|lia].
Qed.

Lemma add1_real count :
  count < - 2 ^ 63 \/ 2 ^ 63 <= count -> add1 count = count.
Proof.
  intros H. unfold add1.
  destruct (Z.leb_spec (- 2 ^ 63) count); [|reflexivity].
  destruct (Z.ltb_spec count (2 ^ 63)); [lia|reflexivity].
Qed.

Lemma add1_le count : count <= add1 count.
Proof.
  unfold add1. destruct (_ && _); lia.
Qed.

Lemma after_after w p1 l1 c1 p2 l2 c2 :
  after (after w p1 l1 c1) p2 l2 c2 = after w p2 l2 (c1 ++ c2).
Proof. unfold after. cbn. rewrite <- app_assoc. reflexivity. Qed.

Lemma after_nothing w :
  after w (probation_list (db w)) (financial_ledger (db w)) [] = w.
Proof. destruct w as [[pl fl] tr]. unfold after. cbn. rewrite app_nil_r. reflexivity. Qed.

(** ** Remediation *)

Section Remediation.

Context (today : Z) (node : NodeData) (adapter : VendorAdapter) (k : string)
  (Hk : bind_link_id (id node) = Ok k).

(** The loop writes one ledger row per offense, in order, and leaves
    the probation list alone. *)
Lemma for_each_run l : forall scripts w,
  for_each today node adapter scripts l w
  = (Ok (scripts ++ flat_map (offense_script node adapter) l),
     after w (probation_list (db w))
       (financial_ledger (db w) ++ map (ledger_row today k) l)
       (map (ledger_call k) l)).
Proof.
  induction l as [|o l IH]; intros scripts w.
  - cbn. rewrite !app_nil_r, after_nothing. reflexivity.
  - cbn [for_each]. unfold bind at 1. unfold punish. unfold bind at 1.
    rewrite (record_profit_run _ _ Hk). unfold ret at 1. rewrite IH.
    unfold after. cbn. rewrite <- !app_assoc. reflexivity.
Qed.

Lemma execute_rico_act_run verdict days w :
  _execute_rico_act today node verdict adapter days w
  = (Ok (Jackpot (id node) (total_savings verdict) (length (offenses verdict))
           (Header (id node) days
            :: flat_map (offense_script node adapter) (offenses verdict))),
     after w (delete k (probation_list (db w)))
       (financial_ledger (db w) ++ map (ledger_row today k) (offenses verdict))
       (map (ledger_call k) (offenses verdict) ++ [EvDelete k])).
Proof.
  unfold _execute_rico_act. unfold bind at 1. rewrite for_each_run.
  unfold bind at 1. rewrite (release_suspect_run _ _ Hk). unfold ret.
  rewrite after_after. reflexivity.
Qed.

End Remediation.

(** ** The probation state machine *)

Lemma process_verdict_unbound today node verdict adapter e w :
  bind_link_id (id node) = Raise e ->
  _process_verdict today node verdict adapter w = (Raise e, w).
Proof.
  intros He. unfold _process_verdict, check_probation, bind, lift.
  rewrite He. destruct (String.eqb _ _); reflexivity.
Qed.

Section Escalation.

Context (today : Z) (node : NodeData) (verdict : Verdict)
  (adapter : VendorAdapter) (k : string)
  (Hk : bind_link_id (id node) = Ok k).

Abbreviation summary := (join "," (map code (offenses verdict))).

Lemma process_innocent_clean w :
  status verdict = "Innocent" ->
  probation_list (db w) !! k = None ->
  _process_verdict today node verdict adapter w
  = (Ok (Clean (id node)),
     after w (probation_list (db w)) (financial_ledger (db w)) [EvSelect k]).
Proof.
  intros Hs Hnone. unfold _process_verdict. rewrite Hs, String.eqb_refl.
  unfold bind at 1. rewrite (check_probation_run _ _ Hk), Hnone. reflexivity.
Qed.

Lemma process_innocent_on_probation w row :
  status verdict = "Innocent" ->
  probation_list (db w) !! k = Some row ->
  _process_verdict today node verdict adapter w
  = (Ok (Cleared (id node)),
     after w (delete k (probation_list (db w))) (financial_ledger (db w))
       [EvSelect k; EvDelete k]).
Proof.
  intros Hs Hrow. unfold _process_verdict. rewrite Hs, String.eqb_refl.
  unfold bind at 1. rewrite (check_probation_run _ _ Hk), Hrow.
  unfold bind at 1. rewrite (release_suspect_run _ _ Hk). unfold ret.
  rewrite after_after. reflexivity.
Qed.

Lemma process_guilty_first w :
  status verdict <> "Innocent" ->
  probation_list (db w) !! k = None ->
  _process_verdict today node verdict adapter w
  = (Ok (Indicted (id node) summary),
     after w (<[ k := {| offense_summary := summary; start_date := today;
                         last_seen := today; strike_count := 1 |} ]>
                (probation_list (db w)))
       (financial_ledger (db w)) [EvSelect k; EvInsert k]).
Proof.
  intros Hs Hnone. unfold _process_verdict.
  apply String.eqb_neq in Hs. rewrite Hs.
  unfold bind at 1. rewrite (check_probation_run _ _ Hk), Hnone.
  unfold bind at 1. rewrite (add_suspect_run _ _ Hk) by exact Hnone.
  unfold ret. rewrite after_after. reflexivity.
Qed.

(** A guilty verdict on a link under probation: the strike is recorded
    first, then the age decides. *)
Lemma process_guilty_on_probation w row :
  status verdict <> "Innocent" ->
  probation_list (db w) !! k = Some row ->
  _process_verdict today node verdict adapter w
  = let days_in_jail := today - start_date row in
    let w1 := after w (alter (strike today) k (probation_list (db w)))
                (financial_ledger (db w)) [EvSelect k; EvUpdate k] in
    if PROBATION_DAYS CONFIG <=? days_in_jail
    then _execute_rico_act today node verdict adapter days_in_jail w1
    else (Ok (Surveillance (id node) days_in_jail summary), w1).
Proof.
  intros Hs Hrow. unfold _process_verdict.
  apply String.eqb_neq in Hs. rewrite Hs.
  unfold bind at 1. rewrite (check_probation_run _ _ Hk), Hrow.
  unfold bind at 1. rewrite (update_suspect_run _ _ Hk), after_after.
  cbn [app]. destruct (_ <=? _); reflexivity.
Qed.

Lemma process_guilty_matured w row :
  status verdict <> "Innocent" ->
  probation_list (db w) !! k = Some row ->
  PROBATION_DAYS CONFIG <= today - start_date row ->
  _process_verdict today node verdict adapter w
  = (Ok (Jackpot (id node) (total_savings verdict) (length (offenses verdict))
           (Header (id node) (today - start_date row)
            :: flat_map (offense_script node adapter) (offenses verdict))),
     after w (delete k (probation_list (db w)))
       (financial_ledger (db w) ++ map (ledger_row today k) (offenses verdict))
       ([EvSelect k; EvUpdate k]
        ++ map (ledger_call k) (offenses verdict) ++ [EvDelete k])).
Proof.
  intros Hs Hrow Hage. rewrite (process_guilty_on_probation _ _ Hs Hrow).
  cbn zeta. destruct (Z.leb_spec (PROBATION_DAYS CONFIG) (today - start_date row));
    [|lia].
  rewrite (execute_rico_act_run _ _ _ _ Hk), after_after.
  unfold after. cbn. rewrite delete_alter_eq. reflexivity.
Qed.

Lemma process_guilty_young w row :
  status verdict <> "Innocent" ->
  probation_list (db w) !! k = Some row ->
  today - start_date row < PROBATION_DAYS CONFIG ->
  _process_verdict today node verdict adapter w
  = (Ok (Surveillance (id node) (today - start_date row) summary),
     after w (alter (strike today) k (probation_list (db w)))
       (financial_ledger (db w)) [EvSelect k; EvUpdate k]).
Proof.
  intros Hs Hrow Hage. rewrite (process_guilty_on_probation _ _ Hs Hrow).
  cbn zeta. destruct (Z.leb_spec (PROBATION_DAYS CONFIG) (today - start_date row));
    [lia|reflexivity].
Qed.

End Escalation.

(** Every outcome of [_process_verdict], as a table over the status of
    the verdict and the record found. *)
Lemma process_verdict_cases today node verdict adapter k w :
  bind_link_id (id node) = Ok k ->
  let pl := probation_list (db w) in
  let fl := financial_ledger (db w) in
  exists r pl' fl' calls,
    _process_verdict today node verdict adapter w = (Ok r, after w pl' fl' calls) /\
    Forall (fun ev => event_key ev = Some k) calls /\
    (exists rest, calls = EvSelect k :: rest) /\
    (pl' = pl \/ pl' = delete k pl
     \/ (pl !! k = None /\ exists row, start_date row = today /\ strike_count row = 1
                                       /\ pl' = <[ k := row ]> pl)
     \/ pl' = alter (strike today) k pl).
Proof.
  intros Hk pl fl.
  destruct (decide (status verdict = "Innocent")) as [Hs|Hs];
    destruct (pl !! k) as [row|] eqn:Hrow.
  - do 4 eexists. split; [apply (process_innocent_on_probation _ _ _ _ _ Hk _ _ Hs Hrow)|].
    split; [repeat constructor|]. split; [eauto|]. auto.
  - do 4 eexists. split; [apply (process_innocent_clean _ _ _ _ _ Hk _ Hs Hrow)|].
    split; [repeat constructor|]. split; [eauto|]. auto.
  - destruct (Z.le_gt_cases (PROBATION_DAYS CONFIG) (today - start_date row)) as [Ha|Ha].
    + do 4 eexists.
      split; [apply (process_guilty_matured _ _ _ _ _ Hk _ _ Hs Hrow Ha)|].
      split; [|split; [eexists; reflexivity|auto]].
      repeat (apply Forall_cons; split; [reflexivity|]).
      apply Forall_app. split; [|repeat constructor].
      apply Forall_forall. intros ev Hev.
      apply list_elem_of_fmap in Hev as (o & -> & _). reflexivity.
    + do 4 eexists.
      split; [apply (process_guilty_young _ _ _ _ _ Hk _ _ Hs Hrow Ha)|].
      split; [repeat constructor|]. split; [eauto|]. auto.
  - do 4 eexists. split; [apply (process_guilty_first _ _ _ _ _ Hk _ Hs Hrow)|].
    split; [repeat constructor|]. split; [eauto|].
    right. right. left. split; [reflexivity|].
    exists {| offense_summary := join "," (map code (offenses verdict));
              start_date := today; last_seen := today; strike_count := 1 |}.
    repeat split.
Qed.

(** One call of [_process_verdict] touches only the record of its own
    link, and a record that survives it keeps its start date and does not
    lose strikes. *)
Lemma process_verdict_step today node verdict adapter w r w' :
  _process_verdict today node verdict adapter w = (r, w') ->
  (forall key k, bind_link_id (id node) = Ok k -> key <> k ->
     probation_list (db w') !! key = probation_list (db w) !! key) /\
  (forall key row row',
     probation_list (db w) !! key = Some row ->
     probation_list (db w') !! key = Some row' ->
     start_date row' = start_date row /\ strike_count row <= strike_count row').
Proof.
  intros Hrun.
  destruct (bind_link_id (id node)) as [k|e] eqn:Hk.
  - destruct (process_verdict_cases today node verdict adapter k w Hk)
      as (r0 & pl' & fl' & calls & Hrun' & _ & _ & Hpl).
    rewrite Hrun in Hrun'. injection Hrun' as -> ->. cbn [after db probation_list].
    split.
    + intros key k' [= <-] Hne.
      destruct Hpl as [->|[->|[(_ & row & _ & _ & ->)| ->]]].
      * reflexivity.
      * apply lookup_delete_ne. congruence.
      * apply lookup_insert_ne. congruence.
      * apply lookup_alter_ne. congruence.
    + intros key row row' Hrow Hrow'.
      destruct Hpl as [->|[->|[(Hnone & new & _ & _ & ->)| ->]]].
      * rewrite Hrow in Hrow'. injection Hrow' as <-. lia.
      * destruct (decide (key = k)) as [->|Hne].
        -- rewrite lookup_delete_eq in Hrow'. discriminate.
        -- rewrite lookup_delete_ne, Hrow in Hrow' by congruence.
           injection Hrow' as <-. lia.
      * destruct (decide (key = k)) as [->|Hne]; [congruence|].
        rewrite lookup_insert_ne, Hrow in Hrow' by congruence.
        injection Hrow' as <-. lia.
      * destruct (decide (key = k)) as [->|Hne].
        -- rewrite lookup_alter_eq, Hrow in Hrow'. injection Hrow' as <-.
           cbn. pose proof (add1_le (strike_count row)). lia.
        -- rewrite lookup_alter_ne, Hrow in Hrow' by congruence.
           injection Hrow' as <-. lia.
  - rewrite (process_verdict_unbound _ _ _ _ _ _ Hk) in Hrun.
    injection Hrun as _ <-. split; [discriminate|].
    intros key row row' Hrow Hrow'. rewrite Hrow in Hrow'.
    injection Hrow' as <-. lia.
Qed.

(** C3: a guilty verdict on a link under probation is remediated if and
    only if the record is at least PROBATION_DAYS = 15 days old; then one
    ledger row per offense is written and the record is deleted last, after
    the batch; below 15 days the result is a surveillance report and the
    record is kept. *)
Theorem remediation_iff_probation_matured
    today node verdict adapter k row w r w' :
  status verdict = "Guilty" ->
  bind_link_id (id node) = Ok k ->
  probation_list (db w) !! k = Some row ->
  _process_verdict today node verdict adapter w = (r, w') ->
  let age := today - start_date row in
  PROBATION_DAYS CONFIG = 15 /\
  (remediation_executed r <-> 15 <= age) /\
  (15 <= age ->
     probation_list (db w') !! k = None /\
     financial_ledger (db w')
       = financial_ledger (db w) ++ map (ledger_row today k) (offenses verdict) /\
     trace w' = trace w ++ [EvSelect k; EvUpdate k]
                ++ map (ledger_call k) (offenses verdict) ++ [EvDelete k]) /\
  (age < 15 ->
     r = Ok (Surveillance (id node) age (join "," (map code (offenses verdict)))) /\
     probation_list (db w') !! k = Some (strike today row) /\
     financial_ledger (db w') = financial_ledger (db w)).
Proof.
  intros Hs Hk Hrow Hrun age.
  assert (Hs' : status verdict <> "Innocent") by (rewrite Hs; discriminate).
  split; [reflexivity|].
  destruct (Z.le_gt_cases 15 age) as [Ha|Ha].
  - rewrite (process_guilty_matured _ _ _ _ _ Hk _ _ Hs' Hrow Ha) in Hrun.
    injection Hrun as <- <-. cbn [after db probation_list financial_ledger trace].
    split; [|split].
    + split; [intros _; exact Ha|]. intros _. do 4 eexists. reflexivity.
    + intros _. split; [apply lookup_delete_eq|]. split; reflexivity.
    + intros Hlt. lia.
  - rewrite (process_guilty_young _ _ _ _ _ Hk _ _ Hs' Hrow Ha) in Hrun.
    injection Hrun as <- <-. cbn [after db probation_list financial_ledger trace].
    split; [|split].
    + split; [|lia]. intros (? & ? & ? & ? & [=]).
    + lia.
    + intros _. split; [reflexivity|]. split; [|reflexivity].
      rewrite lookup_alter_eq, Hrow. reflexivity.
Qed.

Lemma remediation_iff_probation_matured_witness :
  exists r w',
    _process_verdict 120 scenario_A verdict_A HuaweiAdapter.adapter
      (probation_world 100 1) = (r, w') /\
    (remediation_executed r <-> 15 <= 120 - 100) /\
    probation_list (db w') !! "UNKNOWN" = None.
Proof.
  assert (Hrow : probation_list (db (probation_world 100 1)) !! "UNKNOWN"
                 = Some {| offense_summary := "LICENSE,BW,ZOMBIE";
                           start_date := 100; last_seen := 100;
                           strike_count := 1 |})
    by (vm_compute; reflexivity).
  destruct (_process_verdict 120 scenario_A verdict_A HuaweiAdapter.adapter
              (probation_world 100 1)) as [r w'] eqn:Hrun.
  exists r, w'. split; [reflexivity|].
  destruct (remediation_iff_probation_matured 120 scenario_A verdict_A
              HuaweiAdapter.adapter "UNKNOWN" _ (probation_world 100 1) r w'
              eq_refl eq_refl Hrow Hrun) as (_ & Hiff & Hdel & _).
  split; [exact Hiff|]. apply Hdel. cbn [start_date]. lia.
Defined.

(** C9, as stated, fails where the count leaves the 64-bit integers: a
    record with 2^63 - 1 strikes gets the REAL 2^63 at the next guilty
    audit, and the audit after that leaves the count where it is. *)
Lemma strike_count_stops_at_2_63 :
  map (fun n =>
         strike_count <$>
           probation_list
             (db (process_all scenario_A HuaweiAdapter.adapter
                    (repeat (101, verdict_A) n)
                    (probation_world 100 (2 ^ 63 - 1)))) !! "UNKNOWN")
    [0; 1; 2]%nat
  = [Some (2 ^ 63 - 1); Some (2 ^ 63); Some (2 ^ 63)]
  /\ 2 ^ 63 <> 2 ^ 63 - 1 + 2.
Proof. split; [vm_compute; reflexivity|discriminate]. Qed.

(** C9 (amended): every guilty audit of a link under probation records
    the strike whatever the age of the record: lastSeen becomes today, and
    strikeCount goes up by one as long as it is a 64-bit integer (a count
    that has reached 2^63 is a REAL and stays); when the record has matured
    the remediation runs on the updated record, and the UPDATE precedes the
    DELETE. *)
Theorem strike_recorded_before_remediation
    today node verdict adapter k row w :
  status verdict = "Guilty" ->
  bind_link_id (id node) = Ok k ->
  probation_list (db w) !! k = Some row ->
  let age := today - start_date row in
  exists w1,
    probation_list (db w1) !! k = Some (strike today row) /\
    (- 2 ^ 63 <= strike_count row < 2 ^ 63 ->
     strike_count (strike today row) = strike_count row + 1) /\
    (2 ^ 63 <= strike_count row ->
     strike_count (strike today row) = strike_count row) /\
    last_seen (strike today row) = today /\
    trace w1 = trace w ++ [EvSelect k; EvUpdate k] /\
    _process_verdict today node verdict adapter w
    = (if PROBATION_DAYS CONFIG <=? age
       then _execute_rico_act today node verdict adapter age w1
       else (Ok (Surveillance (id node) age
                   (join "," (map code (offenses verdict)))), w1)) /\
    (PROBATION_DAYS CONFIG <= age ->
     exists calls,
       trace (_process_verdict today node verdict adapter w).2
       = trace w1 ++ calls ++ [EvDelete k] /\
       probation_list (db (_process_verdict today node verdict adapter w).2) !! k
       = None).
Proof.
  intros Hs Hk Hrow age.
  assert (Hs' : status verdict <> "Innocent") by (rewrite Hs; discriminate).
  exists (after w (alter (strike today) k (probation_list (db w)))
            (financial_ledger (db w)) [EvSelect k; EvUpdate k]).
  split; [|split; [|split; [|split; [|split; [|split]]]]].
  - cbn. rewrite lookup_alter_eq, Hrow. reflexivity.
  - apply add1_integer.
  - intros Hreal. apply add1_real. right. exact Hreal.
  - reflexivity.
  - reflexivity.
  - exact (process_guilty_on_probation _ _ _ _ _ Hk _ _ Hs' Hrow).
  - intros Ha. rewrite (process_guilty_matured _ _ _ _ _ Hk _ _ Hs' Hrow Ha).
    cbn [after db probation_list trace snd].
    exists (map (ledger_call k) (offenses verdict)).
    split; [|apply lookup_delete_eq].
    rewrite <- app_assoc. reflexivity.
Qed.

Lemma strike_recorded_before_remediation_witness :
  exists w1,
    probation_list (db w1) !! "UNKNOWN"
    = Some {| offense_summary := "LICENSE,BW,ZOMBIE"; start_date := 100;
              last_seen := 120; strike_count := 4 |} /\
    _process_verdict 120 scenario_A verdict_A HuaweiAdapter.adapter
      (probation_world 100 3)
    = _execute_rico_act 120 scenario_A verdict_A HuaweiAdapter.adapter 20 w1.
Proof.
  assert (Hrow : probation_list (db (probation_world 100 3)) !! "UNKNOWN"
                 = Some {| offense_summary := "LICENSE,BW,ZOMBIE";
                           start_date := 100; last_seen := 100;
                           strike_count := 3 |})
    by (vm_compute; reflexivity).
  destruct (strike_recorded_before_remediation 120 scenario_A verdict_A
              HuaweiAdapter.adapter "UNKNOWN" _ (probation_world 100 3)
              eq_refl eq_refl Hrow) as (w1 & H1 & _ & _ & _ & _ & H2 & _).
  exists w1. split; [exact H1|exact H2].
Defined.

(** ** The audit entry point *)

Lemma adapters_lookup vendor_name adapter :
  adapters !! vendor_name = Some adapter ->
  vendor_name = "Huawei" /\ adapter = HuaweiAdapter.adapter.
Proof.
  unfold adapters. intros H. apply lookup_singleton_Some in H as [<- <-].
  split; reflexivity.
Qed.

Lemma no_adapter_iff_no_signature raw_log :
  adapters !! detect_vendor raw_log = None
  <-> PyStr.contains "Current License Capacity" raw_log = false.
Proof.
  unfold detect_vendor.
  destruct (PyStr.contains _ raw_log); split; intros H;
    try reflexivity; discriminate.
Qed.

Lemma ingest_without_adapter today raw_log w :
  adapters !! detect_vendor raw_log = None ->
  ingest_and_audit today raw_log w = (Ok UnknownVendor, w).
Proof.
  intros Ha. unfold ingest_and_audit. rewrite Ha. reflexivity.
Qed.

(** Past the vendor check an audit parses, derives the needed license,
    judges, and hands over to [_process_verdict]; it raises before any
    database call when one of the first three raises. *)
Lemma ingest_and_audit_eq today raw_log w adapter :
  adapters !! detect_vendor raw_log = Some adapter ->
  let w0 := after w (probation_list (db w)) (financial_ledger (db w))
              [EvParse raw_log] in
  ingest_and_audit today raw_log w
  = match parse adapter raw_log with
    | Raise e => (Raise e, w0)
    | Ok data =>
        match needed_license (raw_throughput data) with
        | Raise e => (Raise e, w0)
        | Ok needed =>
            let node := node_of (detect_vendor raw_log) data needed in
            match _judge_concurrently node with
            | Raise e => (Raise e, w0)
            | Ok verdict => _process_verdict today node verdict adapter w0
            end
        end
    end.
Proof.
  intros Ha w0. unfold ingest_and_audit. rewrite Ha.
  destruct w as [[pl fl] tr]. unfold bind, emit, lift. cbn [db trace].
  destruct (parse adapter raw_log) as [data|e]; [|reflexivity].
  destruct (needed_license (raw_throughput data)) as [needed|e]; [|reflexivity].
  cbn zeta. unfold node_of.
  destruct (_judge_concurrently _) as [verdict|e]; reflexivity.
Qed.

Lemma ingest_and_audit_run today raw_log w adapter :
  adapters !! detect_vendor raw_log = Some adapter ->
  let w0 := after w (probation_list (db w)) (financial_ledger (db w))
              [EvParse raw_log] in
  (exists e, ingest_and_audit today raw_log w = (Raise e, w0)) \/
  (exists data needed verdict,
     parse adapter raw_log = Ok data /\
     needed_license (raw_throughput data) = Ok needed /\
     _judge_concurrently (node_of (detect_vendor raw_log) data needed) = Ok verdict /\
     ingest_and_audit today raw_log w
     = _process_verdict today (node_of (detect_vendor raw_log) data needed)
         verdict adapter w0).
Proof.
  intros Ha w0. rewrite (ingest_and_audit_eq _ _ _ _ Ha). fold w0.
  destruct (parse adapter raw_log) as [data|e] eqn:Hp;
    [|left; eexists; reflexivity].
  destruct (needed_license (raw_throughput data)) as [needed|e] eqn:Hn;
    [|left; eexists; reflexivity].
  cbn zeta.
  destruct (_judge_concurrently _) as [verdict|e] eqn:Hv;
    [|left; eexists; reflexivity].
  right. exists data, needed, verdict. auto.
Qed.

(** An audit, too, keeps the start date and the strikes of every record
    that survives it. *)
Lemma ingest_and_audit_step today raw_log w key row row' :
  probation_list (db w) !! key = Some row ->
  probation_list (db (ingest_and_audit today raw_log w).2) !! key = Some row' ->
  start_date row' = start_date row /\ strike_count row <= strike_count row'.
Proof.
  intros Hrow Hrow'.
  destruct (adapters !! detect_vendor raw_log) as [adapter|] eqn:Ha.
  - destruct (ingest_and_audit_run today raw_log w adapter Ha)
      as [(e & Hrun)|(data & needed & verdict & _ & _ & _ & Hrun)];
      rewrite Hrun in Hrow'.
    + cbn in Hrow'. rewrite Hrow in Hrow'. injection Hrow' as <-. lia.
    + destruct (_process_verdict _ _ _ _ _) as [r w'] eqn:Hp.
      apply process_verdict_step in Hp as [_ Hstep].
      apply (Hstep key); [exact Hrow|exact Hrow'].
  - rewrite (ingest_without_adapter _ _ _ Ha) in Hrow'. cbn in Hrow'.
    rewrite Hrow in Hrow'. injection Hrow' as <-. lia.
Qed.

(** C7: along any sequence of audits, guilty ones included, a probation
    record that is there after every audit keeps the start date it was
    created with, and its strike count never goes down. *)
Theorem probation_record_monotone audits : forall w k row,
  probation_list (db w) !! k = Some row ->
  Forall (fun w' => is_Some (probation_list (db w') !! k)) (run_audits audits w) ->
  Forall (fun w' => exists row',
            probation_list (db w') !! k = Some row' /\
            start_date row' = start_date row /\
            strike_count row <= strike_count row')
    (run_audits audits w).
Proof.
  induction audits as [|[today raw_log] audits IH]; intros w k row Hrow Hall.
  - constructor.
  - cbn [run_audits] in *. apply Forall_cons in Hall as [[row1 Hrow1] Hall].
    destruct (ingest_and_audit_step today raw_log w k row row1 Hrow Hrow1)
      as [Hstart Hstrikes].
    apply Forall_cons. split.
    + exists row1. repeat split; assumption.
    + eapply Forall_impl; [apply (IH _ k row1 Hrow1 Hall)|].
      intros w' (row' & Hrow' & Hs' & Hc'). exists row'.
      repeat split; [assumption|congruence|lia].
Qed.

Lemma probation_record_monotone_witness :
  Forall (fun w' => exists row',
            probation_list (db w') !! "UNKNOWN" = Some row' /\
            start_date row' = 100 /\ 1 <= strike_count row')
    (run_audits [(101, catastrophic_log); (102, catastrophic_log)]
       (probation_world 100 1)).
Proof.
  apply (probation_record_monotone
           [(101, catastrophic_log); (102, catastrophic_log)]
           (probation_world 100 1) "UNKNOWN"
           {| offense_summary := "LICENSE,BW,ZOMBIE"; start_date := 100;
              last_seen := 100; strike_count := 1 |}).
  - vm_compute. reflexivity.
  - cbn [run_audits].
    repeat (apply Forall_cons; split); [| |apply Forall_nil];
      eexists; vm_compute; reflexivity.
Defined.

(** C8: when no adapter is registered for the detected vendor, that is
    when the text lacks the Huawei signature, the audit returns the
    unrecognized-input result and leaves the world as it was: the trace
    gets no parser call and no database call, and both tables are
    untouched. *)
Theorem unknown_vendor_stops_the_pipeline today raw_log w :
  adapters !! detect_vendor raw_log = None ->
  PyStr.contains "Current License Capacity" raw_log = false /\
  (ingest_and_audit today raw_log w).1 = Ok UnknownVendor /\
  trace (ingest_and_audit today raw_log w).2 = trace w /\
  db (ingest_and_audit today raw_log w).2 = db w.
Proof.
  intros Ha. split.
  - apply no_adapter_iff_no_signature. exact Ha.
  - rewrite (ingest_without_adapter today raw_log w Ha). repeat split.
Qed.

Lemma unknown_vendor_stops_the_pipeline_witness :
  adapters !! detect_vendor "show interfaces GigabitEthernet0/1" = None /\
  (ingest_and_audit 100 "show interfaces GigabitEthernet0/1"
     (probation_world 90 2)).1 = Ok UnknownVendor /\
  db (ingest_and_audit 100 "show interfaces GigabitEthernet0/1"
        (probation_world 90 2)).2 = db (probation_world 90 2).
Proof.
  assert (Ha : adapters !! detect_vendor "show interfaces GigabitEthernet0/1" = None)
    by (vm_compute; reflexivity).
  split; [exact Ha|].
  destruct (unknown_vendor_stops_the_pipeline 100 _ (probation_world 90 2) Ha)
    as (_ & Hr & _ & Hdb).
  split; [exact Hr|exact Hdb].
Defined.

(** ** Audits of links without a banner *)

Lemma parse_without_banner raw_log data :
  re.search HuaweiAdapter.ID_RE raw_log = None ->
  HuaweiAdapter.parse raw_log = Ok data ->
  raw_id data = IdStr "UNKNOWN".
Proof.
  intros Hid. unfold HuaweiAdapter.parse.
  destruct (HuaweiAdapter.parse_status raw_log); [|discriminate].
  intros [= <-]. cbn [raw_id]. unfold safe_extract. rewrite Hid. reflexivity.
Qed.

(** Two different links without banner: the first audit indicts
    "UNKNOWN", the audit of the other link finds that record and adds a
    strike to it. *)
Lemma unidentified_links_collide :
  let w1 := (ingest_and_audit 100 anonymous_log empty_world).2 in
  let '(r2, w2) := ingest_and_audit 101 other_anonymous_log w1 in
  map_to_list (probation_list (db w1))
  = [("UNKNOWN", {| offense_summary := "LICENSE,BW,ZOMBIE"; start_date := 100;
                    last_seen := 100; strike_count := 1 |})] /\
  r2 = Ok (Surveillance (IdStr "UNKNOWN") 1 "LICENSE") /\
  map_to_list (probation_list (db w2))
  = [("UNKNOWN", {| offense_summary := "LICENSE,BW,ZOMBIE"; start_date := 100;
                    last_seen := 101; strike_count := 2 |})].
Proof. vm_compute. repeat split. Qed.

(** The name after the banner never becomes the id: [safe_extract]
    converts it with [int(...)], which fails on a name and leaves the
    default. The link of the simulation is audited as "UNKNOWN". *)
Lemma banner_name_is_discarded :
  re.search HuaweiAdapter.ID_RE catastrophic_log = Some (Some "DJELFA_GHOST_LINK") /\
  HuaweiAdapter.parse catastrophic_log
  = Ok {| raw_id := IdStr "UNKNOWN"; raw_license_reserved := 400;
          raw_throughput := 0.5%float; raw_bandwidth := 56; raw_status := "UP" |}.
Proof. split; vm_compute; reflexivity. Qed.

(** ** The snapshot parser *)

Lemma safe_extract_default {A} pattern (return_type : string -> result A)
    text default :
  extraction_fails pattern return_type text ->
  safe_extract pattern text default return_type = default.
Proof.
  unfold extraction_fails, safe_extract.
  destruct (re.search pattern text) as [[g|]|]; try reflexivity.
  intros [e ->]. reflexivity.
Qed.

(** The status field is not extracted with [safe_extract]: when the
    marker is there without a value, [.group(1)] is called on [None]. *)
Lemma parse_raises_on_status_without_value :
  HuaweiAdapter.parse "Port Admin Status = UP" = Raise AttributeError.
Proof. vm_compute. reflexivity. Qed.

(** C2, as stated, fails: on the empty text nothing can be extracted and
    the admin status comes out as "DOWN", not "UNKNOWN". *)
Lemma parse_defaults_to_unknown_fails : ~ parse_defaults_to_unknown.
Proof.
  intros H. destruct (H "") as (data & Hp & _ & _ & _ & _ & Hs).
  vm_compute in Hp. injection Hp as <-.
  assert (Hfail : status_extraction_fails "")
    by (intros g; vm_compute; discriminate).
  specialize (Hs Hfail). discriminate Hs.
Qed.

(** C2 (amended): for every text, the record the parser returns is
    complete and every field whose extraction fails has its default: 0 for
    the numeric fields, "UNKNOWN" for the id, and "DOWN", not "UNKNOWN", for
    the admin status, whose default case is a text without the marker. The
    four fields read through [safe_extract] never raise: an exception of the
    parser is one of the status expression. And missing data does not make
    the evaluator fail: an unreadable throughput gives the needed license
    0, and the evaluator returns a verdict on every parsed record whose
    figures are below 2^53 in size, an Innocent one when nothing could be
    read. *)
Theorem parse_returns_defaults text :
  (forall e, HuaweiAdapter.parse text = Raise e ->
     HuaweiAdapter.parse_status text = Raise e) /\
  (re.search HuaweiAdapter.STATUS_MARK_RE text = None ->
     exists data, HuaweiAdapter.parse text = Ok data /\ raw_status data = "DOWN") /\
  (forall data, HuaweiAdapter.parse text = Ok data ->
     (extraction_fails HuaweiAdapter.ID_RE HuaweiAdapter.as_str text ->
      raw_id data = IdStr "UNKNOWN") /\
     (extraction_fails HuaweiAdapter.LICENSE_RE HuaweiAdapter.as_int text ->
      raw_license_reserved data = 0) /\
     (extraction_fails HuaweiAdapter.THROUGHPUT_RE HuaweiAdapter.as_float text ->
      raw_throughput data = 0%float /\
      needed_license (raw_throughput data) = Ok 0) /\
     (extraction_fails HuaweiAdapter.BANDWIDTH_RE HuaweiAdapter.as_int text ->
      raw_bandwidth data = 0) /\
     (re.search HuaweiAdapter.STATUS_MARK_RE text = None ->
      raw_status data = "DOWN") /\
     (forall needed,
        needed_license (raw_throughput data) = Ok needed ->
        - 2 ^ 53 < 3 * needed < 2 ^ 53 ->
        - 2 ^ 53 < raw_license_reserved data - needed < 2 ^ 53 ->
        exists v, _judge_concurrently (node_of "Huawei" data needed) = Ok v) /\
     (extraction_fails HuaweiAdapter.LICENSE_RE HuaweiAdapter.as_int text ->
      extraction_fails HuaweiAdapter.THROUGHPUT_RE HuaweiAdapter.as_float text ->
      extraction_fails HuaweiAdapter.BANDWIDTH_RE HuaweiAdapter.as_int text ->
      re.search HuaweiAdapter.STATUS_MARK_RE text = None ->
      exists v, _judge_concurrently (node_of "Huawei" data 0) = Ok v /\
        status v = "Innocent" /\ offenses v = [])).
Proof.
  assert (Hdown : forall st, HuaweiAdapter.parse_status text = Ok st ->
            re.search HuaweiAdapter.STATUS_MARK_RE text = None -> st = "DOWN").
  { unfold HuaweiAdapter.parse_status. intros st Hst Hm. rewrite Hm in Hst.
    congruence. }
  split; [|split].
  - intros e. unfold HuaweiAdapter.parse.
    destruct (HuaweiAdapter.parse_status text); cbn [rbind]; congruence.
  - intros Hm. unfold HuaweiAdapter.parse, HuaweiAdapter.parse_status.
    rewrite Hm. cbn [rbind]. eexists. split; reflexivity.
  - intros data. unfold HuaweiAdapter.parse.
    destruct (HuaweiAdapter.parse_status text) as [st|e] eqn:Hst; [|discriminate].
    intros [= <-].
    cbn [raw_id raw_license_reserved raw_throughput raw_bandwidth raw_status].
    split; [apply safe_extract_default|].
    split; [apply safe_extract_default|].
    split; [intros Ht; rewrite (safe_extract_default _ _ _ _ Ht);
            split; reflexivity|].
    split; [apply safe_extract_default|].
    split; [apply (Hdown st eq_refl)|].
    split.
    + intros needed _ Ha Hw. apply judge_total; cbn [node_of license_actual
        license_reserved raw_license_reserved]; assumption.
    + intros Hl Ht Hb Hm. unfold node_of.
      cbn [raw_id raw_license_reserved raw_throughput raw_bandwidth raw_status].
      rewrite (safe_extract_default _ _ _ _ Hl), (safe_extract_default _ _ _ _ Ht),
        (safe_extract_default _ _ _ _ Hb), (Hdown st eq_refl Hm).
      destruct (safe_extract HuaweiAdapter.ID_RE text (IdStr "UNKNOWN")
                  HuaweiAdapter.as_str);
        eexists; (split; [vm_compute; reflexivity|split; reflexivity]).
Qed.

Lemma parse_returns_defaults_witness :
  exists data,
    HuaweiAdapter.parse "" = Ok data /\
    raw_id data = IdStr "UNKNOWN" /\ raw_license_reserved data = 0 /\
    raw_throughput data = 0%float /\ raw_bandwidth data = 0 /\
    raw_status data = "DOWN" /\
    exists v, _judge_concurrently (node_of "Huawei" data 0) = Ok v /\
      status v = "Innocent".
Proof.
  assert (Hm : re.search HuaweiAdapter.STATUS_MARK_RE "" = None) by reflexivity.
  destruct (parse_returns_defaults "") as (_ & Hret & Hfields).
  destruct (Hret Hm) as (data & Hp & _).
  destruct (Hfields data Hp) as (Hid & Hl & Ht & Hb & Hs & _ & Hv).
  exists data. split; [exact Hp|].
  split; [apply Hid; exact I|]. split; [apply Hl; exact I|].
  split; [apply Ht; exact I|]. split; [apply Hb; exact I|].
  split; [exact (Hs Hm)|].
  destruct (Hv I I I Hm) as (v & Hj & Hst & _). exists v. split; assumption.
Defined.

(** ** The scenarios of the design document *)

(** B: first audit of the link of scenario A: indicted, one strike. *)
Example scenario_B :
  _process_verdict 100 scenario_A verdict_A HuaweiAdapter.adapter empty_world
  = (Ok (Indicted (IdStr "UNKNOWN") "LICENSE,BW,ZOMBIE"),
     after empty_world
       {[ "UNKNOWN" := {| offense_summary := "LICENSE,BW,ZOMBIE";
                          start_date := 100; last_seen := 100;
                          strike_count := 1 |} ]}
       [] [EvSelect "UNKNOWN"; EvInsert "UNKNOWN"]).
Proof.
  rewrite (process_guilty_first 100 scenario_A verdict_A _ "UNKNOWN" eq_refl);
    [reflexivity|discriminate|reflexivity].
Qed.

(** C: the same link fifteen days later: three commands, three ledger
    rows worth 4000, 560 and 50, and the record is gone. *)
Example scenario_C :
  let '(r, w) := _process_verdict 115 scenario_A verdict_A HuaweiAdapter.adapter
                   (probation_world 100 1) in
  r = Ok (Jackpot (IdStr "UNKNOWN") 4610%float 3
            [Header (IdStr "UNKNOWN") 15;
             Comment "Fix License" 4000%float;
             Command "MOD MWLICENSE: ID=UNKNOWN, CAP=0;";
             Comment "Optimize BW" 560%float;
             Command "MOD MWPORT: ID=UNKNOWN, AM=ENABLE, BW=28MHZ;";
             Comment "Kill Zombie" 50%float;
             Command "MOD MWPORT: ID=UNKNOWN, ADMIN=DOWN;"]) /\
  map (fun row => (action_taken row, recovered_value row)) (financial_ledger (db w))
  = [("RICO_LICENSE", 4000%float); ("RICO_BW", 560%float); ("RICO_ZOMBIE", 50%float)] /\
  map_to_list (probation_list (db w)) = [].
Proof. vm_compute. repeat split. Qed.

(** D: a link under probation whose figures are back in range is
    released. *)
Example scenario_D :
  let '(r, w) := ingest_and_audit 106 cured_log (probation_world 100 1) in
  r = Ok (Cleared (IdStr "UNKNOWN")) /\
  map_to_list (probation_list (db w)) = [].
Proof. vm_compute. repeat split. Qed.

(** * Further properties

    Properties of the code outside the design document's list: the
    parser on malformed logs, the database calls, the innocent branch and
    the end of the remediation, and the simulation of the [__main__]
    block. *)

(** ** What the parser returns *)

Section Groups.

Import re.

Lemma backtrack_result {A} (try : nat -> option A) least k x :
  backtrack k least try = Some x ->
  exists j, (least <= j <= k)%nat /\ try j = Some x.
Proof.
  induction k as [|k IH]; cbn [backtrack].
  - destruct (Nat.ltb_spec 0 least) as [Hlt|Hge]; [discriminate|].
    destruct (try 0%nat) eqn:H0; [|discriminate].
    intros [= <-]. exists 0%nat. split; [lia|exact H0].
  - destruct (Nat.ltb_spec (S k) least) as [Hlt|Hge]; [discriminate|].
    destruct (try (S k)) eqn:HS.
    + intros [= <-]. exists (S k). split; [lia|exact HS].
    + intros H. destruct (IH H) as (j & Hj & Hx).
      exists j. split; [lia|exact Hx].
Qed.

(** A match of a pattern with a group has a group 1. *)
Lemma match_here_has_group r : forall s m,
  has_group r = true -> match_here r s = Some m -> m <> None.
Proof.
  induction r as [|[c|cls least group] r IH]; intros s m Hg; cbn [match_here].
  - discriminate.
  - destruct s as [|c' s]; [discriminate|].
    destruct (Ascii.eqb c c'); [|discriminate]. apply IH. exact Hg.
  - intros H. apply backtrack_result in H as (j & _ & H).
    destruct (match_here r (drop j s)) as [g|] eqn:Hm; [|discriminate].
    injection H as <-. destruct group; [discriminate|].
    apply (IH _ _ Hg Hm).
Qed.

(** Group 1 is a run of the class of the group, of at least the length
    the group asks for. *)
Lemma match_here_group cls least r : forall s g,
  groups_of cls least r -> match_here r s = Some (Some g) ->
  Forall (fun c => cls c = true) g /\ (least <= length g)%nat.
Proof.
  induction r as [|[c|cls' least' group] r IH]; intros s g Hr; cbn [match_here].
  - discriminate.
  - destruct s as [|c' s]; [discriminate|].
    destruct (Ascii.eqb c c'); [|discriminate].
    apply IH. apply Forall_cons in Hr as [_ Hr]. exact Hr.
  - intros H. apply backtrack_result in H as (j & Hj & H).
    apply Forall_cons in Hr as [Hit Hr].
    destruct (match_here r (drop j s)) as [g'|] eqn:Hm; [|discriminate].
    injection H as H. destruct group.
    + injection H as <-. destruct Hit as [Hcls Hleast]. split.
      * eapply Forall_impl; [apply (span_take cls' s j); lia|].
        intros x Hx. cbn in Hx. rewrite <- Hcls. exact Hx.
      * rewrite length_take. pose proof (span_length cls' s). lia.
    + subst g'. apply (IH _ _ Hr Hm).
Qed.

Lemma search_from_result r : forall s m,
  search_from r s = Some m -> exists s', match_here r s' = Some m.
Proof.
  induction s as [|c s IH]; intros m; cbn [search_from].
  - destruct (match_here r []) eqn:Hm; [|discriminate].
    intros [= <-]. eauto.
  - destruct (match_here r (c :: s)) eqn:Hm.
    + intros [= <-]. eauto.
    + apply IH.
Qed.

Lemma search_has_group pattern text m :
  has_group pattern = true -> search pattern text = Some m ->
  exists group1, m = Some group1.
Proof.
  unfold search. intros Hg H.
  destruct (search_from pattern (list_ascii_of_string text)) as [m'|] eqn:Hs;
    [|discriminate].
  injection H as <-.
  apply search_from_result in Hs as [s' Hs].
  apply (match_here_has_group _ _ _ Hg) in Hs.
  destruct m' as [g|]; [|congruence]. eexists. reflexivity.
Qed.

Lemma search_group pattern cls least text group1 :
  groups_of cls least pattern -> search pattern text = Some (Some group1) ->
  Forall (fun c => cls c = true) (list_ascii_of_string group1)
  /\ (least <= length (list_ascii_of_string group1))%nat.
Proof.
  unfold search. intros Hr H.
  destruct (search_from pattern (list_ascii_of_string text)) as [[g|]|] eqn:Hs;
    try discriminate.
  injection H as <-. rewrite list_ascii_of_string_of_list_ascii.
  apply search_from_result in Hs as [s' Hs].
  apply (match_here_group _ _ _ _ _ Hr Hs).
Qed.

Lemma search_some pattern text :
  search pattern text <> None <-> occurs pattern (list_ascii_of_string text).
Proof.
  unfold search. rewrite <- search_from_some.
  destruct (search_from pattern (list_ascii_of_string text)); cbn [option_map];
    split; congruence.
Qed.

End Groups.

Lemma parse_status_raises text e :
  HuaweiAdapter.parse_status text = Raise e <->
  e = AttributeError /\
  occurs HuaweiAdapter.STATUS_MARK_RE (list_ascii_of_string text) /\
  ~ occurs HuaweiAdapter.STATUS_RE (list_ascii_of_string text).
Proof.
  unfold HuaweiAdapter.parse_status.
  rewrite <- search_some, <- search_none.
  destruct (re.search HuaweiAdapter.STATUS_MARK_RE text) as [m|].
  - destruct (re.search HuaweiAdapter.STATUS_RE text) as [m'|] eqn:Hs.
    + destruct (search_has_group HuaweiAdapter.STATUS_RE _ _ eq_refl Hs) as [g ->].
      split; [discriminate|]. intros (_ & _ & [=]).
    + split; [intros [= <-]|intros (-> & _ & _)]; [|reflexivity].
      split; [reflexivity|]. split; [discriminate|reflexivity].
  - split; [discriminate|]. intros (_ & H & _). congruence.
Qed.

(** X1: [parse] raises on exactly one kind of text, and only
    AttributeError: the words "Port Admin Status" occur in it, but nowhere
    followed by optional blanks, a colon, optional blanks and a capital
    letter. *)
Theorem parse_raises_iff_status_has_no_value text :
  (forall e, HuaweiAdapter.parse text = Raise e -> e = AttributeError) /\
  (HuaweiAdapter.parse text = Raise AttributeError <->
   occurs HuaweiAdapter.STATUS_MARK_RE (list_ascii_of_string text) /\
   ~ occurs HuaweiAdapter.STATUS_RE (list_ascii_of_string text)).
Proof.
  assert (Hp : forall e, HuaweiAdapter.parse text = Raise e
                         <-> HuaweiAdapter.parse_status text = Raise e).
  { intros e. unfold HuaweiAdapter.parse.
    destruct (HuaweiAdapter.parse_status text); cbn [rbind];
      split; congruence. }
  split.
  - intros e He. apply Hp, parse_status_raises in He as [-> _]. reflexivity.
  - rewrite Hp, parse_status_raises. tauto.
Qed.

Lemma digit_value_range c : re.is_digit c = true -> 0 <= PyStr.digit_value c <= 9.
Proof.
  unfold re.is_digit, re.in_range, PyStr.digit_value.
  change (nat_of_ascii "0") with 48%nat. change (nat_of_ascii "9") with 57%nat.
  intros H. apply andb_true_iff in H as [H1 H2].
  apply Nat.leb_le in H1, H2. lia.
Qed.

Lemma count_cons cls c s :
  PyStr.count cls (c :: s)
  = ((if cls c then 1 else 0) + PyStr.count cls s)%nat.
Proof.
  unfold PyStr.count. rewrite filter_cons.
  destruct (cls c) eqn:Hc; case_decide; try congruence; reflexivity.
Qed.

(** The value of a run of digits is below the power of ten of their
    number. *)
Lemma digits_value_bound s : forall acc,
  0 <= acc ->
  let v := fold_left (fun acc c =>
                        if re.is_digit c then acc * 10 + PyStr.digit_value c
                        else acc) s acc in
  0 <= v < (acc + 1) * 10 ^ Z.of_nat (PyStr.count re.is_digit s).
Proof.
  induction s as [|c s IH]; intros acc Hacc; cbn [fold_left].
  - cbn. lia.
  - rewrite count_cons. destruct (re.is_digit c) eqn:Hc.
    + pose proof (digit_value_range c Hc) as Hd.
      specialize (IH (acc * 10 + PyStr.digit_value c) ltac:(lia)).
      cbn zeta in IH. split; [lia|].
      replace (Z.of_nat (1 + PyStr.count re.is_digit s))
        with (1 + Z.of_nat (PyStr.count re.is_digit s)) by lia.
      rewrite Z.pow_add_r, Z.pow_1_r by lia.
      assert (0 < 10 ^ Z.of_nat (PyStr.count re.is_digit s))
        by (apply Z.pow_pos_nonneg; lia).
      nia.
    + apply IH. exact Hacc.
Qed.

Lemma int_of_str_range s n :
  PyStr.int_of_str s = Ok n -> 0 <= n < 10 ^ Z.of_nat PyStr.int_max_str_digits.
Proof.
  unfold PyStr.int_of_str.
  destruct (PyStr.well_grouped false _ && _) eqn:Hok; [|discriminate].
  intros [= <-]. apply andb_true_iff in Hok as [_ Hcount].
  apply Nat.leb_le in Hcount.
  pose proof (digits_value_bound (list_ascii_of_string s) 0 ltac:(lia)) as Hb.
  cbn zeta in Hb. unfold PyStr.digits_value. split; [lia|].
  eapply Z.lt_le_trans; [apply Hb|]. rewrite Z.mul_1_l.
  apply Z.pow_le_mono_r; lia.
Qed.

Lemma safe_extract_int_range pattern text :
  0 <= safe_extract pattern text 0 HuaweiAdapter.as_int
    < 10 ^ Z.of_nat PyStr.int_max_str_digits.
Proof.
  assert (H0 : 0 <= 0 < 10 ^ Z.of_nat PyStr.int_max_str_digits)
    by (split; [lia|apply Z.pow_pos_nonneg; lia]).
  unfold safe_extract, HuaweiAdapter.as_int.
  destruct (re.search pattern text) as [[g|]|]; try exact H0.
  destruct (PyStr.int_of_str g) as [n|e] eqn:Hn; [|exact H0].
  apply (int_of_str_range _ _ Hn).
Qed.

Lemma well_grouped_chars s : forall prev,
  PyStr.well_grouped prev s = true ->
  Forall (fun c => re.is_digit c = true \/ c = "_"%char) s.
Proof.
  induction s as [|c s IH]; intros prev; cbn [PyStr.well_grouped].
  - constructor.
  - destruct (re.is_digit c) eqn:Hd.
    + intros H. constructor; [left; exact Hd|]. apply (IH _ H).
    + destruct (Ascii.eqb_spec c "_") as [->|Hne]; [|discriminate].
      intros H. apply andb_true_iff in H as [_ H].
      constructor; [right; reflexivity|]. apply (IH _ H).
Qed.

Lemma upper_is_no_digit c :
  re.is_upper c = true -> re.is_digit c = false /\ c <> "_"%char.
Proof.
  unfold re.is_upper, re.is_digit, re.in_range.
  change (nat_of_ascii "A") with 65%nat. change (nat_of_ascii "Z") with 90%nat.
  change (nat_of_ascii "0") with 48%nat. change (nat_of_ascii "9") with 57%nat.
  intros H. apply andb_true_iff in H as [H1 H2]. apply Nat.leb_le in H1, H2.
  split.
  - apply andb_false_iff. right. apply Nat.leb_gt. lia.
  - intros ->. vm_compute in H2. lia.
Qed.

Lemma parsed_id_shape text data :
  HuaweiAdapter.parse text = Ok data ->
  raw_id data = IdStr "UNKNOWN" \/ exists n, 0 <= n /\ raw_id data = IdInt n.
Proof.
  unfold HuaweiAdapter.parse.
  destruct (HuaweiAdapter.parse_status text); [|discriminate].
  intros [= <-]. cbn [raw_id]. unfold safe_extract, HuaweiAdapter.as_str.
  destruct (re.search HuaweiAdapter.ID_RE text) as [[g|]|]; auto.
  destruct (PyStr.int_of_str g) as [n|e] eqn:Hn; cbn [rbind]; auto.
  right. exists n. split; [apply (int_of_str_range _ _ Hn)|reflexivity].
Qed.

(** X2: the id of a parsed record is never a name. It is the default
    "UNKNOWN" or a natural number, and it is "UNKNOWN" whenever the name
    found after the banner has a capital letter in it: [safe_extract]
    converts group 1 with [int(...)] for every [return_type] but float. *)
Theorem parsed_id_is_never_a_name text data :
  HuaweiAdapter.parse text = Ok data ->
  (raw_id data = IdStr "UNKNOWN" \/ exists n, 0 <= n /\ raw_id data = IdInt n) /\
  (forall name c,
     re.search HuaweiAdapter.ID_RE text = Some (Some name) ->
     In c (list_ascii_of_string name) -> re.is_upper c = true ->
     raw_id data = IdStr "UNKNOWN").
Proof.
  intros Hparse. split; [apply (parsed_id_shape _ _ Hparse)|].
  revert Hparse. unfold HuaweiAdapter.parse.
  destruct (HuaweiAdapter.parse_status text); [|discriminate].
  intros [= <-]. cbn [raw_id]. unfold safe_extract, HuaweiAdapter.as_str.
  - intros name c -> Hin Hup.
    destruct (PyStr.int_of_str name) as [n|e] eqn:Hn; cbn [rbind]; [|reflexivity].
    exfalso. unfold PyStr.int_of_str in Hn.
    destruct (PyStr.well_grouped false _) eqn:Hw; [|discriminate].
    apply well_grouped_chars in Hw. rewrite Forall_forall in Hw.
    apply list_elem_of_In in Hin.
    destruct (upper_is_no_digit c Hup) as [Hd Hu].
    destruct (Hw c Hin); congruence.
Qed.

Lemma parsed_id_is_never_a_name_witness :
  exists data,
    HuaweiAdapter.parse catastrophic_log = Ok data /\
    re.search HuaweiAdapter.ID_RE catastrophic_log
    = Some (Some "DJELFA_GHOST_LINK") /\
    raw_id data = IdStr "UNKNOWN".
Proof.
  destruct banner_name_is_discarded as [Hname Hparse].
  eexists. split; [exact Hparse|]. split; [exact Hname|].
  apply (proj2 (parsed_id_is_never_a_name catastrophic_log _ Hparse)
           "DJELFA_GHOST_LINK" "D"%char Hname).
  - cbn. auto.
  - reflexivity.
Defined.

Lemma status_groups : groups_of re.is_upper 1 HuaweiAdapter.STATUS_RE.
Proof.
  unfold groups_of, HuaweiAdapter.STATUS_RE, re.lit.
  apply Forall_app. split.
  - apply Forall_forall. intros it Hit.
    apply list_elem_of_fmap in Hit as (c & -> & _). exact I.
  - repeat constructor.
Qed.

(** X3: the fields of a parsed record are well formed whatever the text:
    the reserved license and the bandwidth are natural numbers below
    10^4300 (a longer figure is read as 0), and the admin status is a
    non-empty word of capital letters. *)
Theorem parsed_fields_are_well_formed text data :
  HuaweiAdapter.parse text = Ok data ->
  0 <= raw_license_reserved data < 10 ^ Z.of_nat PyStr.int_max_str_digits /\
  0 <= raw_bandwidth data < 10 ^ Z.of_nat PyStr.int_max_str_digits /\
  raw_status data <> "" /\
  forallb re.is_upper (list_ascii_of_string (raw_status data)) = true.
Proof.
  unfold HuaweiAdapter.parse.
  destruct (HuaweiAdapter.parse_status text) as [st|e] eqn:Hst; [|discriminate].
  intros [= <-].
  cbn [raw_license_reserved raw_bandwidth raw_status].
  split; [apply safe_extract_int_range|].
  split; [apply safe_extract_int_range|].
  unfold HuaweiAdapter.parse_status in Hst.
  destruct (re.search HuaweiAdapter.STATUS_MARK_RE text).
  - destruct (re.search HuaweiAdapter.STATUS_RE text) as [[g|]|] eqn:Hs;
      try discriminate.
    injection Hst as ->.
    destruct (search_group _ _ _ _ _ status_groups Hs) as [Hall Hlen].
    split.
    + intros ->. cbn in Hlen. lia.
    + apply forallb_forall. intros c Hc. rewrite Forall_forall in Hall.
      apply Hall. apply list_elem_of_In. exact Hc.
  - injection Hst as <-. split; [discriminate|reflexivity].
Qed.

Lemma parsed_fields_are_well_formed_witness :
  exists data,
    HuaweiAdapter.parse catastrophic_log = Ok data /\
    0 <= raw_license_reserved data /\ 0 <= raw_bandwidth data /\
    raw_status data <> "".
Proof.
  destruct banner_name_is_discarded as [_ Hparse].
  eexists. split; [exact Hparse|].
  destruct (parsed_fields_are_well_formed catastrophic_log _ Hparse)
    as ([Hl _] & [Hb _] & Hs & _).
  exact (conj Hl (conj Hb Hs)).
Defined.

(** ** Fail-soft defaults as evidence *)

Lemma hoarding_without_traffic node :
  license_actual node = 0 ->
  license_hoarding node = Ok (50 <? license_reserved node).
Proof.
  intros Ha. unfold license_hoarding. rewrite Ha.
  change (int_mul_float 0 1.5%float) with (Ok 0%float). cbn [rbind].
  unfold int_gt_float, compare_int_float.
  change (Prim2SF 0%float) with (S754_zero false). f_equal.
  destruct (Z.ltb_spec 50 (license_reserved node)) as [H|H].
  - rewrite andb_true_r.
    destruct (Z.compare_spec (license_reserved node) 0); [lia|lia|reflexivity].
  - apply andb_false_r.
Qed.

(** ** Vendor detection *)

Lemma prefix_app needle hay :
  String.prefix needle hay = true <-> exists rest, hay = needle +:+ rest.
Proof.
  revert hay. induction needle as [|c needle IH]; intros hay.
  - split; [intros _; exists hay; reflexivity|]. intros _.
    destruct hay; reflexivity.
  - destruct hay as [|c' hay]; cbn.
    + split; [discriminate|]. intros [rest [=]].
    + destruct (ascii_dec c c') as [<-|Hne].
      * rewrite IH. split; intros [rest H]; exists rest.
        -- rewrite H. reflexivity.
        -- injection H as H. exact H.
      * split; [discriminate|]. intros [rest H]. injection H as H _. congruence.
Qed.

Lemma contains_app needle hay :
  PyStr.contains needle hay = true
  <-> exists before rest, hay = before +:+ needle +:+ rest.
Proof.
  induction hay as [|c hay IH]; cbn [PyStr.contains];
    rewrite orb_true_iff, prefix_app.
  - split.
    + intros [[rest H]|[=]]. exists "", rest. exact H.
    + intros (before & rest & H). left. destruct before as [|c before].
      * exists rest. exact H.
      * discriminate.
  - rewrite IH. split.
    + intros [[rest H]|(before & rest & H)].
      * exists "", rest. exact H.
      * exists (String c before), rest. rewrite H. reflexivity.
    + intros (before & rest & H). destruct before as [|c' before].
      * left. exists rest. exact H.
      * right. injection H as _ H. exists before, rest. exact H.
Qed.

(** X5: [detect_vendor] answers "Huawei" exactly when the words "Current
    License Capacity" occur somewhere in the text, letter for letter, and
    "Unknown" otherwise; only then is an adapter found. *)
Theorem detect_vendor_iff_signature raw_text :
  (detect_vendor raw_text = "Huawei" <->
   exists before rest,
     raw_text = before +:+ "Current License Capacity" +:+ rest) /\
  (detect_vendor raw_text <> "Huawei" -> detect_vendor raw_text = "Unknown") /\
  (adapters !! detect_vendor raw_text = Some HuaweiAdapter.adapter <->
   detect_vendor raw_text = "Huawei").
Proof.
  rewrite <- contains_app. unfold detect_vendor.
  destruct (PyStr.contains _ raw_text).
  - split; [split; reflexivity|]. split; [congruence|].
    split; reflexivity.
  - split; [split; discriminate|]. split; [reflexivity|].
    split; discriminate.
Qed.

(** ** The evaluator *)

Lemma valid_mantissa_bound s m e :
  SpecFloat.valid_binary prec emax (S754_finite s m e) = true ->
  Z.pos m < 2 ^ 53.
Proof.
  unfold SpecFloat.valid_binary, bounded, canonical_mantissa, fexp,
    SpecFloat.emin, prec, emax.
  rewrite digits2_pos_log2. intros H.
  apply andb_true_iff in H as [H _]. apply Z.eqb_eq in H.
  apply Z.log2_lt_pow2; lia.
Qed.

(** [x < 1.0] implies [x < 50]. *)
Lemma below_1_below_50 x :
  (x <? 1.0)%float = true -> float_lt_int x 50 = true.
Proof.
  rewrite ltb_spec. unfold SFltb, float_lt_int, compare_int_float.
  pose proof (Prim2SF_valid x) as Hv.
  change (Prim2SF 1.0) with (S754_finite false 4503599627370496 (-52)).
  destruct (Prim2SF x) as [s|[]| |[] m e]; cbn [SFcompare];
    try discriminate; try reflexivity.
  - intros _. destruct (Z.leb_spec 0 e).
    + assert (0 < 2 ^ e) by (apply Z.pow_pos_nonneg; lia).
      destruct (Z.compare_spec 50 (Z.neg m * 2 ^ e)); [nia|nia|reflexivity].
    + assert (0 < 2 ^ (- e)) by (apply Z.pow_pos_nonneg; lia).
      destruct (Z.compare_spec (50 * 2 ^ (- e)) (Z.neg m)); [lia|lia|reflexivity].
  - apply valid_mantissa_bound in Hv.
    destruct (Z.compare_spec e (-52)) as [He|He|He]; [| |discriminate];
      intros _;
      (destruct (Z.leb_spec 0 e); [lia|]);
      assert (2 ^ 52 <= 2 ^ (- e)) by (apply Z.pow_le_mono_r; lia);
      (destruct (Z.compare_spec (50 * 2 ^ (- e)) (Z.pos m));
         [lia|lia|reflexivity]).
Qed.

Lemma judged_codes node v :
  _judge_concurrently node = Ok v ->
  exists c1,
    license_hoarding node = Ok c1 /\
    map code (offenses v)
    = (if c1 then ["LICENSE"] else [])
      ++ (if spectrum_waste node then ["BW"] else [])
      ++ (if zombie_port node then ["ZOMBIE"] else []).
Proof.
  intros Hv.
  destruct (judge_cases node v Hv) as (c1 & l1 & Hc1 & Hl1 & Hoff & _).
  exists c1. split; [exact Hc1|]. rewrite Hoff, !map_app.
  destruct c1; [destruct Hl1 as (val & _ & ->)|subst l1];
    destruct (spectrum_waste node), (zombie_port node); reflexivity.
Qed.

(** X4: a throughput that cannot be read counts as no traffic at all.
    The field is 0.0 and the needed license 0. With a reserved license
    below 2^53 the evaluator then returns a verdict that lists LICENSE
    exactly when more than 50 Mbps are reserved, BW exactly when the
    bandwidth is 56, and ZOMBIE exactly when the status is UP. With more
    than 50 Mbps reserved and a figure too long for a float, the evaluator
    raises the OverflowError of the conversion instead. *)
Theorem unreadable_throughput_is_no_traffic text data :
  extraction_fails HuaweiAdapter.THROUGHPUT_RE HuaweiAdapter.as_float text ->
  HuaweiAdapter.parse text = Ok data ->
  raw_throughput data = 0%float /\
  needed_license (raw_throughput data) = Ok 0 /\
  let node := node_of "Huawei" data 0 in
  (raw_license_reserved data < 2 ^ 53 ->
   exists v,
     _judge_concurrently node = Ok v /\
     map code (offenses v)
     = (if 50 <? raw_license_reserved data then ["LICENSE"] else [])
       ++ (if raw_bandwidth data =? 56 then ["BW"] else [])
       ++ (if String.eqb (raw_status data) "UP" then ["ZOMBIE"] else [])) /\
  (forall e,
     50 < raw_license_reserved data ->
     float_of_int (raw_license_reserved data) = Raise e ->
     _judge_concurrently node = Raise e).
Proof.
  intros Hfail Hparse.
  assert (Hfields : raw_throughput data = 0%float
                    /\ 0 <= raw_license_reserved data).
  { unfold HuaweiAdapter.parse in Hparse.
    destruct (HuaweiAdapter.parse_status text); [|discriminate].
    injection Hparse as <-. cbn [raw_throughput raw_license_reserved].
    split; [apply safe_extract_default; exact Hfail|].
    apply safe_extract_int_range. }
  destruct Hfields as [Ht Hpos].
  split; [exact Ht|]. rewrite Ht.
  split; [reflexivity|]. cbn zeta.
  set (node := node_of "Huawei" data 0).
  assert (Hh : license_hoarding node = Ok (50 <? raw_license_reserved data))
    by (apply hoarding_without_traffic; reflexivity).
  assert (Hbw : spectrum_waste node = (raw_bandwidth data =? 56)).
  { unfold spectrum_waste, node, node_of. cbn [bandwidth throughput].
    rewrite Ht. change (float_lt_int 0%float 50) with true.
    apply andb_true_r. }
  assert (Hz : zombie_port node = String.eqb (raw_status data) "UP").
  { unfold zombie_port, node, node_of. cbn [admin_status throughput].
    rewrite Ht. change (0 <? 1.0)%float with true. apply andb_true_r. }
  split.
  - intros Hsmall.
    destruct (judge_total node) as [v Hv].
    + cbn. lia.
    + unfold node, node_of. cbn [license_reserved license_actual]. lia.
    + exists v. split; [exact Hv|].
      destruct (judged_codes node v Hv) as (c1 & Hc1 & ->).
      rewrite Hh in Hc1. injection Hc1 as <-. rewrite Hbw, Hz. reflexivity.
  - intros e Hbig Hraise. unfold _judge_concurrently. rewrite Hh.
    apply Z.ltb_lt in Hbig. rewrite Hbig. cbn [rbind].
    unfold int_mul_float, node, node_of. cbn [license_reserved license_actual].
    rewrite Z.sub_0_r, Hraise. reflexivity.
Qed.

Lemma unreadable_throughput_is_no_traffic_witness :
  (exists data v,
     HuaweiAdapter.parse garbled_log = Ok data /\
     _judge_concurrently (node_of "Huawei" data 0) = Ok v /\
     map code (offenses v) = ["LICENSE"; "ZOMBIE"]) /\
  (exists data,
     HuaweiAdapter.parse overlong_log = Ok data /\
     _judge_concurrently (node_of "Huawei" data 0) = Raise OverflowError).
Proof.
  split.
  - assert (Hfail : extraction_fails HuaweiAdapter.THROUGHPUT_RE
                      HuaweiAdapter.as_float garbled_log)
      by (exists ValueError; vm_compute; reflexivity).
    assert (Hp : HuaweiAdapter.parse garbled_log
                 = Ok {| raw_id := IdStr "UNKNOWN"; raw_license_reserved := 60;
                         raw_throughput := 0%float; raw_bandwidth := 28;
                         raw_status := "UP" |}) by (vm_compute; reflexivity).
    destruct (unreadable_throughput_is_no_traffic garbled_log _ Hfail Hp)
      as (_ & _ & Hv & _).
    destruct Hv as (v & Hv & Hcodes); [cbn; lia|].
    do 2 eexists. split; [exact Hp|]. split; [exact Hv|exact Hcodes].
  - assert (Hfail : extraction_fails HuaweiAdapter.THROUGHPUT_RE
                      HuaweiAdapter.as_float overlong_log)
      by (exists ValueError; vm_compute; reflexivity).
    assert (Hp : HuaweiAdapter.parse overlong_log
                 = Ok {| raw_id := IdStr "UNKNOWN";
                         raw_license_reserved := 10 ^ 400;
                         raw_throughput := 0%float; raw_bandwidth := 0;
                         raw_status := "DOWN" |}) by (vm_compute; reflexivity).
    destruct (unreadable_throughput_is_no_traffic overlong_log _ Hfail Hp)
      as (_ & _ & _ & Hraise).
    eexists. split; [exact Hp|]. apply Hraise.
    + cbn [raw_license_reserved]. apply Z.ltb_lt. vm_compute. reflexivity.
    + vm_compute. reflexivity.
Defined.

(** X6: a zombie port on a 56 MHz channel never comes alone. A
    throughput below 1.0 is below 50, so every verdict with ZOMBIE on such
    a channel also has BW. *)
Theorem zombie_on_56MHz_wastes_spectrum node v :
  _judge_concurrently node = Ok v ->
  bandwidth node = 56 ->
  In "ZOMBIE" (map code (offenses v)) -> In "BW" (map code (offenses v)).
Proof.
  intros Hv Hbw. destruct (judged_codes node v Hv) as (c1 & _ & ->).
  unfold spectrum_waste. rewrite Hbw, Z.eqb_refl, andb_true_l.
  unfold zombie_port.
  destruct (throughput node <? 1.0)%float eqn:Hz.
  - rewrite (below_1_below_50 _ Hz). intros _.
    apply in_or_app. right. left. reflexivity.
  - rewrite andb_false_r, app_nil_r. intros Hin.
    apply in_app_or in Hin as [Hin|Hin].
    + destruct c1; cbn in Hin; intuition discriminate.
    + destruct (float_lt_int _ _); cbn in Hin; intuition discriminate.
Qed.

Lemma zombie_on_56MHz_wastes_spectrum_witness :
  exists v, _judge_concurrently scenario_A = Ok v /\
    In "BW" (map code (offenses v)).
Proof.
  eexists. split; [vm_compute; reflexivity|].
  apply (zombie_on_56MHz_wastes_spectrum scenario_A).
  - vm_compute. reflexivity.
  - reflexivity.
  - cbn. auto.
Defined.

(** X7: a LICENSE offense always reports more than a third of the
    reserved capacity as wasted, and so at least 17 Mbps: with the needed
    license below 2^53 in size, the offense is there exactly when
    [reserved > 50] and [3 * wasted > reserved], where [wasted] is
    [reserved - needed]. *)
Theorem license_offense_wastes_over_a_third node v :
  - 2 ^ 53 < 3 * license_actual node < 2 ^ 53 ->
  _judge_concurrently node = Ok v ->
  let wasted := license_reserved node - license_actual node in
  (In "LICENSE" (map code (offenses v)) <->
   50 < license_reserved node < 3 * wasted) /\
  (forall o, In o (offenses v) -> code o = "LICENSE" ->
     wasted_qty o = wasted /\ 17 <= wasted_qty o).
Proof.
  intros Hr Hv wasted.
  destruct (judge_cases node v Hv) as (c1 & l1 & Hc1 & Hl1 & Hoff & _).
  rewrite license_hoarding_exact in Hc1 by exact Hr. injection Hc1 as Hc1.
  assert (Hiff : c1 = true <-> 50 < license_reserved node < 3 * wasted).
  { rewrite <- Hc1, andb_true_iff, !Z.ltb_lt. unfold wasted. lia. }
  split.
  - rewrite <- Hiff, Hoff, !map_app. destruct c1.
    + destruct Hl1 as (val & _ & ->). split; [reflexivity|]. intros _.
      left. reflexivity.
    + subst l1. split; [|discriminate]. cbn [map app]. intros Hin.
      destruct (spectrum_waste node), (zombie_port node); cbn in Hin;
        intuition discriminate.
  - intros o Hin Hcode. rewrite Hoff in Hin.
    assert (Ho : In o l1).
    { apply in_app_or in Hin as [Hin|Hin]; [exact Hin|].
      exfalso. apply in_app_or in Hin as [Hin|Hin];
        [destruct (spectrum_waste node)|destruct (zombie_port node)];
        cbn in Hin; try contradiction;
        destruct Hin as [<-|[]]; discriminate. }
    destruct c1; [|subst l1; contradiction].
    destruct Hl1 as (val & _ & ->). destruct Ho as [<-|[]].
    cbn [wasted_qty]. split; [reflexivity|].
    apply proj1 in Hiff. specialize (Hiff eq_refl). unfold wasted in Hiff. lia.
Qed.

Lemma license_offense_wastes_over_a_third_witness :
  exists v, _judge_concurrently scenario_A = Ok v /\
    (In "LICENSE" (map code (offenses v)) <->
     50 < license_reserved scenario_A
        < 3 * (license_reserved scenario_A - license_actual scenario_A)).
Proof.
  eexists. split; [vm_compute; reflexivity|].
  apply (license_offense_wastes_over_a_third scenario_A).
  - cbn. lia.
  - vm_compute. reflexivity.
Defined.

(** X8: the shape of every verdict. It is Innocent with no offense and
    total savings 0.0, or Guilty with at least one offense; it never has
    more than three offenses, and never two with the same code. *)
Theorem verdict_shape node v :
  _judge_concurrently node = Ok v ->
  (status v = "Innocent" /\ offenses v = [] /\ total_savings v = 0%float
   \/ status v = "Guilty" /\ offenses v <> []) /\
  (length (offenses v) <= 3)%nat /\
  NoDup (map code (offenses v)).
Proof.
  intros Hv.
  destruct (judged_codes node v Hv) as (c1 & _ & Hcodes).
  destruct (judge_cases node v Hv) as (_ & _ & _ & _ & _ & Htot & Hst).
  split; [|split].
  - rewrite Hst, Htot. case_bool_decide as Hnil.
    + left. rewrite Hnil. repeat split.
    + right. split; [reflexivity|exact Hnil].
  - rewrite <- (length_map code), Hcodes.
    destruct c1, (spectrum_waste node), (zombie_port node); cbn; lia.
  - rewrite Hcodes.
    destruct c1, (spectrum_waste node), (zombie_port node);
      apply (bool_decide_unpack _); vm_compute; exact I.
Qed.

Lemma verdict_shape_witness :
  exists v, _judge_concurrently scenario_A = Ok v /\
    (length (offenses v) <= 3)%nat /\ NoDup (map code (offenses v)).
Proof.
  eexists. split; [vm_compute; reflexivity|].
  apply (verdict_shape scenario_A). vm_compute. reflexivity.
Defined.

(** ** The database calls *)

Lemma add_suspect_ignored today link_id k summary w row :
  bind_link_id link_id = Ok k ->
  probation_list (db w) !! k = Some row ->
  add_suspect today link_id summary w
  = (Ok tt, after w (probation_list (db w)) (financial_ledger (db w)) [EvInsert k]).
Proof.
  destruct w as [[pl fl] tr]. cbn. intros Hk Hrow. run_m.
  rewrite Hk. cbn. rewrite Hrow. reflexivity.
Qed.

Lemma database_eq d pl fl :
  probation_list d = pl -> financial_ledger d = fl ->
  {| probation_list := pl; financial_ledger := fl |} = d.
Proof. destruct d. cbn. intros -> ->. reflexivity. Qed.

(** X9: [add_suspect] inserts only if the link has no record. The read
    that follows returns the record that was there, untouched, when there
    was one (INSERT OR IGNORE), and the new one, started today with one
    strike, when there was none; the ledger is not written. *)
Theorem add_suspect_inserts_if_absent today link_id k summary w :
  bind_link_id link_id = Ok k ->
  let w1 := (add_suspect today link_id summary w).2 in
  (check_probation link_id w1).1
  = Ok (Some (match probation_list (db w) !! k with
              | Some row => (start_date row, strike_count row)
              | None => (today, 1)
              end)) /\
  (is_Some (probation_list (db w) !! k) -> db w1 = db w) /\
  financial_ledger (db w1) = financial_ledger (db w).
Proof.
  intros Hk. cbn zeta.
  destruct (probation_list (db w) !! k) as [row|] eqn:Hrow.
  - rewrite (add_suspect_ignored _ _ _ _ _ _ Hk Hrow).
    rewrite (check_probation_run _ _ Hk). cbn. rewrite Hrow.
    split; [reflexivity|]. split; [|reflexivity].
    intros _. apply database_eq; reflexivity.
  - rewrite (add_suspect_run _ _ Hk _ _ _ Hrow).
    rewrite (check_probation_run _ _ Hk). cbn. rewrite lookup_insert_eq.
    split; [reflexivity|]. split; [|reflexivity].
    intros [? [=]].
Qed.

Lemma add_suspect_inserts_if_absent_witness :
  (check_probation (IdInt 42)
     (add_suspect 100 (IdInt 42) "BW" empty_world).2).1
  = Ok (Some (100, 1)) /\
  (check_probation (IdStr "UNKNOWN")
     (add_suspect 100 (IdStr "UNKNOWN") "BW" (probation_world 90 3)).2).1
  = Ok (Some (90, 3)).
Proof.
  split.
  - exact (proj1 (add_suspect_inserts_if_absent 100 (IdInt 42) "42" "BW"
                    empty_world eq_refl)).
  - pose proof (proj1 (add_suspect_inserts_if_absent 100 (IdStr "UNKNOWN")
                         "UNKNOWN" "BW" (probation_world 90 3) eq_refl)) as H.
    cbn zeta in H. rewrite H. vm_compute. reflexivity.
Defined.

(** X10: [update_suspect] never creates a record. On a link without
    record it changes nothing. On a link with a record it sets the
    last-seen date to today and keeps the start date and the summary; the
    strike count goes up by one as long as it is a 64-bit integer, and a
    count that has reached 2^63, a REAL, stays; the read that follows
    returns the start date and the new count. *)
Theorem update_suspect_never_creates today link_id k w :
  bind_link_id link_id = Ok k ->
  let w1 := (update_suspect today link_id w).2 in
  (probation_list (db w) !! k = None -> db w1 = db w) /\
  (forall row, probation_list (db w) !! k = Some row ->
     exists row',
       probation_list (db w1) !! k = Some row' /\
       offense_summary row' = offense_summary row /\
       start_date row' = start_date row /\
       last_seen row' = today /\
       (- 2 ^ 63 <= strike_count row < 2 ^ 63 ->
        strike_count row' = strike_count row + 1) /\
       (2 ^ 63 <= strike_count row -> strike_count row' = strike_count row) /\
       (check_probation link_id w1).1
       = Ok (Some (start_date row, strike_count row'))) /\
  financial_ledger (db w1) = financial_ledger (db w).
Proof.
  intros Hk. cbn zeta. rewrite (update_suspect_run _ _ Hk).
  cbn [snd after db probation_list financial_ledger].
  split; [|split; [|reflexivity]].
  - intros Hnone. apply database_eq; [|reflexivity].
    symmetry. apply alter_id'. exact Hnone.
  - intros row Hrow. exists (strike today row).
    rewrite (check_probation_run _ _ Hk).
    cbn [fst after db probation_list].
    rewrite lookup_alter_eq, Hrow.
    split; [reflexivity|]. split; [reflexivity|]. split; [reflexivity|].
    split; [reflexivity|]. split; [apply add1_integer|].
    split; [|reflexivity].
    intros Hreal. apply add1_real. right. exact Hreal.
Qed.

Lemma update_suspect_never_creates_witness :
  db (update_suspect 100 (IdInt 42) empty_world).2 = db empty_world /\
  (check_probation (IdStr "UNKNOWN")
     (update_suspect 100 (IdStr "UNKNOWN") (probation_world 90 3)).2).1
  = Ok (Some (90, 4)).
Proof.
  split.
  - apply (proj1 (update_suspect_never_creates 100 (IdInt 42) "42"
                    empty_world eq_refl)).
    vm_compute. reflexivity.
  - destruct (proj1 (proj2 (update_suspect_never_creates 100 (IdStr "UNKNOWN")
                              "UNKNOWN" (probation_world 90 3) eq_refl))
                {| offense_summary := "LICENSE,BW,ZOMBIE"; start_date := 90;
                   last_seen := 90; strike_count := 3 |})
      as (row' & _ & _ & _ & _ & Hcount & _ & Hcheck).
    + vm_compute. reflexivity.
    + cbn zeta in Hcheck. rewrite Hcheck, Hcount by (cbn; lia). reflexivity.
Defined.

(** X11: [release_suspect] forgets the link. The read that follows finds
    no record, releasing twice is releasing once, a link without record is
    released without any change, and the ledger is not written. *)
Theorem release_suspect_forgets link_id k w :
  bind_link_id link_id = Ok k ->
  let w1 := (release_suspect link_id w).2 in
  (check_probation link_id w1).1 = Ok None /\
  db (release_suspect link_id w1).2 = db w1 /\
  (probation_list (db w) !! k = None -> db w1 = db w) /\
  financial_ledger (db w1) = financial_ledger (db w).
Proof.
  intros Hk. cbn zeta. rewrite !(release_suspect_run _ _ Hk).
  rewrite (check_probation_run _ _ Hk).
  cbn [fst snd after db probation_list financial_ledger].
  rewrite lookup_delete_eq, delete_delete_eq.
  split; [reflexivity|]. split; [reflexivity|]. split; [|reflexivity].
  intros Hnone. apply database_eq; [|reflexivity].
  symmetry. apply delete_id. exact Hnone.
Qed.

Lemma release_suspect_forgets_witness :
  (check_probation (IdStr "UNKNOWN")
     (release_suspect (IdStr "UNKNOWN") (probation_world 90 3)).2).1 = Ok None.
Proof.
  exact (proj1 (release_suspect_forgets (IdStr "UNKNOWN") "UNKNOWN"
                  (probation_world 90 3) eq_refl)).
Defined.

(** X12: every call of the database manager leaves the records of the
    other links alone, and only [record_profit] writes the ledger: it
    appends one row, dated today, and does not touch the probation list. *)
Theorem database_calls_touch_one_record
    today link_id k summary action value w key :
  bind_link_id link_id = Ok k ->
  key <> k ->
  let untouched (w1 : World) :=
    probation_list (db w1) !! key = probation_list (db w) !! key in
  untouched (check_probation link_id w).2 /\
  untouched (add_suspect today link_id summary w).2 /\
  untouched (update_suspect today link_id w).2 /\
  untouched (release_suspect link_id w).2 /\
  db (check_probation link_id w).2 = db w /\
  probation_list (db (record_profit today link_id action value w).2)
  = probation_list (db w) /\
  financial_ledger (db (record_profit today link_id action value w).2)
  = financial_ledger (db w)
    ++ [ {| ledger_date := today; ledger_link_id := k;
            action_taken := action; recovered_value := value |} ].
Proof.
  intros Hk Hne. cbn zeta.
  rewrite (check_probation_run _ _ Hk), (update_suspect_run _ _ Hk),
    (release_suspect_run _ _ Hk), (record_profit_run _ _ Hk).
  cbn [snd after db probation_list financial_ledger].
  split; [reflexivity|]. split; [|split; [|split; [|split; [|split]]]].
  - destruct (probation_list (db w) !! k) as [row|] eqn:Hrow.
    + rewrite (add_suspect_ignored _ _ _ _ _ _ Hk Hrow). reflexivity.
    + rewrite (add_suspect_run _ _ Hk _ _ _ Hrow). cbn.
      apply lookup_insert_ne. congruence.
  - apply lookup_alter_ne. congruence.
  - apply lookup_delete_ne. congruence.
  - apply database_eq; reflexivity.
  - reflexivity.
  - reflexivity.
Qed.

Lemma database_calls_touch_one_record_witness :
  probation_list (db (release_suspect (IdInt 42) (probation_world 90 3)).2)
    !! "UNKNOWN"
  = probation_list (db (probation_world 90 3)) !! "UNKNOWN".
Proof.
  assert (Hne : "UNKNOWN" <> "42") by discriminate.
  exact (proj1 (proj2 (proj2 (proj2
           (database_calls_touch_one_record 100 (IdInt 42) "42" "" "" 0%float
              (probation_world 90 3) "UNKNOWN" eq_refl Hne))))).
Defined.

(** ** Link numbers *)

Lemma to_int_not_nil n :
  Z.to_int n <> Decimal.Pos Decimal.Nil /\ Z.to_int n <> Decimal.Neg Decimal.Nil.
Proof.
  split; intros H; pose proof (f_equal Z.of_int H) as H';
    rewrite DecimalZ.of_to in H'; cbn in H'; subst n; discriminate H.
Qed.

Lemma str_inj n m : str n = str m -> n = m.
Proof.
  unfold str. intros H. apply DecimalZ.to_int_inj.
  destruct (to_int_not_nil n) as [Hn1 Hn2], (to_int_not_nil m) as [Hm1 Hm2].
  pose proof (NilZero.isi _ Hn1 Hn2) as Hn.
  pose proof (NilZero.isi _ Hm1 Hm2) as Hm.
  congruence.
Qed.

Lemma str_not_unknown n : str n <> "UNKNOWN".
Proof.
  unfold str. intros H. destruct (to_int_not_nil n) as [Hn1 Hn2].
  pose proof (NilZero.isi _ Hn1 Hn2) as Hn. rewrite H in Hn. discriminate.
Qed.

(** X13: numbered links are kept apart. Two parsed records are audited
    under the same probation record only if they have the same id: the
    same number, or both the default "UNKNOWN". *)
Theorem links_share_a_record_only_with_the_same_id text1 text2 data1 data2 k :
  HuaweiAdapter.parse text1 = Ok data1 ->
  HuaweiAdapter.parse text2 = Ok data2 ->
  bind_link_id (raw_id data1) = Ok k ->
  bind_link_id (raw_id data2) = Ok k ->
  raw_id data1 = raw_id data2.
Proof.
  intros H1 H2 Hk1 Hk2.
  destruct (parsed_id_shape _ _ H1) as [E1|(n & _ & E1)],
           (parsed_id_shape _ _ H2) as [E2|(m & _ & E2)];
    rewrite E1 in Hk1 |- *; rewrite E2 in Hk2 |- *;
    cbn [bind_link_id] in Hk1, Hk2.
  - reflexivity.
  - injection Hk1 as <-.
    destruct (_ && _) in Hk2; [|discriminate]. injection Hk2 as Hk2.
    exfalso. exact (str_not_unknown _ Hk2).
  - injection Hk2 as <-.
    destruct (_ && _) in Hk1; [|discriminate]. injection Hk1 as Hk1.
    exfalso. exact (str_not_unknown _ Hk1).
  - destruct (_ && _) in Hk1; [|discriminate]. injection Hk1 as Hk1.
    destruct (_ && _) in Hk2; [|discriminate]. injection Hk2 as Hk2.
    f_equal. apply str_inj. congruence.
Qed.

Lemma links_share_a_record_only_with_the_same_id_witness :
  exists data1 data2,
    HuaweiAdapter.parse numbered_log = Ok data1 /\
    HuaweiAdapter.parse ("+++ 042" +:+ NL +:+ "Port Admin Status : DOWN")
    = Ok data2 /\
    raw_id data1 = raw_id data2.
Proof.
  do 2 eexists. split; [vm_compute; reflexivity|].
  split; [vm_compute; reflexivity|].
  apply (links_share_a_record_only_with_the_same_id numbered_log
           ("+++ 042" +:+ NL +:+ "Port Admin Status : DOWN") _ _ "42");
    vm_compute; reflexivity.
Defined.

(** ** Audits against the database *)

(** The whole of [_process_verdict] as one table over the record found
    and the status of the verdict. *)
Lemma process_verdict_table today node verdict adapter k w :
  bind_link_id (id node) = Ok k ->
  let pl := probation_list (db w) in
  let fl := financial_ledger (db w) in
  let summary := join "," (map code (offenses verdict)) in
  _process_verdict today node verdict adapter w =
  match pl !! k with
  | None =>
      if String.eqb (status verdict) "Innocent"
      then (Ok (Clean (id node)), after w pl fl [EvSelect k])
      else (Ok (Indicted (id node) summary),
            after w (<[ k := {| offense_summary := summary; start_date := today;
                                last_seen := today; strike_count := 1 |} ]> pl)
              fl [EvSelect k; EvInsert k])
  | Some row =>
      if String.eqb (status verdict) "Innocent"
      then (Ok (Cleared (id node)),
            after w (delete k pl) fl [EvSelect k; EvDelete k])
      else if PROBATION_DAYS CONFIG <=? today - start_date row
      then (Ok (Jackpot (id node) (total_savings verdict)
                  (length (offenses verdict))
                  (Header (id node) (today - start_date row)
                   :: flat_map (offense_script node adapter) (offenses verdict))),
            after w (delete k pl)
              (fl ++ map (ledger_row today k) (offenses verdict))
              ([EvSelect k; EvUpdate k]
               ++ map (ledger_call k) (offenses verdict) ++ [EvDelete k]))
      else (Ok (Surveillance (id node) (today - start_date row) summary),
            after w (alter (strike today) k pl) fl [EvSelect k; EvUpdate k])
  end.
Proof.
  intros Hk pl fl summary. subst pl fl summary.
  destruct (probation_list (db w) !! k) as [row|] eqn:Hrow;
    destruct (String.eqb_spec (status verdict) "Innocent") as [Hs|Hs].
  - apply (process_innocent_on_probation _ _ _ _ _ Hk _ _ Hs Hrow).
  - destruct (Z.leb_spec (PROBATION_DAYS CONFIG) (today - start_date row)).
    + apply (process_guilty_matured _ _ _ _ _ Hk _ _ Hs Hrow). assumption.
    + apply (process_guilty_young _ _ _ _ _ Hk _ _ Hs Hrow). assumption.
  - apply (process_innocent_clean _ _ _ _ _ Hk _ Hs Hrow).
  - apply (process_guilty_first _ _ _ _ _ Hk _ Hs Hrow).
Qed.

Lemma huawei_adapter raw_log :
  PyStr.contains "Current License Capacity" raw_log = true ->
  detect_vendor raw_log = "Huawei" /\
  adapters !! detect_vendor raw_log = Some HuaweiAdapter.adapter.
Proof.
  intros Hc. unfold detect_vendor. rewrite Hc. split; reflexivity.
Qed.

(** ** Links without a banner *)

(** C10: a log without a banner ("+++", blanks, a name of upper-case
    letters, digits and underscores) gets the id "UNKNOWN", and the audit
    goes on under that id. Every database call it makes is on the key
    "UNKNOWN" and no other record changes; and when the log is a Huawei log
    that the parser and the evaluator get through, the audit does not stop:
    it reads the record "UNKNOWN" right after parsing, and leaves that
    record as the verdict decides: created today with one strike on a first
    guilty verdict, struck once more on a later one, deleted by a
    remediation or by an innocent verdict. All such links share that one
    record. *)
Theorem unidentified_links_share_unknown today raw_log w :
  ~ has_banner raw_log ->
  re.search HuaweiAdapter.ID_RE raw_log = None /\
  (forall data, HuaweiAdapter.parse raw_log = Ok data ->
     raw_id data = IdStr "UNKNOWN") /\
  (forall r w', ingest_and_audit today raw_log w = (r, w') ->
     exists calls,
       trace w' = trace w ++ calls /\
       Forall (fun ev => event_key ev = None \/ event_key ev = Some "UNKNOWN") calls /\
       (forall key, key <> "UNKNOWN" ->
          probation_list (db w') !! key = probation_list (db w) !! key) /\
       (forall report, r = Ok report -> report <> UnknownVendor ->
          exists rest, calls = EvParse raw_log :: EvSelect "UNKNOWN" :: rest)) /\
  (forall data needed verdict,
     PyStr.contains "Current License Capacity" raw_log = true ->
     HuaweiAdapter.parse raw_log = Ok data ->
     needed_license (raw_throughput data) = Ok needed ->
     _judge_concurrently (node_of "Huawei" data needed) = Ok verdict ->
     exists report rest w',
       ingest_and_audit today raw_log w = (Ok report, w') /\
       report <> UnknownVendor /\
       trace w' = trace w ++ EvParse raw_log :: EvSelect "UNKNOWN" :: rest /\
       (status verdict = "Guilty" ->
        exists rest', rest = EvInsert "UNKNOWN" :: rest'
                      \/ rest = EvUpdate "UNKNOWN" :: rest') /\
       probation_list (db w') !! "UNKNOWN"
       = match probation_list (db w) !! "UNKNOWN" with
         | None =>
             if String.eqb (status verdict) "Innocent" then None
             else Some {| offense_summary := join "," (map code (offenses verdict));
                          start_date := today; last_seen := today;
                          strike_count := 1 |}
         | Some row =>
             if String.eqb (status verdict) "Innocent" then None
             else if PROBATION_DAYS CONFIG <=? today - start_date row then None
             else Some (strike today row)
         end).
Proof.
  intros Hban. apply banner_search in Hban as Hid.
  split; [exact Hid|].
  split; [intros data; apply parse_without_banner; exact Hid|].
  split.
  - intros r w' Hrun.
    destruct (adapters !! detect_vendor raw_log) as [adapter|] eqn:Ha.
    + destruct (adapters_lookup _ _ Ha) as [_ ->].
      destruct (ingest_and_audit_run today raw_log w _ Ha)
        as [(e & Hrun')|(data & needed & verdict & Hp & _ & _ & Hrun')];
        rewrite Hrun' in Hrun.
      * injection Hrun as <- <-. exists [EvParse raw_log].
        split; [reflexivity|]. split; [repeat constructor|].
        split; [reflexivity|]. discriminate.
      * pose proof (parse_without_banner _ _ Hid Hp) as Hunk.
        assert (Hk : bind_link_id (id (node_of (detect_vendor raw_log) data needed))
                     = Ok "UNKNOWN") by (cbn; rewrite Hunk; reflexivity).
        destruct (process_verdict_cases today _ verdict HuaweiAdapter.adapter _
                    (after w (probation_list (db w)) (financial_ledger (db w))
                       [EvParse raw_log]) Hk)
          as (r0 & pl' & fl' & calls & Hrun'' & Hkeys & (rest & ->) & Hpl).
        rewrite Hrun'' in Hrun. injection Hrun as <- <-.
        rewrite after_after. cbn [after db probation_list trace app].
        exists (EvParse raw_log :: EvSelect "UNKNOWN" :: rest).
        split; [reflexivity|]. split; [|split].
        -- apply Forall_cons. split; [left; reflexivity|].
           eapply Forall_impl; [exact Hkeys|]. intros ev Hev. right. exact Hev.
        -- intros key Hne. cbn [after db probation_list] in Hpl.
           destruct Hpl as [->|[->|[(_ & row & _ & _ & ->)| ->]]].
           ++ reflexivity.
           ++ apply lookup_delete_ne. congruence.
           ++ apply lookup_insert_ne. congruence.
           ++ apply lookup_alter_ne. congruence.
        -- intros _ _ _. eexists. reflexivity.
    + rewrite (ingest_without_adapter _ _ _ Ha) in Hrun.
      injection Hrun as <- <-. exists []. split; [symmetry; apply app_nil_r|].
      split; [constructor|]. split; [reflexivity|].
      intros report [= <-] Hne. congruence.
  - intros data needed verdict Hc Hp Hn Hj.
    destruct (huawei_adapter _ Hc) as [Hv Ha].
    rewrite (ingest_and_audit_eq _ _ _ _ Ha). cbn zeta. rewrite Hv.
    change (parse HuaweiAdapter.adapter raw_log)
      with (HuaweiAdapter.parse raw_log).
    rewrite Hp, Hn, Hj.
    pose proof (parse_without_banner _ _ Hid Hp) as Hunk.
    assert (Hk : bind_link_id (id (node_of "Huawei" data needed)) = Ok "UNKNOWN")
      by (cbn; rewrite Hunk; reflexivity).
    rewrite (process_verdict_table _ _ _ _ _ _ Hk). cbn zeta.
    cbn [after db probation_list financial_ledger].
    destruct (probation_list (db w) !! "UNKNOWN") as [row|] eqn:Hrow;
      destruct (String.eqb_spec (status verdict) "Innocent") as [Hs|Hs];
      try destruct (Z.leb_spec (PROBATION_DAYS CONFIG) (today - start_date row));
      do 3 eexists;
      (split; [reflexivity|]); (split; [discriminate|]);
      cbn [after db probation_list trace];
      (split; [rewrite <- app_assoc; reflexivity|]);
      (split; [intros Hg; try congruence; eexists; (left + right); reflexivity|]);
      rewrite ?lookup_delete_eq, ?lookup_alter_eq, ?lookup_insert_eq, ?Hrow;
      reflexivity.
Qed.

Lemma unidentified_links_share_unknown_witness :
  ~ has_banner anonymous_log /\ ~ has_banner other_anonymous_log /\
  let w1 := (ingest_and_audit 100 anonymous_log empty_world).2 in
  let w2 := (ingest_and_audit 101 other_anonymous_log w1).2 in
  probation_list (db w1) !! "UNKNOWN"
  = Some {| offense_summary := "LICENSE,BW,ZOMBIE"; start_date := 100;
            last_seen := 100; strike_count := 1 |} /\
  probation_list (db w2) !! "UNKNOWN"
  = Some {| offense_summary := "LICENSE,BW,ZOMBIE"; start_date := 100;
            last_seen := 101; strike_count := 2 |}.
Proof.
  assert (Hban1 : ~ has_banner anonymous_log)
    by (apply banner_search; vm_compute; reflexivity).
  assert (Hban2 : ~ has_banner other_anonymous_log)
    by (apply banner_search; vm_compute; reflexivity).
  split; [exact Hban1|]. split; [exact Hban2|].
  assert (Hp1 : HuaweiAdapter.parse anonymous_log
                = Ok {| raw_id := IdStr "UNKNOWN"; raw_license_reserved := 400;
                        raw_throughput := 0.5%float; raw_bandwidth := 56;
                        raw_status := "UP" |}) by (vm_compute; reflexivity).
  assert (Hj1 : _judge_concurrently scenario_A = Ok verdict_A)
    by (vm_compute; reflexivity).
  destruct (proj2 (proj2 (proj2
              (unidentified_links_share_unknown 100 anonymous_log empty_world
                 Hban1))) _ 0 verdict_A eq_refl Hp1 eq_refl Hj1)
    as (r1 & rest1 & w1 & Hrun1 & _ & _ & _ & Hrow1).
  assert (Hp2 : HuaweiAdapter.parse other_anonymous_log
                = Ok {| raw_id := IdStr "UNKNOWN"; raw_license_reserved := 900;
                        raw_throughput := 20%float; raw_bandwidth := 28;
                        raw_status := "UP" |}) by (vm_compute; reflexivity).
  assert (Hj2 : exists v,
             _judge_concurrently
               (node_of "Huawei"
                  {| raw_id := IdStr "UNKNOWN"; raw_license_reserved := 900;
                     raw_throughput := 20%float; raw_bandwidth := 28;
                     raw_status := "UP" |} 24) = Ok v /\ status v = "Guilty")
    by (eexists; split; vm_compute; reflexivity).
  destruct Hj2 as (v2 & Hj2 & Hs2).
  destruct (proj2 (proj2 (proj2
              (unidentified_links_share_unknown 101 other_anonymous_log w1
                 Hban2))) _ 24 v2 eq_refl Hp2 eq_refl Hj2)
    as (r2 & rest2 & w2 & Hrun2 & _ & _ & _ & Hrow2).
  cbn zeta. rewrite Hrun1. cbn [snd]. rewrite Hrun2. cbn [snd].
  rewrite Hrow2, Hrow1. split; [reflexivity|].
  rewrite Hs2. reflexivity.
Defined.

Lemma bind_oversized n : 2 ^ 63 <= n -> bind_link_id (IdInt n) = Raise OverflowError.
Proof.
  intros Hn. cbn [bind_link_id].
  destruct (Z.ltb_spec n (2 ^ 63)); [lia|]. rewrite andb_false_r. reflexivity.
Qed.

(** X14: a link whose number does not fit a signed 64-bit integer cannot
    be audited. Every audit of its log raises before any database call,
    and the exception is OverflowError, raised by the first read of the
    probation list, when the evaluator itself returns. *)
Theorem oversized_link_number_fails_the_audit today raw_log w data n :
  PyStr.contains "Current License Capacity" raw_log = true ->
  HuaweiAdapter.parse raw_log = Ok data ->
  raw_id data = IdInt n ->
  2 ^ 63 <= n ->
  exists e,
    ingest_and_audit today raw_log w
    = (Raise e, after w (probation_list (db w)) (financial_ledger (db w))
                  [EvParse raw_log]) /\
    (forall needed verdict,
       needed_license (raw_throughput data) = Ok needed ->
       _judge_concurrently (node_of "Huawei" data needed) = Ok verdict ->
       e = OverflowError).
Proof.
  intros Hc Hparse Hid Hn.
  destruct (huawei_adapter _ Hc) as [Hv Ha].
  rewrite (ingest_and_audit_eq _ _ _ _ Ha). cbn zeta. rewrite Hv.
  change (parse HuaweiAdapter.adapter raw_log) with (HuaweiAdapter.parse raw_log).
  rewrite Hparse.
  destruct (needed_license (raw_throughput data)) as [needed|e1] eqn:Hneeded;
    [|exists e1; split; [reflexivity|discriminate]].
  destruct (_judge_concurrently (node_of "Huawei" data needed))
    as [verdict|e2] eqn:Hjudge.
  2:{ exists e2. split; [reflexivity|].
      intros needed' verdict' Hn' Hj'. congruence. }
  exists OverflowError. split; [|reflexivity].
  apply process_verdict_unbound. cbn [node_of id]. rewrite Hid.
  apply bind_oversized. exact Hn.
Qed.

Lemma oversized_link_number_fails_the_audit_witness :
  (ingest_and_audit 100 oversized_log empty_world).1 = Raise OverflowError.
Proof.
  assert (Hc : PyStr.contains "Current License Capacity" oversized_log = true)
    by (vm_compute; reflexivity).
  assert (Hn : 2 ^ 63 <= 9223372036854775808) by (vm_compute; discriminate).
  assert (Hp : HuaweiAdapter.parse oversized_log
               = Ok {| raw_id := IdInt 9223372036854775808;
                       raw_license_reserved := 400; raw_throughput := 0.5%float;
                       raw_bandwidth := 0; raw_status := "UP" |})
    by (vm_compute; reflexivity).
  destruct (oversized_link_number_fails_the_audit 100 oversized_log empty_world
              _ 9223372036854775808 Hc Hp eq_refl Hn)
    as (e & -> & He).
  cbn [fst]. f_equal. apply (He 0 (Build_Verdict "Guilty"
    [ {| code := "LICENSE"; wasted_qty := 400; saving_value := 4000%float;
         details := "Hoarding 400Mbps" |};
      {| code := "ZOMBIE"; wasted_qty := 1; saving_value := 50%float;
         details := "Zombie Port Active" |} ] 4050%float));
    vm_compute; reflexivity.
Defined.

(** X15: an audit that raises has written nothing. Whatever the
    exception, both tables are as before; the parser was called, and no
    database call was made. *)
Theorem failed_audit_writes_nothing today raw_log w e w' :
  ingest_and_audit today raw_log w = (Raise e, w') ->
  db w' = db w /\ trace w' = trace w ++ [EvParse raw_log].
Proof.
  intros Hrun.
  destruct (adapters !! detect_vendor raw_log) as [adapter|] eqn:Ha.
  - destruct (ingest_and_audit_run today raw_log w adapter Ha)
      as [(e' & Hrun')|(data & needed & verdict & _ & _ & _ & Hrun')];
      rewrite Hrun' in Hrun.
    + injection Hrun as _ <-. cbn. split; [|reflexivity].
      destruct w as [[pl fl] tr]. reflexivity.
    + destruct (bind_link_id (id (node_of (detect_vendor raw_log) data needed)))
        as [k|e'] eqn:Hk.
      * rewrite (process_verdict_table _ _ _ _ _ _ Hk) in Hrun. cbn zeta in Hrun.
        repeat case_match; discriminate.
      * rewrite (process_verdict_unbound _ _ _ _ _ _ Hk) in Hrun.
        injection Hrun as _ <-. cbn. split; [|reflexivity].
        destruct w as [[pl fl] tr]. reflexivity.
  - rewrite (ingest_without_adapter _ _ _ Ha) in Hrun. discriminate.
Qed.

Lemma failed_audit_writes_nothing_witness :
  exists w',
    ingest_and_audit 100 unvalued_status_log (probation_world 90 3)
    = (Raise AttributeError, w') /\
    db w' = db (probation_world 90 3).
Proof.
  destruct (ingest_and_audit 100 unvalued_status_log (probation_world 90 3))
    as [r w'] eqn:Hrun.
  assert (Hr : r = Raise AttributeError).
  { change r with (r, w').1. rewrite <- Hrun. vm_compute. reflexivity. }
  subst r. exists w'. split; [reflexivity|].
  exact (proj1 (failed_audit_writes_nothing _ _ _ _ _ Hrun)).
Defined.

(** An audit, as the table of [_process_verdict] applied to the parsed
    record; [None] when the audit stops before the database. *)
Lemma audit_reaches_database today raw_log w r w' :
  ingest_and_audit today raw_log w = (r, w') ->
  (db w' = db w /\ (trace w' = trace w \/ trace w' = trace w ++ [EvParse raw_log])
   /\ forall report, r = Ok report -> report = UnknownVendor) \/
  (exists data needed verdict k,
     HuaweiAdapter.parse raw_log = Ok data /\
     _judge_concurrently (node_of "Huawei" data needed) = Ok verdict /\
     bind_link_id (raw_id data) = Ok k /\
     (r, w') = _process_verdict today (node_of "Huawei" data needed) verdict
                 HuaweiAdapter.adapter
                 (after w (probation_list (db w)) (financial_ledger (db w))
                    [EvParse raw_log])).
Proof.
  intros Hrun.
  destruct (adapters !! detect_vendor raw_log) as [adapter|] eqn:Ha.
  - destruct (adapters_lookup _ _ Ha) as [Hv ->].
    destruct (ingest_and_audit_run today raw_log w _ Ha)
      as [(e' & Hrun')|(data & needed & verdict & Hp & _ & Hj & Hrun')];
      rewrite Hrun' in Hrun.
    + left. injection Hrun as <- <-. cbn.
      split; [destruct w as [[pl fl] tr]; reflexivity|].
      split; [right; reflexivity|discriminate].
    + rewrite Hv in *.
      destruct (bind_link_id (raw_id data)) as [k|e'] eqn:Hk.
      * right. exists data, needed, verdict, k. auto.
      * left. rewrite (process_verdict_unbound _ _ _ _ e') in Hrun by exact Hk.
        injection Hrun as <- <-. cbn.
        split; [destruct w as [[pl fl] tr]; reflexivity|].
        split; [right; reflexivity|discriminate].
  - left. rewrite (ingest_without_adapter _ _ _ Ha) in Hrun.
    injection Hrun as <- <-. split; [reflexivity|].
    split; [left; reflexivity|]. intros report [= <-]. reflexivity.
Qed.

(** X16: the ledger only grows, and only by a remediation. After any
    audit the ledger is the old one followed by new rows, all dated
    today, and there are new rows only when the audit ended in the
    remediation report. *)
Theorem ledger_grows_only_by_remediation today raw_log w r w' :
  ingest_and_audit today raw_log w = (r, w') ->
  exists rows,
    financial_ledger (db w') = financial_ledger (db w) ++ rows /\
    Forall (fun row => ledger_date row = today) rows /\
    (rows <> [] -> remediation_executed r).
Proof.
  intros Hrun.
  destruct (audit_reaches_database _ _ _ _ _ Hrun)
    as [(Hdb & _ & _)|(data & needed & verdict & k & _ & _ & Hk & Hrun')].
  - exists []. rewrite Hdb, app_nil_r. split; [reflexivity|].
    split; [constructor|congruence].
  - rewrite (process_verdict_table _ _ _ _ k) in Hrun' by exact Hk.
    cbn zeta in Hrun'.
    repeat case_match; injection Hrun' as -> ->;
      cbn [after db financial_ledger];
      try (exists []; rewrite app_nil_r; split; [reflexivity|];
           split; [constructor|congruence]).
    eexists. split; [reflexivity|]. split.
    + apply Forall_forall. intros row Hrow.
      apply list_elem_of_fmap in Hrow as (o & -> & _). reflexivity.
    + intros _. do 4 eexists. reflexivity.
Qed.

Lemma ledger_grows_only_by_remediation_witness :
  exists rows,
    financial_ledger (db (ingest_and_audit 120 catastrophic_log
                            (probation_world 100 1)).2)
    = financial_ledger (db (probation_world 100 1)) ++ rows /\
    Forall (fun row => ledger_date row = 120) rows.
Proof.
  destruct (ingest_and_audit 120 catastrophic_log (probation_world 100 1))
    as [r w'] eqn:Hrun.
  destruct (ledger_grows_only_by_remediation _ _ _ _ _ Hrun)
    as (rows & Hrows & Hdate & _).
  exists rows. split; [exact Hrows|exact Hdate].
Defined.

(** ** The end of a remediation *)

Lemma sum_recovered_ledger today k l : forall acc,
  fold_left (fun acc row => (acc + recovered_value row)%float)
    (map (ledger_row today k) l) acc
  = fold_left (fun acc o => (acc + saving_value o)%float) l acc.
Proof.
  induction l as [|o l IH]; intros acc; [reflexivity|].
  cbn [map fold_left ledger_row recovered_value]. apply IH.
Qed.

(** The codes the evaluator gives are the three the adapter knows. *)
Lemma judged_codes_known node v :
  _judge_concurrently node = Ok v ->
  (length (offenses v) <= 3)%nat /\
  Forall (fun o => code o = "LICENSE" \/ code o = "BW" \/ code o = "ZOMBIE")
    (offenses v).
Proof.
  intros Hv. destruct (judged_codes node v Hv) as (c1 & _ & Hcodes).
  split.
  - rewrite <- (length_map code), Hcodes.
    destruct c1, (spectrum_waste node), (zombie_port node); cbn; lia.
  - apply (Forall_fmap code (fun c => c = "LICENSE" \/ c = "BW" \/ c = "ZOMBIE")).
    change (code <$> offenses v) with (map code (offenses v)). rewrite Hcodes.
    destruct c1, (spectrum_waste node), (zombie_port node); cbn [app];
      repeat (apply Forall_cons_2; [auto|]); apply Forall_nil_2.
Qed.

Lemma known_offense_script node o :
  code o = "LICENSE" \/ code o = "BW" \/ code o = "ZOMBIE" ->
  exists what cmd,
    offense_script node HuaweiAdapter.adapter o
    = [Comment what (saving_value o); Command cmd] /\ cmd <> "".
Proof.
  unfold offense_script. intros [->|[->| ->]];
    cbn [String.eqb Ascii.eqb Bool.eqb generate_fix HuaweiAdapter.adapter
         HuaweiAdapter.generate_fix];
    do 2 eexists; (split; [reflexivity|discriminate]).
Qed.

Lemma known_offenses_script node l :
  Forall (fun o => code o = "LICENSE" \/ code o = "BW" \/ code o = "ZOMBIE") l ->
  length (flat_map (offense_script node HuaweiAdapter.adapter) l)
  = (2 * length l)%nat /\
  Forall (fun line => line <> Command "")
    (flat_map (offense_script node HuaweiAdapter.adapter) l).
Proof.
  induction 1 as [|o l Ho _ [IHlen IHall]]; cbn [flat_map length].
  - split; [reflexivity|constructor].
  - destruct (known_offense_script node o Ho) as (what & cmd & -> & Hcmd).
    cbn [app length]. split; [lia|].
    repeat constructor; [discriminate|congruence|exact IHall].
Qed.

(** X17: the books of a remediation balance. When an audit ends in the
    remediation report, the ledger has got one row per crime punished,
    between one and three, whose recovered values add up, in row order, to
    the total savings of the report; the batch script has the header and
    two lines per crime, none of them an empty command; and the link is
    off probation. *)
Theorem remediation_books_balance today raw_log w link total crimes script w' :
  ingest_and_audit today raw_log w = (Ok (Jackpot link total crimes script), w') ->
  exists rows,
    financial_ledger (db w') = financial_ledger (db w) ++ rows /\
    length rows = crimes /\
    (1 <= crimes <= 3)%nat /\
    sum_recovered rows = total /\
    length script = (1 + 2 * crimes)%nat /\
    Forall (fun line => line <> Command "") script /\
    exists k, bind_link_id link = Ok k /\ probation_list (db w') !! k = None.
Proof.
  intros Hrun.
  destruct (audit_reaches_database _ _ _ _ _ Hrun)
    as [(_ & _ & Hr)|(data & needed & verdict & k & _ & Hv & Hk & Hrun')].
  - discriminate (Hr _ eq_refl).
  - rewrite (process_verdict_table _ _ _ _ k) in Hrun' by exact Hk.
    cbn zeta in Hrun'.
    repeat case_match; try discriminate.
    injection Hrun' as -> -> -> -> ->.
    destruct (judge_cases _ _ Hv) as (_ & _ & _ & _ & _ & Htot & Hst).
    destruct (judged_codes_known _ _ Hv) as [Hlen Hknown].
    destruct (known_offenses_script (node_of "Huawei" data needed) _ Hknown)
      as [Hslen Hsall].
    cbn [after db financial_ledger probation_list].
    exists (map (ledger_row today k) (offenses verdict)).
    split; [reflexivity|]. split; [apply length_map|]. split; [split; [|exact Hlen]|].
    + destruct (offenses verdict); [|cbn; lia].
      rewrite bool_decide_eq_true_2 in Hst by reflexivity.
      rewrite Hst in *. discriminate.
    + split; [unfold sum_recovered; rewrite sum_recovered_ledger; symmetry; exact Htot|].
      split; [cbn [length]; rewrite Hslen; lia|].
      split; [constructor; [discriminate|exact Hsall]|].
      exists k. split; [exact Hk|apply lookup_delete_eq].
Qed.

Lemma remediation_books_balance_witness :
  exists rows,
    financial_ledger (db (ingest_and_audit 120 catastrophic_log
                            (probation_world 100 1)).2)
    = financial_ledger (db (probation_world 100 1)) ++ rows /\
    length rows = 3%nat /\ sum_recovered rows = 4610%float.
Proof.
  destruct (ingest_and_audit 120 catastrophic_log (probation_world 100 1))
    as [r w'] eqn:Hrun.
  assert (Hr : exists script,
             r = Ok (Jackpot (IdStr "UNKNOWN") 4610%float 3 script)).
  { change r with (r, w').1. rewrite <- Hrun. eexists. vm_compute. reflexivity. }
  destruct Hr as [script ->].
  destruct (remediation_books_balance _ _ _ _ _ _ _ _ Hrun)
    as (rows & Hrows & Hlen & _ & Hsum & _).
  exists rows. split; [exact Hrows|]. split; [exact Hlen|exact Hsum].
Defined.

(** ** Escalation over several audits *)

(** X18: a closed case starts over. After an audit that found the link
    clean, cleared it or remediated it, the link has no record, so the
    next guilty verdict, whenever it comes, is a first indictment: a new
    record, started that day with one strike, and nothing in the ledger. *)
Theorem closed_case_starts_over
    today1 today2 node verdict1 verdict2 adapter k w r1 w1 :
  bind_link_id (id node) = Ok k ->
  _process_verdict today1 node verdict1 adapter w = (Ok r1, w1) ->
  closes_the_case r1 ->
  status verdict2 = "Guilty" ->
  probation_list (db w1) !! k = None /\
  exists w2,
    _process_verdict today2 node verdict2 adapter w1
    = (Ok (Indicted (id node) (join "," (map code (offenses verdict2)))), w2) /\
    probation_list (db w2) !! k
    = Some {| offense_summary := join "," (map code (offenses verdict2));
              start_date := today2; last_seen := today2; strike_count := 1 |} /\
    financial_ledger (db w2) = financial_ledger (db w1).
Proof.
  intros Hk Hrun Hclosed Hs.
  assert (Hnone : probation_list (db w1) !! k = None).
  { rewrite (process_verdict_table _ _ _ _ _ _ Hk) in Hrun. cbn zeta in Hrun.
    repeat case_match; injection Hrun as <- <-; try contradiction;
      cbn [after db probation_list];
      try apply lookup_delete_eq; assumption. }
  split; [exact Hnone|].
  rewrite (process_verdict_table _ _ _ _ _ _ Hk). cbn zeta.
  rewrite Hnone, Hs. cbn [String.eqb Ascii.eqb Bool.eqb].
  eexists. split; [reflexivity|].
  cbn [after db probation_list financial_ledger].
  split; [apply lookup_insert_eq|reflexivity].
Qed.

Lemma closed_case_starts_over_witness :
  let w1 := (_process_verdict 120 scenario_A verdict_A HuaweiAdapter.adapter
               (probation_world 100 1)).2 in
  exists w2,
    _process_verdict 121 scenario_A verdict_A HuaweiAdapter.adapter w1
    = (Ok (Indicted (IdStr "UNKNOWN") "LICENSE,BW,ZOMBIE"), w2).
Proof.
  assert (Hrow : probation_list (db (probation_world 100 1)) !! "UNKNOWN"
                 = Some {| offense_summary := "LICENSE,BW,ZOMBIE";
                           start_date := 100; last_seen := 100;
                           strike_count := 1 |})
    by (vm_compute; reflexivity).
  assert (Hs : status verdict_A <> "Innocent") by discriminate.
  assert (Hage : PROBATION_DAYS CONFIG <= 120 - 100) by (cbn; lia).
  pose proof (process_guilty_matured 120 scenario_A verdict_A
                HuaweiAdapter.adapter "UNKNOWN" eq_refl _ _ Hs Hrow Hage)
    as Hrun.
  cbn zeta. rewrite Hrun. cbn [snd].
  destruct (closed_case_starts_over 120 121 scenario_A verdict_A verdict_A
              HuaweiAdapter.adapter "UNKNOWN" _ _ _ eq_refl Hrun I eq_refl)
    as (_ & w2 & Hrun2 & _).
  exists w2. exact Hrun2.
Defined.

(** X19: the strike count counts audits, not days, and stops at 2^63.
    After [n] guilty verdicts on a link under probation, each before the
    record is 15 days old, a count that started as a 64-bit integer (or at
    2^63) is the smaller of the count plus [n] and 2^63; the last-seen date
    is the day of the last verdict; the start date and the offense summary
    are those of the indictment, and the ledger is untouched. *)
Theorem strikes_count_guilty_audits node adapter k audits : forall w row,
  bind_link_id (id node) = Ok k ->
  probation_list (db w) !! k = Some row ->
  - 2 ^ 63 <= strike_count row <= 2 ^ 63 ->
  Forall (fun a => status a.2 = "Guilty"
                   /\ a.1 - start_date row < PROBATION_DAYS CONFIG) audits ->
  let w' := process_all node adapter audits w in
  probation_list (db w') !! k
  = Some {| offense_summary := offense_summary row;
            start_date := start_date row;
            last_seen := default (last_seen row) (last (map fst audits));
            strike_count :=
              Z.min (strike_count row + Z.of_nat (length audits)) (2 ^ 63) |} /\
  financial_ledger (db w') = financial_ledger (db w).
Proof.
  induction audits as [|[today verdict] audits IH];
    intros w row Hk Hrow Hcount Hall; cbn zeta.
  - cbn [process_all map last length default Z.of_nat].
    rewrite Hrow, Z.add_0_r, Z.min_l by lia. destruct row; split; reflexivity.
  - apply Forall_cons in Hall as [[Hs Hage] Hall]. cbn [fst snd] in Hs, Hage.
    cbn [process_all].
    assert (Hs' : status verdict <> "Innocent") by (rewrite Hs; discriminate).
    rewrite (process_guilty_young _ _ _ _ _ Hk _ _ Hs' Hrow Hage). cbn [snd].
    assert (Hadd : add1 (strike_count row) = Z.min (strike_count row + 1) (2 ^ 63)).
    { destruct (Z.eq_dec (strike_count row) (2 ^ 63)) as [He|Hne].
      - rewrite add1_real by lia. lia.
      - rewrite add1_integer by lia. lia. }
    specialize (IH (after w (alter (strike today) k (probation_list (db w)))
                      (financial_ledger (db w)) [EvSelect k; EvUpdate k])
                  (strike today row) Hk).
    cbn zeta in IH. destruct IH as [IHrow IHled].
    + cbn. rewrite lookup_alter_eq, Hrow. reflexivity.
    + cbn [strike strike_count]. rewrite Hadd. lia.
    + exact Hall.
    + split; [|exact IHled].
      rewrite IHrow. cbn [strike offense_summary start_date last_seen strike_count
                          map fst length].
      rewrite Hadd. f_equal. f_equal; [|lia].
      rewrite last_cons. destruct (last (map fst audits)); reflexivity.
Qed.

Lemma strikes_count_guilty_audits_witness :
  probation_list
    (db (process_all scenario_A HuaweiAdapter.adapter
           [(101, verdict_A); (101, verdict_A); (103, verdict_A)]
           (probation_world 100 1))) !! "UNKNOWN"
  = Some {| offense_summary := "LICENSE,BW,ZOMBIE"; start_date := 100;
            last_seen := 103; strike_count := 4 |}.
Proof.
  apply (strikes_count_guilty_audits scenario_A HuaweiAdapter.adapter "UNKNOWN"
           [(101, verdict_A); (101, verdict_A); (103, verdict_A)]
           (probation_world 100 1)
           {| offense_summary := "LICENSE,BW,ZOMBIE"; start_date := 100;
              last_seen := 100; strike_count := 1 |}).
  - reflexivity.
  - vm_compute. reflexivity.
  - cbn. lia.
  - repeat constructor.
Defined.

(** X20: an audit stays with its link. The record of every other link is
    as before, every database call is on the key of the parsed id, and so
    is every new ledger row. *)
Theorem audit_stays_with_its_link today raw_log w data k key :
  HuaweiAdapter.parse raw_log = Ok data ->
  bind_link_id (raw_id data) = Ok k ->
  key <> k ->
  let w' := (ingest_and_audit today raw_log w).2 in
  probation_list (db w') !! key = probation_list (db w) !! key /\
  exists calls rows,
    trace w' = trace w ++ calls /\
    Forall (fun ev => event_key ev = None \/ event_key ev = Some k) calls /\
    financial_ledger (db w') = financial_ledger (db w) ++ rows /\
    Forall (fun row => ledger_link_id row = k) rows.
Proof.
  intros Hparse Hk Hne. cbn zeta.
  destruct (ingest_and_audit today raw_log w) as [r w'] eqn:Hrun. cbn [snd].
  destruct (audit_reaches_database _ _ _ _ _ Hrun)
    as [(Hdb & Htr & _)|(data' & needed & verdict & k' & Hp' & _ & Hk' & Hrun')].
  - rewrite Hdb. split; [reflexivity|].
    destruct Htr as [Htr|Htr]; rewrite Htr.
    + exists [], []. rewrite !app_nil_r. repeat split; constructor.
    + exists [EvParse raw_log], []. rewrite app_nil_r.
      repeat split; repeat constructor.
  - assert (data' = data) by congruence. subst data'.
    assert (k' = k) by congruence. subst k'.
    rewrite (process_verdict_table _ _ _ _ k) in Hrun' by exact Hk.
    cbn zeta in Hrun'.
    repeat case_match; injection Hrun' as -> ->;
      cbn [after db probation_list financial_ledger trace];
      (split;
       [rewrite ?lookup_delete_ne, ?lookup_insert_ne, ?lookup_alter_ne
          by congruence; reflexivity|]);
      rewrite <- app_assoc;
      try solve [
        eexists; exists [];
        split; [reflexivity|];
        split; [apply Forall_cons_2; [left; reflexivity|];
                repeat (apply Forall_cons_2; [right; reflexivity|]);
                apply Forall_nil_2|];
        split; [symmetry; apply app_nil_r|apply Forall_nil_2] ].
    eexists. eexists. split; [reflexivity|]. split; [|split; [reflexivity|]].
    + apply Forall_cons_2; [left; reflexivity|].
      repeat (apply Forall_cons_2; [right; reflexivity|]).
      apply Forall_app. split.
      * apply Forall_forall. intros ev Hev.
        apply list_elem_of_fmap in Hev as (o & -> & _). right. reflexivity.
      * apply Forall_cons_2; [right; reflexivity|apply Forall_nil_2].
    + apply Forall_forall. intros row Hrow.
      apply list_elem_of_fmap in Hrow as (o & -> & _). reflexivity.
Qed.

Lemma audit_stays_with_its_link_witness :
  probation_list (db (ingest_and_audit 120 numbered_log (probation_world 100 1)).2)
    !! "UNKNOWN"
  = probation_list (db (probation_world 100 1)) !! "UNKNOWN".
Proof.
  assert (Hne : "UNKNOWN" <> "42") by discriminate.
  exact (proj1 (audit_stays_with_its_link 120 numbered_log (probation_world 100 1)
                  _ "42" "UNKNOWN" ltac:(vm_compute; reflexivity) eq_refl Hne)).
Defined.

(** ** The simulation *)

(** An audit of the catastrophic log is the processing of the verdict of
    scenario A on the link "UNKNOWN". *)
Lemma audit_of_catastrophic_log today w :
  ingest_and_audit today catastrophic_log w
  = _process_verdict today scenario_A verdict_A HuaweiAdapter.adapter
      (after w (probation_list (db w)) (financial_ledger (db w))
         [EvParse catastrophic_log]).
Proof.
  assert (Hc : PyStr.contains "Current License Capacity" catastrophic_log = true)
    by (vm_compute; reflexivity).
  destruct (huawei_adapter _ Hc) as [Hv Ha].
  rewrite (ingest_and_audit_eq _ _ _ _ Ha). cbn zeta.
  change (parse HuaweiAdapter.adapter catastrophic_log)
    with (HuaweiAdapter.parse catastrophic_log).
  rewrite (proj2 banner_name_is_discarded). cbn [raw_throughput].
  change (needed_license 0.5%float) with (Ok 0).
  rewrite Hv.
  change (node_of "Huawei" _ 0) with scenario_A.
  assert (Hj : _judge_concurrently scenario_A = Ok verdict_A)
    by (vm_compute; reflexivity).
  rewrite Hj. reflexivity.
Qed.

Lemma cheat_time_run w :
  cheat_time w
  = (Ok tt,
     after w (alter (backdate JUDGMENT_START) "DJELFA_GHOST_LINK"
                (probation_list (db w)))
       (financial_ledger (db w)) []).
Proof.
  destruct w as [[pl fl] tr]. unfold cheat_time, bind, read_db, write_db, after.
  cbn. rewrite app_nil_r. reflexivity.
Qed.

(** X21: the simulation does not reach its judgment day. The link of
    the catastrophic log is audited as "UNKNOWN", so the UPDATE that moves
    the start date of 'DJELFA_GHOST_LINK' back finds no record of the
    audit: started on a database without a record for "UNKNOWN", and with
    fewer than 15 days between the two audits, the simulation reports an
    indictment and then surveillance, and writes nothing to the ledger. *)
Theorem simulation_stops_at_surveillance today1 today2 w :
  probation_list (db w) !! "UNKNOWN" = None ->
  today2 - today1 < 15 ->
  let '(r, w') := main today1 today2 w in
  r = Ok (Indicted (IdStr "UNKNOWN") "LICENSE,BW,ZOMBIE",
          Surveillance (IdStr "UNKNOWN") (today2 - today1) "LICENSE,BW,ZOMBIE") /\
  probation_list (db w') !! "UNKNOWN"
  = Some {| offense_summary := "LICENSE,BW,ZOMBIE"; start_date := today1;
            last_seen := today2; strike_count := 2 |} /\
  probation_list (db w') !! "DJELFA_GHOST_LINK"
  = backdate JUDGMENT_START <$> probation_list (db w) !! "DJELFA_GHOST_LINK" /\
  financial_ledger (db w') = financial_ledger (db w).
Proof.
  intros Hnone Hdays.
  assert (Hk : bind_link_id (id scenario_A) = Ok "UNKNOWN") by reflexivity.
  assert (Hs : status verdict_A <> "Innocent") by discriminate.
  unfold main. unfold bind at 1. rewrite audit_of_catastrophic_log.
  rewrite (process_guilty_first _ _ _ _ _ Hk _ Hs) by exact Hnone.
  unfold bind at 1. rewrite cheat_time_run.
  unfold bind at 1. rewrite audit_of_catastrophic_log.
  rewrite !after_after.
  set (row := {| offense_summary := join "," (map code (offenses verdict_A));
                 start_date := today1; last_seen := today1; strike_count := 1 |}).
  assert (Hrow : alter (backdate JUDGMENT_START) "DJELFA_GHOST_LINK"
                   (<["UNKNOWN" := row]> (probation_list (db w))) !! "UNKNOWN"
                 = Some row).
  { rewrite lookup_alter_ne by discriminate. apply lookup_insert_eq. }
  rewrite (process_guilty_young _ _ _ _ _ Hk _ row Hs);
    [|exact Hrow|exact Hdays].
  unfold ret. cbn [after db probation_list financial_ledger].
  split; [reflexivity|]. split; [|split; [|reflexivity]].
  - rewrite lookup_alter_eq, lookup_alter_ne by discriminate.
    rewrite lookup_insert_eq. reflexivity.
  - rewrite lookup_alter_ne by discriminate.
    rewrite lookup_alter_eq, lookup_insert_ne by discriminate. reflexivity.
Qed.

Lemma simulation_stops_at_surveillance_witness :
  (main 739651 739651 empty_world).1
  = Ok (Indicted (IdStr "UNKNOWN") "LICENSE,BW,ZOMBIE",
        Surveillance (IdStr "UNKNOWN") 0 "LICENSE,BW,ZOMBIE").
Proof.
  pose proof (simulation_stops_at_surveillance 739651 739651 empty_world
                eq_refl eq_refl) as H.
  destruct (main 739651 739651 empty_world) as [r w'].
  exact (proj1 H).
Defined.

(** ** Labels *)

Lemma string_of_list_ascii_app l1 l2 :
  string_of_list_ascii (l1 ++ l2)
  = string_of_list_ascii l1 +:+ string_of_list_ascii l2.
Proof.
  induction l1 as [|c l1 IH]; [reflexivity|].
  cbn [app string_of_list_ascii]. rewrite IH. reflexivity.
Qed.

(** A match of a pattern that begins with a literal begins with that
    literal. *)
Lemma matches_lit label r : forall s rest,
  matches (re.lit label ++ r) s rest ->
  exists s', s = list_ascii_of_string label ++ s'.
Proof.
  induction label as [|c label IH]; intros s rest H.
  - exists s. reflexivity.
  - change (re.lit (String c label) ++ r)
      with (re.Chr c :: (re.lit label ++ r)) in H.
    inversion H as [|? ? s0 ? H0|]; subst.
    destruct (IH _ _ H0) as [s' ->]. exists s'. reflexivity.
Qed.

Lemma unlabelled_search label r text :
  PyStr.contains label text = false -> re.search (re.lit label ++ r) text = None.
Proof.
  intros Hc. apply search_none. intros (before & s & rest & Heq & H).
  apply matches_lit in H as [s' ->].
  assert (Ht : PyStr.contains label text = true); [|congruence].
  apply contains_app.
  exists (string_of_list_ascii before), (string_of_list_ascii s').
  rewrite <- (string_of_list_ascii_of_string text), Heq,
    !string_of_list_ascii_app, string_of_list_ascii_of_string.
  reflexivity.
Qed.

(** X22: a field is read only under its full label. A text without
    "Current License Capacity(Mbps)", unit included, has license 0, even
    when it carries the vendor signature; likewise the throughput is 0.0
    without "Air-interface Throughput(Mbps)", the bandwidth 0 without
    "Channel Bandwidth(MHz)", the status "DOWN" without "Port Admin Status"
    and the id "UNKNOWN" without "+++". *)
Theorem fields_need_their_labels text data :
  HuaweiAdapter.parse text = Ok data ->
  (PyStr.contains "Current License Capacity(Mbps)" text = false ->
   raw_license_reserved data = 0) /\
  (PyStr.contains "Air-interface Throughput(Mbps)" text = false ->
   raw_throughput data = 0%float) /\
  (PyStr.contains "Channel Bandwidth(MHz)" text = false ->
   raw_bandwidth data = 0) /\
  (PyStr.contains "Port Admin Status" text = false ->
   raw_status data = "DOWN") /\
  (PyStr.contains "+++" text = false -> raw_id data = IdStr "UNKNOWN").
Proof.
  unfold HuaweiAdapter.parse.
  destruct (HuaweiAdapter.parse_status text) as [st|e] eqn:Hst; [|discriminate].
  intros [= <-].
  cbn [raw_id raw_license_reserved raw_throughput raw_bandwidth raw_status].
  split; [|split; [|split; [|split]]]; intros Hc.
  - unfold safe_extract, HuaweiAdapter.LICENSE_RE.
    rewrite (unlabelled_search _ _ _ Hc). reflexivity.
  - unfold safe_extract, HuaweiAdapter.THROUGHPUT_RE.
    rewrite (unlabelled_search _ _ _ Hc). reflexivity.
  - unfold safe_extract, HuaweiAdapter.BANDWIDTH_RE.
    rewrite (unlabelled_search _ _ _ Hc). reflexivity.
  - unfold HuaweiAdapter.parse_status in Hst.
    replace (re.search HuaweiAdapter.STATUS_MARK_RE text) with (@None (option string))
      in Hst; [congruence|].
    symmetry. unfold HuaweiAdapter.STATUS_MARK_RE.
    rewrite <- (app_nil_r (re.lit "Port Admin Status")).
    apply unlabelled_search. exact Hc.
  - unfold safe_extract, HuaweiAdapter.ID_RE.
    rewrite (unlabelled_search _ _ _ Hc). reflexivity.
Qed.

Lemma fields_need_their_labels_witness :
  let text := "Current License Capacity : 400" in
  detect_vendor text = "Huawei" /\
  exists data, HuaweiAdapter.parse text = Ok data /\ raw_license_reserved data = 0.
Proof.
  intros text. split; [reflexivity|].
  eexists. split; [vm_compute; reflexivity|].
  match goal with
  | |- raw_license_reserved ?d = _ =>
      apply (proj1 (fields_need_their_labels text d eq_refl))
  end.
  reflexivity.
Defined.

(** ** Reading a labelled figure *)

Section Labelled.

Import re.

Lemma list_ascii_of_string_app s1 s2 :
  list_ascii_of_string (s1 +:+ s2)
  = list_ascii_of_string s1 ++ list_ascii_of_string s2.
Proof.
  induction s1 as [|c s1 IH]; [reflexivity|].
  change (list_ascii_of_string (String c s1 +:+ s2))
    with (c :: list_ascii_of_string (s1 +:+ s2)).
  rewrite IH. reflexivity.
Qed.

Lemma match_here_lit label r s :
  match_here (lit label ++ r) (list_ascii_of_string label ++ s) = match_here r s.
Proof.
  induction label as [|c label IH]; [reflexivity|].
  change (lit (String c label) ++ r) with (Chr c :: (lit label ++ r)).
  cbn [list_ascii_of_string app match_here].
  rewrite Ascii.eqb_refl. exact IH.
Qed.

Lemma match_here_chr c r s :
  match_here (Chr c :: r) (c :: s) = match_here r s.
Proof. cbn [match_here]. rewrite Ascii.eqb_refl. reflexivity. Qed.

(** The run of a class ends where the text leaves the class. *)
Lemma span_exact cls run s :
  Forall (fun c => cls c = true) run ->
  (forall c, head s = Some c -> cls c = false) ->
  span cls (run ++ s) = length run.
Proof.
  intros Hrun Hstop. induction Hrun as [|c run Hc _ IH]; cbn [app length span].
  - destruct s as [|c s]; [reflexivity|]. cbn [span].
    rewrite (Hstop c eq_refl). reflexivity.
  - rewrite Hc, IH. reflexivity.
Qed.

Lemma backtrack_first {A} (try : nat -> option A) least k x :
  (least <= k)%nat -> try k = Some x -> backtrack k least try = Some x.
Proof.
  intros Hk Hx. destruct k as [|k]; cbn [backtrack].
  - destruct (Nat.ltb_spec 0 least); [lia|]. rewrite Hx. reflexivity.
  - destruct (Nat.ltb_spec (S k) least); [lia|]. rewrite Hx. reflexivity.
Qed.

(** A greedy repetition takes the whole run when the rest of the pattern
    matches right after it. *)
Lemma match_here_rep cls least group r run s g :
  Forall (fun c => cls c = true) run ->
  (forall c, head s = Some c -> cls c = false) ->
  (least <= length run)%nat ->
  match_here r s = Some g ->
  match_here (Rep cls least group :: r) (run ++ s)
  = Some (if group then Some run else g).
Proof.
  intros Hrun Hstop Hleast Hm. cbn [match_here].
  rewrite (span_exact _ _ _ Hrun Hstop).
  apply backtrack_first; [exact Hleast|].
  rewrite drop_app_length, Hm, take_app_length. reflexivity.
Qed.

Lemma search_from_here r s g :
  match_here r s = Some g -> search_from r s = Some g.
Proof. intros H. destruct s; cbn [search_from]; rewrite H; reflexivity. Qed.

Lemma search_from_skip r s before :
  (forall a b, before = a ++ b -> b <> [] -> match_here r (b ++ s) = None) ->
  search_from r (before ++ s) = search_from r s.
Proof.
  induction before as [|c before IH]; intros Hno; [reflexivity|].
  cbn [app search_from].
  pose proof (Hno [] (c :: before) eq_refl ltac:(discriminate)) as H0.
  cbn [app] in H0. rewrite H0.
  apply IH. intros a b -> Hb. apply (Hno (c :: a) b); [reflexivity|exact Hb].
Qed.

Lemma app_prefix {A} (l1 l2 x y : list A) :
  l1 ++ x = l2 ++ y -> (length l2 <= length l1)%nat -> exists t, l1 = l2 ++ t.
Proof.
  intros Heq Hlen. exists (drop (length l2) l1).
  rewrite <- (take_drop (length l2) l1) at 1. f_equal.
  apply (f_equal (take (length l2))) in Heq.
  rewrite take_app_le, take_app_length in Heq by exact Hlen. exact Heq.
Qed.

(** The figure that follows the first occurrence of a label, a colon
    and optional blanks is group 1 of the search. *)
Lemma search_labelled label' c cls before b1 b2 figure rest :
  let label := label' +:+ String c "" in
  PyStr.contains label (before +:+ label') = false ->
  Forall (fun x => is_space x = true) (list_ascii_of_string b1) ->
  Forall (fun x => is_space x = true) (list_ascii_of_string b2) ->
  figure <> "" ->
  Forall (fun x => cls x = true) (list_ascii_of_string figure) ->
  (forall x, cls x = true -> is_space x = false) ->
  (forall x, head (list_ascii_of_string rest) = Some x -> cls x = false) ->
  search (lit label ++ [Rep is_space 0 false; Chr ":"; Rep is_space 0 false;
                        Rep cls 1 true])
    (before +:+ label +:+ b1 +:+ ":" +:+ b2 +:+ figure +:+ rest)
  = Some (Some figure).
Proof.
  intros label Hfirst Hb1 Hb2 Hne Hfig Hcls Hrest. unfold search.
  rewrite !list_ascii_of_string_app.
  set (r := lit label ++ _).
  set (tail := list_ascii_of_string b1 ++ _).
  assert (Hfig1 : exists x fig, list_ascii_of_string figure = x :: fig).
  { destruct figure as [|x fig]; [congruence|]. cbn. eauto. }
  destruct Hfig1 as (x & fig & Hfig1).
  assert (Hhere : match_here r (list_ascii_of_string label ++ tail)
                  = Some (Some (list_ascii_of_string figure))).
  { unfold r, tail. rewrite match_here_lit.
    rewrite (match_here_rep is_space 0 false _ _ _
               (Some (list_ascii_of_string figure)) Hb1); [reflexivity| |lia|].
    - intros y [= <-]. reflexivity.
    - change (list_ascii_of_string ":") with [":"%char]. cbn [app].
      rewrite match_here_chr.
      rewrite (match_here_rep is_space 0 false _ _ _
                 (Some (list_ascii_of_string figure)) Hb2); [reflexivity| |lia|].
      + rewrite Hfig1. intros y [= <-]. apply Hcls.
        rewrite Hfig1 in Hfig. apply Forall_cons in Hfig as [Hx _]. exact Hx.
      + rewrite (match_here_rep cls 1 true [] _ _ None Hfig Hrest);
          [reflexivity| |reflexivity].
        rewrite Hfig1. cbn. lia. }
  rewrite search_from_skip.
  - rewrite (search_from_here _ _ _ Hhere). cbn [option_map].
    rewrite string_of_list_ascii_of_string. reflexivity.
  - intros a b Hab Hb.
    destruct (match_here r (b ++ list_ascii_of_string label ++ tail))
      as [g|] eqn:Hm; [exfalso|reflexivity].
    assert (Hsome : match_here r (b ++ list_ascii_of_string label ++ tail) <> None)
      by congruence.
    apply match_here_some in Hsome as [rest' Hsome].
    apply matches_lit in Hsome as [s' Heq].
    assert (Hl : list_ascii_of_string label = list_ascii_of_string label' ++ [c]).
    { unfold label. rewrite list_ascii_of_string_app. reflexivity. }
    rewrite Hl in Heq.
    assert (Heq' : (b ++ list_ascii_of_string label') ++ ([c] ++ tail)
                   = (list_ascii_of_string label' ++ [c]) ++ s').
    { rewrite <- Heq, <- !app_assoc. reflexivity. }
    apply app_prefix in Heq' as [t Ht].
    + assert (Hc : PyStr.contains label (before +:+ label') = true);
        [|congruence].
      apply contains_app.
      exists (string_of_list_ascii a), (string_of_list_ascii t).
      rewrite <- (string_of_list_ascii_of_string (before +:+ label')).
      rewrite list_ascii_of_string_app, Hab, <- app_assoc, Ht, <- Hl.
      rewrite !string_of_list_ascii_app, string_of_list_ascii_of_string.
      reflexivity.
    + rewrite !length_app. cbn [length].
      destruct b; [congruence|]. cbn [length]. lia.
Qed.

End Labelled.

Lemma forallb_Forall {A} (f : A -> bool) l :
  forallb f l = true -> Forall (fun x => f x = true) l.
Proof.
  induction l as [|x l IH]; cbn [forallb]; [constructor|].
  intros H. apply andb_true_iff in H as [Hx Hl].
  constructor; [exact Hx|apply IH; exact Hl].
Qed.

(** X23: [safe_extract] reads a labelled figure at the first occurrence
    of its label. The pattern is "label, optional blanks, a colon, optional
    blanks, a group of one or more characters of a class that has no
    blank". The text is [before], the label, blanks, a colon, blanks, a
    figure and [rest], where the label occurs nowhere earlier, the figure
    is a non-empty run of the class and [rest] does not go on with it.
    Then the result is the conversion of that figure, or the default when
    the conversion raises. Nothing is said of a text whose first
    occurrence of the label is not followed by a colon and a figure: there
    the search goes on to later occurrences. *)
Theorem safe_extract_reads_the_first_labelled_figure {A}
    label' c cls (default : A) return_type before b1 b2 figure rest :
  let label := label' +:+ String c "" in
  let pattern :=
    re.lit label ++ [re.Rep re.is_space 0 false; re.Chr ":";
                     re.Rep re.is_space 0 false; re.Rep cls 1 true] in
  PyStr.contains label (before +:+ label') = false ->
  forallb re.is_space (list_ascii_of_string b1) = true ->
  forallb re.is_space (list_ascii_of_string b2) = true ->
  figure <> "" ->
  forallb cls (list_ascii_of_string figure) = true ->
  (forall x, cls x = true -> re.is_space x = false) ->
  (forall x, head (list_ascii_of_string rest) = Some x -> cls x = false) ->
  safe_extract pattern
    (before +:+ label +:+ b1 +:+ ":" +:+ b2 +:+ figure +:+ rest)
    default return_type
  = match return_type figure with Ok v => v | Raise _ => default end.
Proof.
  intros label pattern Hfirst Hb1 Hb2 Hne Hfig Hcls Hrest.
  apply forallb_Forall in Hb1, Hb2, Hfig.
  unfold safe_extract, pattern, label.
  rewrite (search_labelled label' c cls before b1 b2 figure rest); auto.
Qed.

Lemma safe_extract_reads_the_first_labelled_figure_witness :
  safe_extract HuaweiAdapter.LICENSE_RE
    ("+++ 42" +:+ NL +:+ "Current License Capacity(Mbps)" +:+ "  " +:+ ":"
     +:+ " " +:+ "400" +:+ " Mbps")
    0 HuaweiAdapter.as_int
  = 400.
Proof.
  apply (safe_extract_reads_the_first_labelled_figure
           "Current License Capacity(Mbps" ")"%char re.is_digit 0
           HuaweiAdapter.as_int ("+++ 42" +:+ NL) "  " " " "400" " Mbps").
  - vm_compute. reflexivity.
  - reflexivity.
  - reflexivity.
  - discriminate.
  - reflexivity.
  - intros x Hx. destruct x as [[] [] [] [] [] [] [] []]; try discriminate Hx;
      reflexivity.
  - intros x [= <-]. reflexivity.
Defined.
